(** * SillyTavern-CCPromptManager: template lock resolution and application

    A shallow embedding of the locking core of the prompt template manager
    (classes [ChatContext], [TemplateStorageAdapter], [TemplateLockResolver],
    [TemplateLockManager] and the [applyTemplate] / change handlers of
    [PromptTemplateManager]) together with the properties stated for it.

    Conventions of the embedding:
    - a JavaScript value that is "a string, [null] or [undefined]" is an
      [option string]; [None] stands for both [null] and [undefined];
    - truthiness of such a value is [truthy]: the empty string is falsy;
    - strings are byte strings holding UTF-8 text;
    - the imported host bindings ([selected_group], [groups], [name2],
      [chat_metadata], [extension_settings], [oai_settings], [promptManager],
      ...) are the fields of one record [World], threaded through every
      operation; calls into the host that only have an effect
      ([saveSettingsDebounced], [editGroup], ...) are appended to the
      [effects] log of the world. *)

From stdpp Require Import gmap strings list fin_maps pretty.
From Stdlib Require Import ZArith Ascii String.

Local Open Scope string_scope.
Local Open Scope Z_scope.

(** ** Constants *)

Definition MODULE_NAME : string := "CCPM".
Definition CACHE_TTL : Z := 1000.

Module CHAT_TYPES.
Definition SINGLE : string := "single".
Definition GROUP : string := "group".
End CHAT_TYPES.

Module SETTING_SOURCES.
Definition CHARACTER : string := "character".
Definition CHAT : string := "chat".
Definition GROUP : string := "group".
Definition GROUP_CHAT : string := "group chat".
End SETTING_SOURCES.

Module AUTO_APPLY_MODES.
Definition NEVER : string := "never".
Definition ASK : string := "ask".
Definition ALWAYS : string := "always".
End AUTO_APPLY_MODES.

(** ** JavaScript values used by the locking core *)

(** [if (v)] on a string-or-null value. *)
Definition truthy (v : option string) : bool :=
  match v with
  | Some s => negb (String.eqb s "")
  | None => false
  end.

(** [v || null]. *)
Definition or_null (v : option string) : option string :=
  if truthy v then v else None.

(** A thrown exception. *)
Inductive Error : Type := Err (msg : string).

(** Outcome of a call that may throw. *)
Inductive Result (A : Type) : Type :=
| Ok (a : A)
| Throw (e : Error).
Arguments Ok {A} a.
Arguments Throw {A} e.

(** A value that is a number or a string, as [character_id] of a prompt
    order entry or the key of a character lock. *)
Inductive JsId : Type :=
| IdNum (n : Z)
| IdStr (s : string).

(** [String(v)] for an integer or a string. *)
Definition js_String (v : JsId) : string :=
  match v with
  | IdNum n => pretty n
  | IdStr s => s
  end.

(** ** [String.prototype.trim]

    White space and line terminators of ECMAScript, as UTF-8 byte
    sequences: TAB, LF, VT, FF, CR, SP (one byte); U+00A0 (two bytes);
    U+1680, U+2000..U+200A, U+2028, U+2029, U+202F, U+205F, U+3000 and
    U+FEFF (three bytes). *)

Definition byte_of (a : ascii) : N := N_of_ascii a.

Definition is_ws1 (a : ascii) : bool :=
  let n := byte_of a in
  ((9 <=? n)%N && (n <=? 13)%N) || (n =? 32)%N.

Definition is_ws2 (a b : ascii) : bool :=
  (byte_of a =? 194)%N && (byte_of b =? 160)%N.

Definition is_ws3 (a b c : ascii) : bool :=
  let x := byte_of a in
  let y := byte_of b in
  let z := byte_of c in
  ((x =? 225)%N && (y =? 154)%N && (z =? 128)%N)
  || ((x =? 226)%N && (y =? 128)%N
      && (((128 <=? z)%N && (z <=? 138)%N)
          || (z =? 168)%N || (z =? 169)%N || (z =? 175)%N))
  || ((x =? 226)%N && (y =? 129)%N && (z =? 159)%N)
  || ((x =? 227)%N && (y =? 128)%N && (z =? 128)%N)
  || ((x =? 239)%N && (y =? 187)%N && (z =? 191)%N).

(** Drops the white space at the head of a byte list; [w2] and [w3]
    recognise the two- and three-byte sequences in reading order. *)
Fixpoint strip_ws (w2 : ascii -> ascii -> bool)
    (w3 : ascii -> ascii -> ascii -> bool) (s : list ascii) : list ascii :=
  match s with
  | [] => []
  | a :: s1 =>
    if is_ws1 a then strip_ws w2 w3 s1
    else match s1 with
         | [] => s
         | b :: s2 =>
           if w2 a b then strip_ws w2 w3 s2
           else match s2 with
                | [] => s
                | c :: s3 => if w3 a b c then strip_ws w2 w3 s3 else s
                end
         end
  end.

Definition trimStart (s : list ascii) : list ascii :=
  strip_ws is_ws2 is_ws3 s.

(** The tail is stripped on the reversed list, where the multi-byte
    sequences appear back to front. *)
Definition trimEnd (s : list ascii) : list ascii :=
  rev (strip_ws (fun a b => is_ws2 b a) (fun a b c => is_ws3 c b a) (rev s)).

Definition trim (s : string) : string :=
  string_of_list_ascii (trimEnd (trimStart (list_ascii_of_string s))).

(** ** Context snapshots *)

Record Context : Type := mkContext {
  type : string;
  isGroupChat : bool;
  groupId : option string;
  groupName : option string;
  chatId : option string;
  chatName : option string;
  characterName : option string;
  primaryId : option string;
  secondaryId : option string
}.

(** ** Host state *)

(** A group record of the host ([groups] of group-chats.js). *)
Record HostGroup : Type := mkGroup {
  g_id : string;
  g_name : option string;
  g_chat_id : option string;
  ccpm_template_lock : option string
}.

(** [chat_metadata[MODULE_NAME]]. *)
Record ChatLockEntry : Type := mkChatLockEntry {
  templateLock : option string
}.

(** [chat_metadata]: the stored character name ([None] when missing or not
    a string) and the extension's own entry. *)
Record ChatMetadata : Type := mkChatMetadata {
  character_name : option string;
  md_ccpm : option ChatLockEntry
}.

(** [extension_settings[MODULE_NAME].templateLocks]. *)
Record TemplateLocks : Type := mkTemplateLocks {
  tl_character : option (gmap string string)
}.

(** [extension_settings[MODULE_NAME]], the object the storage adapter and
    the resolver read; the three preference fields hold the truthiness of
    the stored properties ([false] when the property is missing). *)
Record StorageSettings : Type := mkStorageSettings {
  templateLocks : option TemplateLocks;
  preferCharacterOverChat : bool;
  preferGroupOverChat : bool;
  preferIndividualCharacterInGroup : bool
}.

(** [extension_settings.ccPromptManager], as far as the handlers read it. *)
Record ManagerSettings : Type := mkManagerSettings {
  autoApplyMode : option string
}.

(** A prompt of [oai_settings.prompts]. *)
Record Prompt : Type := mkPrompt {
  identifier : string;
  role : string;
  content : string;
  injection_position : Z;
  injection_depth : Z
}.

(** An item of a prompt order and an entry of [oai_settings.prompt_order]. *)
Record OrderItem : Type := mkOrderItem {
  oi_identifier : string;
  enabled : bool
}.

Record OrderEntry : Type := mkOrderEntry {
  character_id : JsId;
  order : list OrderItem
}.

(** [promptManager]: the active character, and whether
    [saveServiceSettings] and [render] complete or throw. *)
Record PromptManager : Type := mkPromptManager {
  activeCharacter : option JsId;
  saveServiceSettings_throws : option Error;
  render_throws : option Error
}.

(** Calls into the host that leave a trace. *)
Inductive Effect : Type :=
| SaveSettingsDebounced
| SaveMetadataDebounced
| EditGroup (groupId : string)
| SaveServiceSettings
| Render.

(** The imported host bindings and what the calls into the host do:
    - [selected_group], [groups], [name2], [systemUserName],
      [neutralCharacterName], [characters] ([None] when the list is
      undefined) and [chat_metadata] ([None] when undefined or null);
    - [context_chatId]: [getContext()?.chatId], [None] also when
      [getContext] throws;
    - [String_normalize]: [String.prototype.normalize] with form NFC,
      [None] on a host without it;
    - [build_fault]: an exception a host binding raises while a context
      snapshot is assembled;
    - [ext_ccpm], [ext_ccPromptManager]: [extension_settings[MODULE_NAME]]
      and [extension_settings.ccPromptManager];
    - [oai_prompts], [oai_prompt_order]: [oai_settings.prompts] and
      [oai_settings.prompt_order];
    - [promptManager]: [None] when the prompt manager is not available;
    - [saveMetadataDebounced_throws], [editGroup_throws]: the exception
      the call raises, if it raises one;
    - [effects]: the calls made so far. *)
Record World : Type := mkWorld {
  selected_group : option string;
  groups : list HostGroup;
  name2 : option string;
  systemUserName : string;
  neutralCharacterName : string;
  characters : option (list string);
  chat_metadata : option ChatMetadata;
  context_chatId : option string;
  String_normalize : option (string -> string);
  build_fault : option Error;
  ext_ccpm : option StorageSettings;
  ext_ccPromptManager : option ManagerSettings;
  oai_prompts : option (list Prompt);
  oai_prompt_order : option (list OrderEntry);
  promptManager : option PromptManager;
  saveMetadataDebounced_throws : option Error;
  editGroup_throws : option Error;
  effects : list Effect
}.

(** ** class ChatContext *)

Module ChatContext.

(** [cache] is the [Map] of the class, which only ever holds the key
    ['current']; [builds] counts the calls of [_buildContext]. *)
Record t : Type := mk {
  cache : option Context;
  cacheTime : Z;
  builds : nat
}.

Definition new : t := {| cache := None; cacheTime := 0; builds := 0%nat |}.

Definition invalidate (st : t) : t :=
  {| cache := None; cacheTime := 0; builds := builds st |}.

Definition find_group (gid : string) (gs : list HostGroup)
  : option HostGroup :=
  List.find (fun x => String.eqb (g_id x) gid) gs.

Definition _buildGroupContext (w : World) (gid : string) : Context :=
  let group := find_group gid (groups w) in
  {| type := CHAT_TYPES.GROUP;
     isGroupChat := true;
     groupId := Some gid;
     groupName := or_null (group ≫= g_name);
     chatId := or_null (group ≫= g_chat_id);
     chatName := or_null (group ≫= g_name);
     characterName := or_null (group ≫= g_name);
     primaryId := Some gid;
     secondaryId := group ≫= g_chat_id |}.

Definition _getCharacterNameFromChatMetadata (w : World) : option string :=
  let characterName := chat_metadata w ≫= character_name in
  match characterName with
  | Some s => if truthy characterName then Some (trim s) else None
  | None => None
  end.

Definition _getCurrentChatId (w : World) : option string :=
  or_null (context_chatId w).

Definition is_name (v : option string) (s : string) : bool :=
  match v with
  | Some x => String.eqb x s
  | None => false
  end.

Definition _getCharacterNameForSettings (w : World) : option string :=
  let characterName := name2 w in
  let characterName :=
    if negb (truthy characterName)
       || is_name characterName (systemUserName w)
       || is_name characterName (neutralCharacterName w)
    then _getCharacterNameFromChatMetadata w
    else characterName in
  match characterName with
  | Some s =>
    if negb (truthy characterName) then None
    else
      let s := trim s in
      match String_normalize w with
      | Some normalize => Some (normalize s)
      | None => Some s
      end
  | None => None
  end.

Definition _buildSingleContext (w : World) : Context :=
  let characterName := _getCharacterNameForSettings w in
  let chatId := _getCurrentChatId w in
  {| type := CHAT_TYPES.SINGLE;
     isGroupChat := false;
     groupId := None;
     groupName := None;
     chatId := chatId;
     chatName := chatId;
     characterName := characterName;
     primaryId := characterName;
     secondaryId := chatId |}.

Definition _buildContext (w : World) : Result Context :=
  match build_fault w with
  | Some e => Throw e
  | None =>
    match selected_group w with
    | Some gid =>
      if truthy (selected_group w) then Ok (_buildGroupContext w gid)
      else Ok (_buildSingleContext w)
    | None => Ok (_buildSingleContext w)
    end
  end.

Definition has_current (st : t) : bool :=
  match cache st with Some _ => true | None => false end.

(** [now] is the value of [Date.now()] read by the call. *)
Definition getCurrent (now : Z) (w : World) (st : t) : Result Context * t :=
  match (now - cacheTime st <? CACHE_TTL) && has_current st, cache st with
  | true, Some c => (Ok c, st)
  | _, _ =>
    match _buildContext w with
    | Ok context =>
      (Ok context,
       {| cache := Some context; cacheTime := now;
          builds := S (builds st) |})
    | Throw error =>
      let st' := {| cache := cache st; cacheTime := cacheTime st;
                    builds := S (builds st) |} in
      match cache st with
      | Some c => (Ok c, st')
      | None => (Throw error, st')
      end
    end
  end.

End ChatContext.

(** ** Updates of the host state *)

Definition set_groups (gs : list HostGroup) (w : World) : World :=
  mkWorld (selected_group w) gs (name2 w) (systemUserName w)
    (neutralCharacterName w) (characters w) (chat_metadata w)
    (context_chatId w) (String_normalize w) (build_fault w) (ext_ccpm w)
    (ext_ccPromptManager w) (oai_prompts w) (oai_prompt_order w)
    (promptManager w) (saveMetadataDebounced_throws w) (editGroup_throws w)
    (effects w).

Definition set_chat_metadata (md : option ChatMetadata) (w : World) : World :=
  mkWorld (selected_group w) (groups w) (name2 w) (systemUserName w)
    (neutralCharacterName w) (characters w) md
    (context_chatId w) (String_normalize w) (build_fault w) (ext_ccpm w)
    (ext_ccPromptManager w) (oai_prompts w) (oai_prompt_order w)
    (promptManager w) (saveMetadataDebounced_throws w) (editGroup_throws w)
    (effects w).

Definition set_ext_ccpm (es : option StorageSettings) (w : World) : World :=
  mkWorld (selected_group w) (groups w) (name2 w) (systemUserName w)
    (neutralCharacterName w) (characters w) (chat_metadata w)
    (context_chatId w) (String_normalize w) (build_fault w) es
    (ext_ccPromptManager w) (oai_prompts w) (oai_prompt_order w)
    (promptManager w) (saveMetadataDebounced_throws w) (editGroup_throws w)
    (effects w).

Definition set_oai_prompts (ps : option (list Prompt)) (w : World) : World :=
  mkWorld (selected_group w) (groups w) (name2 w) (systemUserName w)
    (neutralCharacterName w) (characters w) (chat_metadata w)
    (context_chatId w) (String_normalize w) (build_fault w) (ext_ccpm w)
    (ext_ccPromptManager w) ps (oai_prompt_order w)
    (promptManager w) (saveMetadataDebounced_throws w) (editGroup_throws w)
    (effects w).

Definition set_oai_prompt_order (po : option (list OrderEntry)) (w : World)
  : World :=
  mkWorld (selected_group w) (groups w) (name2 w) (systemUserName w)
    (neutralCharacterName w) (characters w) (chat_metadata w)
    (context_chatId w) (String_normalize w) (build_fault w) (ext_ccpm w)
    (ext_ccPromptManager w) (oai_prompts w) po
    (promptManager w) (saveMetadataDebounced_throws w) (editGroup_throws w)
    (effects w).

Definition set_promptManager (pm : option PromptManager) (w : World) : World :=
  mkWorld (selected_group w) (groups w) (name2 w) (systemUserName w)
    (neutralCharacterName w) (characters w) (chat_metadata w)
    (context_chatId w) (String_normalize w) (build_fault w) (ext_ccpm w)
    (ext_ccPromptManager w) (oai_prompts w) (oai_prompt_order w)
    pm (saveMetadataDebounced_throws w) (editGroup_throws w)
    (effects w).

(** The log grows at its end: the oldest call comes first. *)
Definition log_effect (e : Effect) (w : World) : World :=
  mkWorld (selected_group w) (groups w) (name2 w) (systemUserName w)
    (neutralCharacterName w) (characters w) (chat_metadata w)
    (context_chatId w) (String_normalize w) (build_fault w) (ext_ccpm w)
    (ext_ccPromptManager w) (oai_prompts w) (oai_prompt_order w)
    (promptManager w) (saveMetadataDebounced_throws w) (editGroup_throws w)
    (effects w ++ [e]).

(** Changes made by the host itself between calls. *)

Definition set_name2 (n : option string) (w : World) : World :=
  mkWorld
    (selected_group w) (groups w) n (systemUserName w)
    (neutralCharacterName w) (characters w) (chat_metadata w)
    (context_chatId w) (String_normalize w) (build_fault w) (ext_ccpm w)
    (ext_ccPromptManager w) (oai_prompts w) (oai_prompt_order w)
    (promptManager w) (saveMetadataDebounced_throws w) (editGroup_throws w)
    (effects w).

Definition set_selected_group (g : option string) (w : World) : World :=
  mkWorld
    g (groups w) (name2 w) (systemUserName w) (neutralCharacterName w)
    (characters w) (chat_metadata w) (context_chatId w) (String_normalize w)
    (build_fault w) (ext_ccpm w) (ext_ccPromptManager w) (oai_prompts w)
    (oai_prompt_order w) (promptManager w) (saveMetadataDebounced_throws w)
    (editGroup_throws w) (effects w).

Definition set_build_fault (e : option Error) (w : World) : World :=
  mkWorld
    (selected_group w) (groups w) (name2 w) (systemUserName w)
    (neutralCharacterName w) (characters w) (chat_metadata w)
    (context_chatId w) (String_normalize w) e (ext_ccpm w)
    (ext_ccPromptManager w) (oai_prompts w) (oai_prompt_order w)
    (promptManager w) (saveMetadataDebounced_throws w) (editGroup_throws w)
    (effects w).

Definition set_ext_ccPromptManager (ms : option ManagerSettings)
    (w : World) : World :=
  mkWorld
    (selected_group w) (groups w) (name2 w) (systemUserName w)
    (neutralCharacterName w) (characters w) (chat_metadata w)
    (context_chatId w) (String_normalize w) (build_fault w) (ext_ccpm w) ms
    (oai_prompts w) (oai_prompt_order w) (promptManager w)
    (saveMetadataDebounced_throws w) (editGroup_throws w) (effects w).

Definition set_saveMetadataDebounced_throws (e : option Error)
    (w : World) : World :=
  mkWorld
    (selected_group w) (groups w) (name2 w) (systemUserName w)
    (neutralCharacterName w) (characters w) (chat_metadata w)
    (context_chatId w) (String_normalize w) (build_fault w) (ext_ccpm w)
    (ext_ccPromptManager w) (oai_prompts w) (oai_prompt_order w)
    (promptManager w) e (editGroup_throws w) (effects w).

(** ** class TemplateStorageAdapter *)

Module TemplateStorageAdapter.

Definition EXTENSION_KEY : string := MODULE_NAME.

(** The settings object is created on first use; [templates] and
    [version] of the fresh object are not read by the locking core. *)
Definition getExtensionSettings (w : World) : StorageSettings * World :=
  match ext_ccpm w with
  | Some es => (es, w)
  | None =>
    let es := {| templateLocks := Some {| tl_character := None |};
                 preferCharacterOverChat := false;
                 preferGroupOverChat := false;
                 preferIndividualCharacterInGroup := false |} in
    (es, set_ext_ccpm (Some es) w)
  end.

Definition saveExtensionSettings (w : World) : World :=
  log_effect SaveSettingsDebounced w.

(** [extensionSettings.templateLocks?.character?.[key]] *)
Definition character_lock_at (es : StorageSettings) (key : string)
  : option string :=
  match templateLocks es ≫= tl_character with
  | Some m => m !! key
  | None => None
  end.

Definition with_character_locks (es : StorageSettings)
    (m : gmap string string) : StorageSettings :=
  {| templateLocks := Some {| tl_character := Some m |};
     preferCharacterOverChat := preferCharacterOverChat es;
     preferGroupOverChat := preferGroupOverChat es;
     preferIndividualCharacterInGroup :=
       preferIndividualCharacterInGroup es |}.

(** *** Character template locks *)

Definition getCharacterTemplateLock (characterKey : option JsId) (w : World)
  : option string * World :=
  match characterKey with
  | None => (None, w)
  | Some k =>
    let '(extensionSettings, w) := getExtensionSettings w in
    let chIdKey := js_String k in
    (or_null (character_lock_at extensionSettings chIdKey), w)
  end.

Definition setCharacterTemplateLock (characterKey : option JsId)
    (templateId : string) (w : World) : bool * World :=
  match characterKey with
  | None => (false, w)
  | Some k =>
    let '(extensionSettings, w) := getExtensionSettings w in
    let locks :=
      default ∅ (templateLocks extensionSettings ≫= tl_character) in
    let saveKey := js_String k in
    let w :=
      set_ext_ccpm
        (Some (with_character_locks extensionSettings
                 (<[saveKey := templateId]> locks))) w in
    (true, saveExtensionSettings w)
  end.

Definition deleteCharacterTemplateLock (characterKey : option JsId)
    (w : World) : bool * World :=
  match characterKey with
  | None => (false, w)
  | Some k =>
    let '(extensionSettings, w) := getExtensionSettings w in
    let chIdKey := js_String k in
    if truthy (character_lock_at extensionSettings chIdKey) then
      let locks :=
        default ∅ (templateLocks extensionSettings ≫= tl_character) in
      let w :=
        set_ext_ccpm
          (Some (with_character_locks extensionSettings
                   (delete chIdKey locks))) w in
      (true, saveExtensionSettings w)
    else (false, w)
  end.

(** *** Group template locks *)

(** Assignment to a property of the group object [groups.find] returns:
    the first group with that id is changed in place. *)
Fixpoint update_group (gid : string) (f : HostGroup -> HostGroup)
    (gs : list HostGroup) : list HostGroup :=
  match gs with
  | [] => []
  | g :: gs' =>
    if String.eqb (g_id g) gid then f g :: gs'
    else g :: update_group gid f gs'
  end.

Definition with_lock (l : option string) (g : HostGroup) : HostGroup :=
  {| g_id := g_id g; g_name := g_name g; g_chat_id := g_chat_id g;
     ccpm_template_lock := l |}.

(** [await editGroup(groupId, false, false)] *)
Definition editGroup (gid : string) (w : World) : Result World :=
  match editGroup_throws w with
  | Some e => Throw e
  | None => Ok (log_effect (EditGroup gid) w)
  end.

Definition getGroupTemplateLock (groupId : option string) (w : World)
  : option string :=
  match groupId with
  | Some gid =>
    if truthy groupId then
      let group := ChatContext.find_group gid (groups w) in
      or_null (group ≫= ccpm_template_lock)
    else None
  | None => None
  end.

Definition setGroupTemplateLock (groupId : option string)
    (templateId : string) (w : World) : bool * World :=
  match groupId with
  | Some gid =>
    if truthy groupId then
      match ChatContext.find_group gid (groups w) with
      | None => (false, w)
      | Some group =>
        let w :=
          set_groups
            (update_group gid (with_lock (Some templateId)) (groups w)) w in
        match editGroup gid w with
        | Ok w => (true, w)
        | Throw error => (false, w)
        end
      end
    else (false, w)
  | None => (false, w)
  end.

Definition deleteGroupTemplateLock (groupId : option string) (w : World)
  : bool * World :=
  match groupId with
  | Some gid =>
    if truthy groupId then
      let group := ChatContext.find_group gid (groups w) in
      if truthy (group ≫= ccpm_template_lock) then
        let w := set_groups (update_group gid (with_lock None) (groups w)) w in
        match editGroup gid w with
        | Ok w => (true, w)
        | Throw error => (false, w)
        end
      else (false, w)
    else (false, w)
  | None => (false, w)
  end.

(** *** Chat template locks *)

Definition _triggerMetadataSave (w : World) : World :=
  match saveMetadataDebounced_throws w with
  | Some error => w
  | None => log_effect SaveMetadataDebounced w
  end.

(** [metadata[EXTENSION_KEY].templateLock = l], the entry being created
    when it is missing. *)
Definition with_templateLock (l : option string) (md : ChatMetadata)
  : ChatMetadata :=
  {| character_name := character_name md;
     md_ccpm := Some {| templateLock := l |} |}.

Definition getChatTemplateLock (w : World) : option string :=
  or_null ((chat_metadata w ≫= md_ccpm) ≫= templateLock).

Definition setChatTemplateLock (templateId : string) (w : World)
  : bool * World :=
  match chat_metadata w with
  | None => (false, w)
  | Some metadata =>
    let w :=
      set_chat_metadata
        (Some (with_templateLock (Some templateId) metadata)) w in
    (true, _triggerMetadataSave w)
  end.

Definition deleteChatTemplateLock (w : World) : bool * World :=
  match chat_metadata w with
  | Some metadata =>
    if truthy (md_ccpm metadata ≫= templateLock) then
      let w := set_chat_metadata (Some (with_templateLock None metadata)) w in
      (true, _triggerMetadataSave w)
    else (false, w)
  | None => (false, w)
  end.

(** *** Group chat template locks *)

Definition getGroupChatTemplateLock (groupId : option string) (w : World)
  : option string :=
  if truthy groupId then
    or_null ((chat_metadata w ≫= md_ccpm) ≫= templateLock)
  else None.

Definition setGroupChatTemplateLock (groupId : option string)
    (templateId : string) (w : World) : bool * World :=
  if truthy groupId then
    match chat_metadata w with
    | Some metadata =>
      (true,
       set_chat_metadata
         (Some (with_templateLock (Some templateId) metadata)) w)
    | None => (false, w)
    end
  else (false, w).

Definition deleteGroupChatTemplateLock (groupId : option string) (w : World)
  : bool * World :=
  if truthy groupId then
    match chat_metadata w with
    | Some metadata =>
      if truthy (md_ccpm metadata ≫= templateLock) then
        (true, set_chat_metadata (Some (with_templateLock None metadata)) w)
      else (false, w)
    | None => (false, w)
    end
  else (false, w).

End TemplateStorageAdapter.

(** ** Locks and resolution results *)

(** [currentLocks]: one template id or [null] per slot.  In a group chat
    the [chat] slot holds the lock of the group's chat session. *)
Record Locks : Type := mkLocks {
  character : option string;
  chat : option string;
  group : option string
}.

Record LockResult : Type := mkLockResult {
  templateId : option string;
  source : string
}.

Definition fallback (s : string) : string := s ++ " (fallback)".

(** ** class TemplateLockResolver *)

Module TemplateLockResolver.

Definition _resolveGroupLocks (prefs : StorageSettings) (context : Context)
    (locks : Locks) : LockResult :=
  if preferIndividualCharacterInGroup prefs && truthy (character locks) then
    {| templateId := character locks; source := SETTING_SOURCES.CHARACTER |}
  else if preferGroupOverChat prefs then
    if truthy (group locks) then
      {| templateId := group locks; source := SETTING_SOURCES.GROUP |}
    else if truthy (chat locks) then
      {| templateId := chat locks;
         source := fallback SETTING_SOURCES.GROUP_CHAT |}
    else if truthy (character locks) then
      {| templateId := character locks;
         source := fallback SETTING_SOURCES.CHARACTER |}
    else {| templateId := None; source := "none" |}
  else
    if truthy (chat locks) then
      {| templateId := chat locks; source := SETTING_SOURCES.GROUP_CHAT |}
    else if truthy (group locks) then
      {| templateId := group locks;
         source := fallback SETTING_SOURCES.GROUP |}
    else if truthy (character locks) then
      {| templateId := character locks;
         source := fallback SETTING_SOURCES.CHARACTER |}
    else {| templateId := None; source := "none" |}.

Definition _resolveSingleLocks (prefs : StorageSettings) (context : Context)
    (locks : Locks) : LockResult :=
  if preferCharacterOverChat prefs then
    if truthy (character locks) then
      {| templateId := character locks;
         source := SETTING_SOURCES.CHARACTER |}
    else if truthy (chat locks) then
      {| templateId := chat locks; source := fallback SETTING_SOURCES.CHAT |}
    else {| templateId := None; source := "none" |}
  else
    if truthy (chat locks) then
      {| templateId := chat locks; source := SETTING_SOURCES.CHAT |}
    else if truthy (character locks) then
      {| templateId := character locks;
         source := fallback SETTING_SOURCES.CHARACTER |}
    else {| templateId := None; source := "none" |}.

(** [extensionSettings] is the object given to the constructor. *)
Definition resolve (extensionSettings : StorageSettings) (context : Context)
    (availableLocks : Locks) : LockResult :=
  if isGroupChat context then
    _resolveGroupLocks extensionSettings context availableLocks
  else
    _resolveSingleLocks extensionSettings context availableLocks.

End TemplateLockResolver.

(** The earlier revision of the resolver kept in the same source file: the
    priorities are fixed and the settings object is stored but not read. *)
Module LegacyTemplateLockResolver.

Definition _resolveGroupLocks (context : Context) (locks : Locks)
  : LockResult :=
  if truthy (group locks) then
    {| templateId := group locks; source := SETTING_SOURCES.GROUP |}
  else if truthy (chat locks) then
    {| templateId := chat locks; source := SETTING_SOURCES.GROUP_CHAT |}
  else if truthy (character locks) then
    {| templateId := character locks; source := SETTING_SOURCES.CHARACTER |}
  else {| templateId := None; source := "none" |}.

Definition _resolveSingleLocks (context : Context) (locks : Locks)
  : LockResult :=
  if truthy (character locks) then
    {| templateId := character locks; source := SETTING_SOURCES.CHARACTER |}
  else if truthy (chat locks) then
    {| templateId := chat locks; source := SETTING_SOURCES.CHAT |}
  else {| templateId := None; source := "none" |}.

Definition resolve (extensionSettings : StorageSettings) (context : Context)
    (availableLocks : Locks) : LockResult :=
  if isGroupChat context then _resolveGroupLocks context availableLocks
  else _resolveSingleLocks context availableLocks.

End LegacyTemplateLockResolver.

(** ** class TemplateLockManager *)

Module TemplateLockManager.

Import TemplateStorageAdapter.

(** The storage adapter keeps no state of its own and the resolver is
    rebuilt before each use, so the manager's state is the context cache
    and the mirror of the locks. *)
Record t : Type := mk {
  chatContext : ChatContext.t;
  currentLocks : Locks
}.

Definition _getEmptyLocks : Locks :=
  {| character := None; chat := None; group := None |}.

Definition new : t :=
  {| chatContext := ChatContext.new; currentLocks := _getEmptyLocks |}.

Definition set_character (v : option string) (l : Locks) : Locks :=
  {| character := v; chat := chat l; group := group l |}.
Definition set_chat (v : option string) (l : Locks) : Locks :=
  {| character := character l; chat := v; group := group l |}.
Definition set_group (v : option string) (l : Locks) : Locks :=
  {| character := character l; chat := chat l; group := v |}.

(** [Array.prototype.findIndex] on the character names; [None] is -1. *)
Fixpoint findIndex (name : string) (cs : list string) : option nat :=
  match cs with
  | [] => None
  | c :: cs' =>
    if String.eqb c name then Some 0%nat
    else option_map S (findIndex name cs')
  end.

(** [chId !== -1 ? chId : context.characterName], where
    [chId = characters?.findIndex(...)] is [undefined] when the host has
    no character list. *)
Definition characterKey (w : World) (name : string) : option JsId :=
  match characters w with
  | None => None
  | Some cs =>
    match findIndex name cs with
    | Some chId => Some (IdNum (Z.of_nat chId))
    | None => Some (IdStr name)
    end
  end.

Definition _loadGroupLocks (context : Context) (w : World) (locks : Locks)
  : Locks * World :=
  let locks :=
    if truthy (groupId context) then
      set_chat (getGroupChatTemplateLock (groupId context) w)
        (set_group (getGroupTemplateLock (groupId context) w) locks)
    else locks in
  match characterName context with
  | Some name =>
    if truthy (characterName context) then
      let '(l, w) := getCharacterTemplateLock (characterKey w name) w in
      (set_character l locks, w)
    else (locks, w)
  | None => (locks, w)
  end.

Definition _loadSingleLocks (context : Context) (w : World) (locks : Locks)
  : Locks * World :=
  let '(locks, w) :=
    match characterName context with
    | Some name =>
      if truthy (characterName context) then
        let '(l, w) := getCharacterTemplateLock (characterKey w name) w in
        (set_character l locks, w)
      else (locks, w)
    | None => (locks, w)
    end in
  if truthy (chatId context) then
    (set_chat (getChatTemplateLock w) locks, w)
  else (locks, w).

Definition loadCurrentLocks (now : Z) (lm : t) (w : World)
  : Result Locks * t * World :=
  match ChatContext.getCurrent now w (chatContext lm) with
  | (Throw e, cc) =>
    (Throw e, {| chatContext := cc; currentLocks := currentLocks lm |}, w)
  | (Ok context, cc) =>
    let '(locks, w) :=
      if isGroupChat context then _loadGroupLocks context w _getEmptyLocks
      else _loadSingleLocks context w _getEmptyLocks in
    (Ok locks, {| chatContext := cc; currentLocks := locks |}, w)
  end.

Definition getLockToApply (now : Z) (lm : t) (w : World)
  : Result LockResult * t * World :=
  match ChatContext.getCurrent now w (chatContext lm) with
  | (Throw e, cc) =>
    (Throw e, {| chatContext := cc; currentLocks := currentLocks lm |}, w)
  | (Ok context, cc) =>
    let '(settings, w) := getExtensionSettings w in
    (Ok (TemplateLockResolver.resolve settings context (currentLocks lm)),
     {| chatContext := cc; currentLocks := currentLocks lm |}, w)
  end.

(** Shared tail of the [switch] cases: [if (success) this.currentLocks.x =
    v] followed by [return success]. *)
Definition finish (upd : Locks -> Locks) (cc : ChatContext.t) (lm : t)
    (r : bool * World) : Result bool * t * World :=
  let '(success, w) := r in
  (Ok success,
   {| chatContext := cc;
      currentLocks :=
        if success then upd (currentLocks lm) else currentLocks lm |},
   w).

Definition setLock (now : Z) (target : string) (templateId : string)
    (lm : t) (w : World) : Result bool * t * World :=
  match ChatContext.getCurrent now w (chatContext lm) with
  | (Throw e, cc) =>
    (Throw e, {| chatContext := cc; currentLocks := currentLocks lm |}, w)
  | (Ok context, cc) =>
    if String.eqb target "character" then
      match characterName context with
      | Some name =>
        if truthy (characterName context) then
          finish (set_character (Some templateId)) cc lm
            (setCharacterTemplateLock (characterKey w name) templateId w)
        else finish id cc lm (false, w)
      | None => finish id cc lm (false, w)
      end
    else if String.eqb target "chat" then
      finish (set_chat (Some templateId)) cc lm
        (if isGroupChat context then
           setGroupChatTemplateLock (groupId context) templateId w
         else setChatTemplateLock templateId w)
    else if String.eqb target "group" then
      if isGroupChat context && truthy (groupId context) then
        finish (set_group (Some templateId)) cc lm
          (setGroupTemplateLock (groupId context) templateId w)
      else finish id cc lm (false, w)
    else finish id cc lm (false, w)
  end.

Definition clearLock (now : Z) (target : string) (lm : t) (w : World)
  : Result bool * t * World :=
  match ChatContext.getCurrent now w (chatContext lm) with
  | (Throw e, cc) =>
    (Throw e, {| chatContext := cc; currentLocks := currentLocks lm |}, w)
  | (Ok context, cc) =>
    if String.eqb target "character" then
      match characterName context with
      | Some name =>
        if truthy (characterName context) then
          finish (set_character None) cc lm
            (deleteCharacterTemplateLock (characterKey w name) w)
        else finish id cc lm (false, w)
      | None => finish id cc lm (false, w)
      end
    else if String.eqb target "chat" then
      finish (set_chat None) cc lm
        (if isGroupChat context then
           deleteGroupChatTemplateLock (groupId context) w
         else deleteChatTemplateLock w)
    else if String.eqb target "group" then
      if isGroupChat context && truthy (groupId context) then
        finish (set_group None) cc lm
          (deleteGroupTemplateLock (groupId context) w)
      else finish id cc lm (false, w)
    else finish id cc lm (false, w)
  end.

End TemplateLockManager.

(** ** class PromptTemplate *)

(** [prompts] lists the entries of the template's prompt object in the
    order [Object.values] enumerates them; [promptOrderCharacterId] is
    [None] when the property is [undefined] or [null]. *)
Record PromptTemplate : Type := mkPromptTemplate {
  tmpl_id : string;
  tmpl_name : string;
  description : string;
  prompts : list (string * Prompt);
  promptOrder : list OrderItem;
  promptOrderCharacterId : option JsId;
  tmpl_characterName : option string
}.

Definition Object_values {A : Type} (o : list (string * A)) : list A :=
  List.map snd o.

(** ** class PromptTemplateManager *)

Module PromptTemplateManager.

Record t : Type := mk {
  templates : gmap string PromptTemplate;
  lockManager : TemplateLockManager.t
}.

Definition with_lockManager (lm : TemplateLockManager.t) (m : t) : t :=
  {| templates := templates m; lockManager := lm |}.

Definition getTemplate (m : t) (id : string) : option PromptTemplate :=
  templates m !! id.

(** [oai_settings.prompt_order?.find(entry => String(entry.character_id)
    === String(targetCharacterId))] followed by the assignment
    [existingOrderEntry.order = ...]: the first matching entry is changed
    in place; [None] when no entry matches. *)
Fixpoint replace_order (target : string) (ord : list OrderItem)
    (l : list OrderEntry) : option (list OrderEntry) :=
  match l with
  | [] => None
  | entry :: l' =>
    if String.eqb (js_String (character_id entry)) target then
      Some ({| character_id := character_id entry; order := ord |} :: l')
    else option_map (cons entry) (replace_order target ord l')
  end.

(** The branch of [applyTemplate] that restores the prompt order. *)
Definition restore_order (tmpl : PromptTemplate) (pm : PromptManager)
    (w : World) : World :=
  let targetCharacterId :=
    default (IdNum 100000) (promptOrderCharacterId tmpl) in
  let prompt_order := default [] (oai_prompt_order w) in
  let w :=
    match replace_order (js_String targetCharacterId) (promptOrder tmpl)
            prompt_order with
    | Some l => set_oai_prompt_order (Some l) w
    | None =>
      set_oai_prompt_order
        (Some (prompt_order
               ++ [{| character_id := targetCharacterId;
                      order := promptOrder tmpl |}])%list) w
    end in
  match activeCharacter pm with
  | Some _ =>
    set_promptManager
      (Some {| activeCharacter := Some targetCharacterId;
               saveServiceSettings_throws := saveServiceSettings_throws pm;
               render_throws := render_throws pm |}) w
  | None => w
  end.

(** [await promptManager.saveServiceSettings()] and
    [await promptManager.render()]. *)
Definition saveServiceSettings (pm : PromptManager) (w : World)
  : Result World :=
  match saveServiceSettings_throws pm with
  | Some e => Throw e
  | None => Ok (log_effect SaveServiceSettings w)
  end.

Definition render (pm : PromptManager) (w : World) : Result World :=
  match render_throws pm with
  | Some e => Throw e
  | None => Ok (log_effect Render w)
  end.

Definition applyTemplate (templateId : string) (m : t) (w : World)
  : bool * World :=
  match getTemplate m templateId with
  | None => (false, w)
  | Some tmpl =>
    match promptManager w with
    | None => (false, w)
    | Some pm =>
      let promptUpdates := Object_values (prompts tmpl) in
      let w := set_oai_prompts (Some promptUpdates) w in
      let w :=
        if (0 <? List.length (promptOrder tmpl))%nat
        then restore_order tmpl pm w
        else w in
      match saveServiceSettings pm w with
      | Throw error => (false, w)
      | Ok w =>
        match render pm w with
        | Throw error => (false, w)
        | Ok w => (true, w)
        end
      end
    end
  end.

(** *** Locking methods *)

Definition getEffectiveLock (t1 t2 : Z) (m : t) (w : World)
  : Result LockResult * t * World :=
  match TemplateLockManager.loadCurrentLocks t1 (lockManager m) w with
  | (Throw e, lm, w) => (Throw e, with_lockManager lm m, w)
  | (Ok _, lm, w) =>
    let '(r, lm, w) := TemplateLockManager.getLockToApply t2 lm w in
    (r, with_lockManager lm m, w)
  end.

(** *** Change handlers *)

(** What a handler did: the template ids it passed to [applyTemplate]
    (oldest first), the exception it ended with if any, and the state it
    left. *)
Record Outcome : Type := mkOutcome {
  applied : list string;
  rejected : option Error;
  out_manager : t;
  out_world : World
}.

Definition done_ (m : t) (w : World) : Outcome :=
  {| applied := []; rejected := None; out_manager := m; out_world := w |}.

Definition fail_ (e : Error) (m : t) (w : World) : Outcome :=
  {| applied := []; rejected := Some e; out_manager := m; out_world := w |}.

Definition apply_ (templateId : string) (m : t) (w : World) : Outcome :=
  {| applied := [templateId]; rejected := None; out_manager := m;
     out_world := snd (applyTemplate templateId m w) |}.

(** [extension_settings.ccPromptManager?.autoApplyMode ||
    AUTO_APPLY_MODES.ASK] *)
Definition current_autoApplyMode (w : World) : string :=
  let v := ext_ccPromptManager w ≫= autoApplyMode in
  match v with
  | Some s => if truthy v then s else AUTO_APPLY_MODES.ASK
  | None => AUTO_APPLY_MODES.ASK
  end.

(** [t1], [t2], [t3] are the successive readings of [Date.now()];
    [affirmative] tells whether the popup, if shown, is answered with
    [POPUP_RESULT.AFFIRMATIVE]. *)
Definition handlePresetChange (t1 t2 t3 : Z) (affirmative : bool) (m : t)
    (w : World) : Outcome :=
  let autoApplyMode := current_autoApplyMode w in
  if String.eqb autoApplyMode AUTO_APPLY_MODES.NEVER then done_ m w
  else
    match getEffectiveLock t1 t2 m w with
    | (Throw e, m, w) => fail_ e m w
    | (Ok effectiveLock, m, w) =>
      match templateId effectiveLock with
      | None => done_ m w
      | Some tid =>
        if negb (truthy (templateId effectiveLock)) then done_ m w
        else if String.eqb autoApplyMode AUTO_APPLY_MODES.ASK then
          match ChatContext.getCurrent t3 w
                  (TemplateLockManager.chatContext (lockManager m)) with
          | (Throw e, cc) =>
            fail_ e
              (with_lockManager
                 {| TemplateLockManager.chatContext := cc;
                    TemplateLockManager.currentLocks :=
                      TemplateLockManager.currentLocks (lockManager m) |}
                 m) w
          | (Ok context, cc) =>
            let m :=
              with_lockManager
                {| TemplateLockManager.chatContext := cc;
                   TemplateLockManager.currentLocks :=
                     TemplateLockManager.currentLocks (lockManager m) |}
                m in
            match getTemplate m tid with
            | None => done_ m w
            | Some template =>
              if affirmative then apply_ tid m w else done_ m w
            end
          end
        else if String.eqb autoApplyMode AUTO_APPLY_MODES.ALWAYS then
          match getTemplate m tid with
          | Some template => apply_ tid m w
          | None => done_ m w
          end
        else done_ m w
      end
    end.

(** The first two steps of [handleChatChange]: the context cache is
    invalidated and the locks are loaded. *)
Definition invalidate_and_load (t1 : Z) (m : t) (w : World)
  : Result Locks * t * World :=
  let lm := lockManager m in
  let lm :=
    {| TemplateLockManager.chatContext :=
         ChatContext.invalidate (TemplateLockManager.chatContext lm);
       TemplateLockManager.currentLocks :=
         TemplateLockManager.currentLocks lm |} in
  let '(r, lm, w) := TemplateLockManager.loadCurrentLocks t1 lm w in
  (r, with_lockManager lm m, w).

Definition handleChatChange (t1 t2 t3 t4 : Z) (affirmative : bool) (m : t)
    (w : World) : Outcome :=
  match invalidate_and_load t1 m w with
  | (Throw e, m, w) => fail_ e m w
  | (Ok _, m, w) =>
    let autoApplyMode := current_autoApplyMode w in
    if String.eqb autoApplyMode AUTO_APPLY_MODES.NEVER then done_ m w
    else
      match getEffectiveLock t2 t3 m w with
      | (Throw e, m, w) => fail_ e m w
      | (Ok effectiveLock, m, w) =>
        match templateId effectiveLock with
        | None => done_ m w
        | Some tid =>
          if negb (truthy (templateId effectiveLock)) then done_ m w
          else
            match getTemplate m tid with
            | None => done_ m w
            | Some template =>
              if String.eqb autoApplyMode AUTO_APPLY_MODES.ASK then
                match ChatContext.getCurrent t4 w
                        (TemplateLockManager.chatContext (lockManager m))
                with
                | (Throw e, cc) =>
                  fail_ e
                    (with_lockManager
                       {| TemplateLockManager.chatContext := cc;
                          TemplateLockManager.currentLocks :=
                            TemplateLockManager.currentLocks
                              (lockManager m) |}
                       m) w
                | (Ok context, cc) =>
                  let m :=
                    with_lockManager
                      {| TemplateLockManager.chatContext := cc;
                         TemplateLockManager.currentLocks :=
                           TemplateLockManager.currentLocks
                             (lockManager m) |}
                      m in
                  if affirmative then apply_ tid m w else done_ m w
                end
              else if String.eqb autoApplyMode AUTO_APPLY_MODES.ALWAYS then
                apply_ tid m w
              else done_ m w
            end
        end
      end
  end.

(** *** Events

    [setupEventHandlers] subscribes [handleChatChange] to [CHAT_CHANGED]
    and [handlePresetChange] to [PRESET_CHANGED]. *)
Inductive ChangeEvent : Type := CHAT_CHANGED | PRESET_CHANGED.

Definition handleEvent (ev : ChangeEvent) (t1 t2 t3 t4 : Z)
    (affirmative : bool) (m : t) (w : World) : Outcome :=
  match ev with
  | CHAT_CHANGED => handleChatChange t1 t2 t3 t4 affirmative m w
  | PRESET_CHANGED => handlePresetChange t1 t2 t3 affirmative m w
  end.

End PromptTemplateManager.

(** ** Scope kinds and rankings

    The vocabulary of the specification, used to state what the resolver
    computes. *)

Inductive ScopeKind : Type := Character | Chat | Group | GroupSession.

(** The slot of [currentLocks] that holds the lock of a scope kind. *)
Definition lock_of (k : ScopeKind) (l : Locks) : option string :=
  match k with
  | Character => character l
  | Chat => chat l
  | Group => group l
  | GroupSession => chat l
  end.

(** The label of a scope kind in [SETTING_SOURCES]. *)
Definition scope_label (k : ScopeKind) : string :=
  match k with
  | Character => SETTING_SOURCES.CHARACTER
  | Chat => SETTING_SOURCES.CHAT
  | Group => SETTING_SOURCES.GROUP
  | GroupSession => SETTING_SOURCES.GROUP_CHAT
  end.

(** A result's [source] names scope [k], plainly or marked as fallback. *)
Definition names_scope (src : string) (k : ScopeKind) : Prop :=
  src = scope_label k \/ src = fallback (scope_label k).

(** The ranking a preference setting stands for, highest rank first. *)
Definition spec_single_ranking (prefs : StorageSettings) : list ScopeKind :=
  if preferCharacterOverChat prefs then [Character; Chat]
  else [Chat; Character].

Definition spec_group_ranking (prefs : StorageSettings) : list ScopeKind :=
  if preferIndividualCharacterInGroup prefs then
    if preferGroupOverChat prefs then [Character; Group; GroupSession]
    else [Character; GroupSession; Group]
  else
    if preferGroupOverChat prefs then [Group; GroupSession; Character]
    else [GroupSession; Group; Character].

(** The specification's rule: the first scope kind of the ranking that has
    a non-null lock wins. *)
Fixpoint spec_highest_ranked (ranking : list ScopeKind) (l : Locks)
  : option (ScopeKind * string) :=
  match ranking with
  | [] => None
  | k :: ranking' =>
    match lock_of k l with
    | Some tid => Some (k, tid)
    | None => spec_highest_ranked ranking' l
    end
  end.

(** What [resolve] must return for a ranking, in the specification's
    terms. *)
Definition agrees_with_ranking (ranking : list ScopeKind) (l : Locks)
    (r : LockResult) : Prop :=
  match spec_highest_ranked ranking l with
  | Some (k, tid) => templateId r = Some tid /\ names_scope (source r) k
  | None => templateId r = None /\ source r = "none"
  end.

(** A lock is a template id or [null].  Template ids are never empty:
    the constructor of [PromptTemplate] replaces a falsy [id] by a
    generated one. *)
Definition valid_lock (v : option string) : Prop := v <> Some "".

Definition valid_locks (l : Locks) : Prop :=
  valid_lock (character l) /\ valid_lock (chat l) /\ valid_lock (group l).

(** ** Concrete inputs *)

Module Scenario.

(** The priority preferences of [defaultSettings] in
    [initializeSettings]. *)
Definition defaultPrefs : StorageSettings :=
  {| templateLocks := Some {| tl_character := None |};
     preferCharacterOverChat := true;
     preferGroupOverChat := true;
     preferIndividualCharacterInGroup := false |}.

Definition singleContext : Context :=
  {| type := CHAT_TYPES.SINGLE; isGroupChat := false;
     groupId := None; groupName := None;
     chatId := Some "chat-1"; chatName := Some "chat-1";
     characterName := Some "Alice";
     primaryId := Some "Alice"; secondaryId := Some "chat-1" |}.

Definition groupContext : Context :=
  {| type := CHAT_TYPES.GROUP; isGroupChat := true;
     groupId := Some "g1"; groupName := Some "Party";
     chatId := Some "gchat-1"; chatName := Some "Party";
     characterName := Some "Party";
     primaryId := Some "g1"; secondaryId := Some "gchat-1" |}.

(** Scenario A: character locked to T1, chat locked to T2. *)
Definition locksA : Locks :=
  {| character := Some "T1"; chat := Some "T2"; group := None |}.

(** Scenario C: group locked to T3, group session to T4, character to
    T5. *)
Definition locksC : Locks :=
  {| character := Some "T5"; chat := Some "T4"; group := Some "T3" |}.

(** A host in a single chat with character Alice. *)
Definition world0 : World :=
  {| selected_group := None;
     groups :=
       [ {| g_id := "g1"; g_name := Some "Party";
            g_chat_id := Some "gchat-1"; ccpm_template_lock := None |} ];
     name2 := Some "Alice";
     systemUserName := "SillyTavern System";
     neutralCharacterName := "Assistant";
     characters := Some ["Alice"; "Bob"];
     chat_metadata := Some {| character_name := None; md_ccpm := None |};
     context_chatId := Some "chat-1";
     String_normalize := Some (fun s => s);
     build_fault := None;
     ext_ccpm := None;
     ext_ccPromptManager := None;
     oai_prompts :=
       Some [ {| identifier := "main"; role := "system";
                 content := "Write the next reply.";
                 injection_position := 0; injection_depth := 4 |} ];
     oai_prompt_order :=
       Some [ {| character_id := IdNum 100000;
                 order := [ {| oi_identifier := "main";
                               enabled := true |} ] |} ];
     promptManager :=
       Some {| activeCharacter := Some (IdNum 100000);
               saveServiceSettings_throws := None;
               render_throws := None |};
     saveMetadataDebounced_throws := None;
     editGroup_throws := None;
     effects := [] |}.

(** The same host after the user switched to character Bob. *)
Definition worldBob : World := set_name2 (Some "Bob") world0.

(** The same host while snapshot construction fails. *)
Definition worldFault : World :=
  set_build_fault (Some (Err "groups is not iterable")) world0.

(** The cache after a first call at time 5000. *)
Definition cache5000 : ChatContext.t :=
  snd (ChatContext.getCurrent 5000 world0 ChatContext.new).

End Scenario.

(** The cache bound read literally: any two calls less than [CACHE_TTL]
    apart, with no [invalidate] and no build failure in between, give the
    same snapshot and leave the cache as it is (no rebuild). *)
Definition cache_bound_between_calls : Prop :=
  forall (st st1 : ChatContext.t) (now1 now2 : Z) (w1 w2 : World)
         (c1 : Context),
    0 <= now2 - now1 < CACHE_TTL ->
    build_fault w1 = None ->
    build_fault w2 = None ->
    ChatContext.getCurrent now1 w1 st = (Ok c1, st1) ->
    ChatContext.getCurrent now2 w2 st1 = (Ok c1, st1).


Module StorageScenario.

(** The host in the chat session of group g1. *)
Definition worldGroup : World :=
  set_selected_group (Some "g1") Scenario.world0.

(** The host when [saveMetadataDebounced] cannot be called. *)
Definition worldNoMetadataSave : World :=
  set_saveMetadataDebounced_throws
    (Some (Err "saveMetadataDebounced is not defined")) Scenario.world0.

(** The host in a single chat whose character name is three spaces. *)
Definition worldBlank : World := set_name2 (Some "   ") Scenario.world0.

End StorageScenario.

(** The live prompt state of the host: [oai_settings.prompts],
    [oai_settings.prompt_order] and [promptManager.activeCharacter.id]. *)
Definition live_prompt_state (w : World)
  : option (list Prompt) * option (list OrderEntry) * option JsId :=
  (oai_prompts w, oai_prompt_order w, promptManager w ≫= activeCharacter).

(** The effective lock a handler resolves for an event has no template
    id, whenever the resolution completes. *)
Definition effective_lock_is_none (ev : PromptTemplateManager.ChangeEvent)
    (t1 t2 t3 : Z) (m : PromptTemplateManager.t) (w : World) : Prop :=
  match ev with
  | PromptTemplateManager.PRESET_CHANGED =>
    forall r m' w',
      PromptTemplateManager.getEffectiveLock t1 t2 m w = (Ok r, m', w') ->
      truthy (templateId r) = false
  | PromptTemplateManager.CHAT_CHANGED =>
    forall locks m1 w1 r m' w',
      PromptTemplateManager.invalidate_and_load t1 m w = (Ok locks, m1, w1) ->
      PromptTemplateManager.getEffectiveLock t2 t3 m1 w1 = (Ok r, m', w') ->
      truthy (templateId r) = false
  end.

Module ApplyScenario.

Definition mainPrompt : Prompt :=
  {| identifier := "main"; role := "system";
     content := "You are a storyteller.";
     injection_position := 0; injection_depth := 4 |}.

Definition jailbreakPrompt : Prompt :=
  {| identifier := "jailbreak"; role := "system";
     content := "Stay in character.";
     injection_position := 1; injection_depth := 0 |}.

(** A template that holds no prompt, as [createTemplateFromCurrent] makes
    one when no prompt is selected. *)
Definition emptyTemplate : PromptTemplate :=
  {| tmpl_id := "tmpl_empty"; tmpl_name := "Empty"; description := "";
     prompts := []; promptOrder := [];
     promptOrderCharacterId := None;
     tmpl_characterName := Some "Alice" |}.

(** A template with two prompts and an order captured for character id
    100001. *)
Definition fullTemplate : PromptTemplate :=
  {| tmpl_id := "tmpl_full"; tmpl_name := "Story"; description := "";
     prompts := [("main", mainPrompt); ("jailbreak", jailbreakPrompt)];
     promptOrder :=
       [ {| oi_identifier := "main"; enabled := true |};
         {| oi_identifier := "jailbreak"; enabled := false |} ];
     promptOrderCharacterId := Some (IdNum 100001);
     tmpl_characterName := Some "Alice" |}.

Definition manager0 : PromptTemplateManager.t :=
  {| PromptTemplateManager.templates :=
       <["tmpl_empty" := emptyTemplate]>
         (<["tmpl_full" := fullTemplate]> ∅);
     PromptTemplateManager.lockManager := TemplateLockManager.new |}.

(** Alice's chat is locked to the full template. *)
Definition worldLocked : World :=
  set_chat_metadata
    (Some {| character_name := None;
             md_ccpm := Some {| templateLock := Some "tmpl_full" |} |})
    Scenario.world0.

Definition worldLockedMode (mode : string) : World :=
  set_ext_ccPromptManager (Some {| autoApplyMode := Some mode |}) worldLocked.

Definition worldUnlockedMode (mode : string) : World :=
  set_ext_ccPromptManager (Some {| autoApplyMode := Some mode |})
    Scenario.world0.

End ApplyScenario.

(** [w'] has the live prompts, the prompt order and the manager settings
    of [w]. *)
Definition prompt_frame (w w' : World) : Prop :=
  oai_prompts w' = oai_prompts w
  /\ oai_prompt_order w' = oai_prompt_order w
  /\ ext_ccPromptManager w' = ext_ccPromptManager w.

(** ** class PromptTemplateManager: template locking methods *)

Module LockingMethods.

Import PromptTemplateManager.

(** [TemplateLockManager.onContextChanged]: [loadCurrentLocks] is started
    and not awaited; it contains no suspension point, so it has run when
    the method returns, and an exception in it rejects a promise nobody
    observes. *)
Definition onContextChanged (now : Z) (lm : TemplateLockManager.t)
    (w : World) : TemplateLockManager.t * World :=
  let lm :=
    {| TemplateLockManager.chatContext :=
         ChatContext.invalidate (TemplateLockManager.chatContext lm);
       TemplateLockManager.currentLocks :=
         TemplateLockManager.currentLocks lm |} in
  let '(_, lm, w) := TemplateLockManager.loadCurrentLocks now lm w in
  (lm, w).

(** The [try] block catches what [getLockToApply] throws. *)
Definition applyLockedTemplate (now : Z) (m : t) (w : World)
  : bool * t * World :=
  match TemplateLockManager.getLockToApply now (lockManager m) w with
  | (Throw error, lm, w) => (false, with_lockManager lm m, w)
  | (Ok lockResult, lm, w) =>
    let m := with_lockManager lm m in
    match templateId lockResult with
    | Some tid =>
      if truthy (templateId lockResult) then
        let '(success, w) := applyTemplate tid m w in (success, m, w)
      else (false, m, w)
    | None => (false, m, w)
    end
  end.

(** [result] is the truthiness of what [popup.show()] resolves to. *)
Definition askToApplyLockedTemplate (now : Z) (result : bool) (m : t)
    (w : World) : bool * t * World :=
  match TemplateLockManager.getLockToApply now (lockManager m) w with
  | (Throw error, lm, w) => (false, with_lockManager lm m, w)
  | (Ok lockResult, lm, w) =>
    let m := with_lockManager lm m in
    match templateId lockResult with
    | Some tid =>
      if negb (truthy (templateId lockResult)) then (false, m, w)
      else
        match getTemplate m tid with
        | None => (false, m, w)
        | Some template =>
          if result then
            let '(success, w) := applyTemplate tid m w in (success, m, w)
          else (false, m, w)
        end
    | None => (false, m, w)
    end
  end.

Definition lockTemplate (now : Z) (templateId target : string) (m : t)
    (w : World) : Result bool * t * World :=
  match getTemplate m templateId with
  | None => (Ok false, m, w)
  | Some template =>
    let '(success, lm, w) :=
      TemplateLockManager.setLock now target templateId (lockManager m) w in
    (success, with_lockManager lm m, w)
  end.

Definition clearTemplateLock (now : Z) (target : string) (m : t) (w : World)
  : Result bool * t * World :=
  let '(success, lm, w) :=
    TemplateLockManager.clearLock now target (lockManager m) w in
  (success, with_lockManager lm m, w).

Definition getCurrentLocks (now : Z) (m : t) (w : World)
  : Result Locks * t * World :=
  match TemplateLockManager.loadCurrentLocks now (lockManager m) w with
  | (Throw e, lm, w) => (Throw e, with_lockManager lm m, w)
  | (Ok _, lm, w) =>
    (Ok (TemplateLockManager.currentLocks lm), with_lockManager lm m, w)
  end.

End LockingMethods.

(** The slot of [currentLocks] a lock target names. *)
Definition target_slot (target : string) (l : Locks) : option (option string) :=
  if String.eqb target "character" then Some (character l)
  else if String.eqb target "chat" then Some (chat l)
  else if String.eqb target "group" then Some (group l)
  else None.

Module FailureScenario.

(** A host whose [saveServiceSettings] throws. *)
Definition saveFails : PromptManager :=
  {| activeCharacter := Some (IdNum 100000);
     saveServiceSettings_throws := Some (Err "network");
     render_throws := None |}.

Definition worldSaveFails : World :=
  set_promptManager (Some saveFails) Scenario.world0.

End FailureScenario.

(** What a context snapshot is built from. *)
Definition snapshot_inputs (w : World) :=
  (selected_group w, groups w, name2 w, systemUserName w,
   neutralCharacterName w, chat_metadata w ≫= character_name,
   context_chatId w, String_normalize w, build_fault w).

(** The host is in a single chat, snapshots can be built, and the context
    cache is empty or holds the snapshot of the host as it is. *)
Definition single_chat_in_step (cc : ChatContext.t) (w : World) : Prop :=
  truthy (selected_group w) = false
  /\ build_fault w = None
  /\ forall c, ChatContext.cache cc = Some c ->
               c = ChatContext._buildSingleContext w.

(** The host when [getContext()] gives no chat id. *)
Definition set_chat_context_id_none (w : World) : World :=
  mkWorld
    (selected_group w) (groups w) (name2 w) (systemUserName w)
    (neutralCharacterName w) (characters w) (chat_metadata w)
    None (String_normalize w) (build_fault w) (ext_ccpm w)
    (ext_ccPromptManager w) (oai_prompts w) (oai_prompt_order w)
    (promptManager w) (saveMetadataDebounced_throws w) (editGroup_throws w)
    (effects w).

(** The effective lock a handler resolves for an event names template
    [tid]. *)
Definition effective_lock_resolves_to (ev : PromptTemplateManager.ChangeEvent)
    (t1 t2 t3 : Z) (m : PromptTemplateManager.t) (w : World) (tid : string)
  : Prop :=
  match ev with
  | PromptTemplateManager.PRESET_CHANGED =>
    exists r m' w',
      PromptTemplateManager.getEffectiveLock t1 t2 m w = (Ok r, m', w')
      /\ templateId r = Some tid
  | PromptTemplateManager.CHAT_CHANGED =>
    exists locks m1 w1 r m' w',
      PromptTemplateManager.invalidate_and_load t1 m w = (Ok locks, m1, w1)
      /\ PromptTemplateManager.getEffectiveLock t2 t3 m1 w1 = (Ok r, m', w')
      /\ templateId r = Some tid
  end.

(** The settings object [getExtensionSettings] creates when there is
    none. *)
Definition fresh_settings : StorageSettings :=
  {| templateLocks := Some {| tl_character := None |};
     preferCharacterOverChat := false;
     preferGroupOverChat := false;
     preferIndividualCharacterInGroup := false |}.

(** [w'] is [w], or [w] with the settings object created. *)
Definition at_most_settings_created (w w' : World) : Prop :=
  w' = w \/ (ext_ccpm w = None /\ w' = set_ext_ccpm (Some fresh_settings) w).

(** The three preference flags as the resolver gets them from
    [getExtensionSettings]: those of the settings object, all off when
    the object does not exist yet. *)
Definition resolver_flags (w : World) : bool * bool * bool :=
  match ext_ccpm w with
  | Some es =>
    (preferCharacterOverChat es, preferGroupOverChat es,
     preferIndividualCharacterInGroup es)
  | None => (false, false, false)
  end.

Module PriorityScenario.

(** A lock manager whose mirror holds the locks of Scenario A. *)
Definition managerA : TemplateLockManager.t :=
  {| TemplateLockManager.chatContext := ChatContext.new;
     TemplateLockManager.currentLocks := Scenario.locksA |}.

Definition resultA : Result LockResult * TemplateLockManager.t * World :=
  TemplateLockManager.getLockToApply 5000 managerA Scenario.world0.

End PriorityScenario.

(** ** [initializeSettings] *)

Module Settings.

(** A stored [autoApplyLocked] of an earlier release: a string or, older
    still, a boolean. *)
Inductive LegacyMode : Type :=
| LegacyStr (s : string)
| LegacyBool (b : bool).

Definition legacy_truthy (v : option LegacyMode) : bool :=
  match v with
  | Some (LegacyStr s) => negb (String.eqb s "")
  | Some (LegacyBool b) => b
  | None => false
  end.

(** [extension_settings.ccPromptManager] as [initializeSettings] sees it;
    [None] is a property that is [undefined].  The [templates],
    [templateLocks] and [version] properties are neither read nor
    changed once the object exists. *)
Record t : Type := mk {
  s_autoApplyMode : option string;
  s_autoApplyLocked : option LegacyMode;
  s_preferCharacterOverChat : option bool;
  s_preferGroupOverChat : option bool;
  s_preferIndividualCharacterInGroup : option bool
}.

Definition defaultSettings : t :=
  {| s_autoApplyMode := Some AUTO_APPLY_MODES.ASK;
     s_autoApplyLocked := None;
     s_preferCharacterOverChat := Some true;
     s_preferGroupOverChat := Some true;
     s_preferIndividualCharacterInGroup := Some false |}.

(** [x === undefined ? d : x] *)
Definition if_undefined {A : Type} (d : A) (x : option A) : option A :=
  match x with
  | Some _ => x
  | None => Some d
  end.

(** The migrated value of an old [autoApplyLocked]. *)
Definition migrate (oldValue : LegacyMode) : string :=
  match oldValue with
  | LegacyStr s =>
    if String.eqb s "auto" then AUTO_APPLY_MODES.ALWAYS
    else if String.eqb s "ask" then AUTO_APPLY_MODES.ASK
    else AUTO_APPLY_MODES.NEVER
  | LegacyBool _ => AUTO_APPLY_MODES.NEVER
  end.

Definition initializeSettings (stored : option t) : t :=
  let s := match stored with
           | Some s => s
           | None => defaultSettings
           end in
  let s :=
    {| s_autoApplyMode := s_autoApplyMode s;
       s_autoApplyLocked := s_autoApplyLocked s;
       s_preferCharacterOverChat :=
         if_undefined true (s_preferCharacterOverChat s);
       s_preferGroupOverChat := if_undefined true (s_preferGroupOverChat s);
       s_preferIndividualCharacterInGroup :=
         if_undefined false (s_preferIndividualCharacterInGroup s) |} in
  match s_autoApplyLocked s with
  | Some oldValue =>
    if legacy_truthy (s_autoApplyLocked s) && negb (truthy (s_autoApplyMode s))
    then
      {| s_autoApplyMode := Some (migrate oldValue);
         s_autoApplyLocked := None;
         s_preferCharacterOverChat := s_preferCharacterOverChat s;
         s_preferGroupOverChat := s_preferGroupOverChat s;
         s_preferIndividualCharacterInGroup :=
           s_preferIndividualCharacterInGroup s |}
    else s
  | None => s
  end.

(** The part of the object the change handlers read. *)
Definition manager_settings (s : t) : ManagerSettings :=
  {| autoApplyMode := s_autoApplyMode s |}.

End Settings.

(** ** The lock menu *)

Module LockMenu.

(** [getContextName(context, target)] *)
Definition getContextName (context : Context) (target : string) : string :=
  if String.eqb target "character" then
    match characterName context with
    | Some s => if truthy (characterName context) then s
                else "Current Character"
    | None => "Current Character"
    end
  else if String.eqb target "chat" then
    if isGroupChat context then
      match groupName context with
      | Some s => if truthy (groupName context) then s ++ " Chat"
                  else "Group Chat"
      | None => "Group Chat"
      end
    else
      match chatName context with
      | Some s => if truthy (chatName context) then s else "Current Chat"
      | None => "Current Chat"
      end
  else if String.eqb target "group" then
    match groupName context with
    | Some s => if truthy (groupName context) then s else "Current Group"
    | None => "Current Group"
    end
  else "".

(** The lock targets [ccpmShowLockMenu] offers for a snapshot. *)
Definition availableTargets (context : Context) : list string :=
  (if truthy (characterName context) then ["character"] else [])
  ++ (if truthy (chatId context) || truthy (groupId context)
      then ["chat"] else [])
  ++ (if isGroupChat context && truthy (groupId context)
      then ["group"] else []).

End LockMenu.

(** ** class PromptTemplateManager: the template store *)

Module TemplateStore.

Import PromptTemplateManager.

(** A prompt object as given to the constructor of [PromptTemplate]: it
    may or may not carry an [identifier] of its own. *)
Record PromptData : Type := mkPromptData {
  pd_identifier : option string;
  pd_role : string;
  pd_content : string;
  pd_injection_position : Z;
  pd_injection_depth : Z
}.

(** The object given to the constructor and the items of an import:
    - [d_name]: [None] when missing or not a string;
    - [d_prompts]: the entries of the prompts object in the order of
      [Object.entries], [None] when missing or not an object; the data of
      an entry is [None] when it is null or not an object;
    - [d_promptOrder]: [None] when missing or not an array. *)
Record TemplateData : Type := mkTemplateData {
  d_id : option string;
  d_name : option string;
  d_description : string;
  d_prompts : option (list (string * option PromptData));
  d_promptOrder : option (list OrderItem);
  d_characterName : option string
}.

(** [{ identifier: identifier, ...promptData }] *)
Definition normalized (identifier : string) (promptData : PromptData)
  : Prompt :=
  {| identifier := default identifier (pd_identifier promptData);
     role := pd_role promptData;
     content := pd_content promptData;
     injection_position := pd_injection_position promptData;
     injection_depth := pd_injection_depth promptData |}.

Fixpoint validateAndNormalizePrompts
    (prompts : list (string * option PromptData)) : list (string * Prompt) :=
  match prompts with
  | [] => []
  | (identifier, promptData) :: rest =>
    match promptData with
    | Some pd =>
      if negb (String.eqb identifier "")
      then (identifier, normalized identifier pd)
             :: validateAndNormalizePrompts rest
      else validateAndNormalizePrompts rest
    | None => validateAndNormalizePrompts rest
    end
  end.

(** ['tmpl_' + Math.random().toString(36).substr(2, 9)]; [rnd] is the
    substring the random number gives. *)
Definition generateId (rnd : string) : string := "tmpl_" ++ rnd.

(** The constructor.  The time stamps [createdAt] and [updatedAt] are
    not part of [PromptTemplate]; a template made without a name has the
    empty name; [promptOrderCharacterId] is not among the properties the
    constructor takes over. *)
Definition new_PromptTemplate (data : TemplateData) (rnd : string)
  : PromptTemplate :=
  {| tmpl_id := match d_id data with
                | Some id => if truthy (d_id data) then id else generateId rnd
                | None => generateId rnd
                end;
     tmpl_name := default "" (d_name data);
     description := d_description data;
     prompts := validateAndNormalizePrompts (default [] (d_prompts data));
     promptOrder := default [] (d_promptOrder data);
     promptOrderCharacterId := None;
     tmpl_characterName := or_null (d_characterName data) |}.

(** [saveSettings]: the settings object is created when missing and the
    host is asked to save.  The copy of the templates the method stores
    in the object has no field in [ManagerSettings]. *)
Definition saveSettings (m : t) (w : World) : World :=
  let w :=
    match ext_ccPromptManager w with
    | Some _ => w
    | None => set_ext_ccPromptManager (Some {| autoApplyMode := None |}) w
    end in
  log_effect SaveSettingsDebounced w.

Definition with_templates (ts : gmap string PromptTemplate) (m : t) : t :=
  {| templates := ts; lockManager := lockManager m |}.

Definition createTemplate (data : TemplateData) (rnd : string) (m : t)
    (w : World) : PromptTemplate * t * World :=
  let tmpl := new_PromptTemplate data rnd in
  let m := with_templates (<[tmpl_id tmpl := tmpl]> (templates m)) m in
  (tmpl, m, saveSettings m w).

Definition deleteTemplate (id : string) (m : t) (w : World)
  : bool * t * World :=
  match templates m !! id with
  | Some _ =>
    let m := with_templates (delete id (templates m)) m in
    (true, m, saveSettings m w)
  | None => (false, m, w)
  end.

(** [delete data.id] *)
Definition without_id (data : TemplateData) : TemplateData :=
  {| d_id := None; d_name := d_name data;
     d_description := d_description data; d_prompts := d_prompts data;
     d_promptOrder := d_promptOrder data;
     d_characterName := d_characterName data |}.

(** The three checks of [importTemplates] on an item. *)
Definition acceptable (data : TemplateData) : bool :=
  truthy (d_name data)
  && match d_prompts data with
     | Some entries => negb (Nat.eqb (List.length entries) 0)
     | None => false
     end
  && match d_promptOrder data with
     | Some order => negb (Nat.eqb (List.length order) 0)
     | None => false
     end.

(** The loop of [importTemplates]; [rnd i] is the random part of the id
    generated for the item at position [i]. *)
Fixpoint import_loop (arr : list TemplateData) (i : nat) (rnd : nat -> string)
    (ts : gmap string PromptTemplate) (imported skipped : nat)
  : gmap string PromptTemplate * nat * nat :=
  match arr with
  | [] => (ts, imported, skipped)
  | data :: rest =>
    if acceptable data then
      let tmpl := new_PromptTemplate (without_id data) (rnd i) in
      import_loop rest (S i) rnd (<[tmpl_id tmpl := tmpl]> ts)
        (S imported) skipped
    else import_loop rest (S i) rnd ts imported (S skipped)
  end.

(** Returns [{ imported, skipped }]. *)
Definition importTemplates (arr : list TemplateData) (rnd : nat -> string)
    (m : t) (w : World) : (nat * nat) * t * World :=
  let '(ts, imported, skipped) :=
    import_loop arr 0 rnd (templates m) 0 0 in
  let m := with_templates ts m in
  if (0 <? imported)%nat then ((imported, skipped), m, saveSettings m w)
  else ((imported, skipped), m, w).


End TemplateStore.

(** Every stored template sits under its own id, and no id is empty. *)
Definition store_ok (m : PromptTemplateManager.t) : Prop :=
  forall k t,
    PromptTemplateManager.templates m !! k = Some t ->
    tmpl_id t = k /\ k <> "".

Module StoreScenario.

Import TemplateStore.

Definition emptyManager : PromptTemplateManager.t :=
  {| PromptTemplateManager.templates := ∅;
     PromptTemplateManager.lockManager := PriorityScenario.managerA |}.

Definition mainPrompt : PromptData :=
  {| pd_identifier := None; pd_role := "system";
     pd_content := "You are a narrator."; pd_injection_position := 0;
     pd_injection_depth := 4 |}.

(** A complete item that carries an id of its own. *)
Definition goodItem : TemplateData :=
  {| d_id := Some "<img src=x>"; d_name := Some "Narrator";
     d_description := "";
     d_prompts := Some [("main", Some mainPrompt)];
     d_promptOrder := Some [{| oi_identifier := "main"; enabled := true |}];
     d_characterName := None |}.

(** An item without a name, and one whose prompt order is empty. *)
Definition namelessItem : TemplateData :=
  {| d_id := None; d_name := None; d_description := "";
     d_prompts := Some [("main", Some mainPrompt)];
     d_promptOrder := Some [{| oi_identifier := "main"; enabled := true |}];
     d_characterName := None |}.

Definition unorderedItem : TemplateData :=
  {| d_id := None; d_name := Some "Loose"; d_description := "";
     d_prompts := Some [("main", Some mainPrompt)];
     d_promptOrder := Some [];
     d_characterName := None |}.

Definition items : list TemplateData :=
  [namelessItem; goodItem; unorderedItem].

Definition rnd (i : nat) : string :=
  nth i ["k3j9x0q2a"; "b7m1z8c4d"; "e5n6y2f0g"] "".

End StoreScenario.

(** * Properties *)

(** ** Truthiness *)

Lemma truthy_valid (v : option string) :
  valid_lock v -> truthy v = match v with Some _ => true | None => false end.
Proof.
  destruct v as [s|]; [|reflexivity].
  intros Hv. simpl. destruct (String.eqb_spec s ""); [|reflexivity].
  subst. exfalso. now apply Hv.
Qed.

Lemma or_null_valid (v : option string) : valid_lock (or_null v).
Proof.
  unfold or_null, valid_lock. destruct v as [s|]; simpl; [|discriminate].
  destruct (String.eqb_spec s ""); simpl; [discriminate|congruence].
Qed.

Lemma truthy_or_null (v : option string) : truthy (or_null v) = truthy v.
Proof. unfold or_null. destruct (truthy v) eqn:E; [exact E|reflexivity]. Qed.

(** ** Lock resolution *)

(** Each preference setting stands for a total order of its family. *)
Lemma spec_single_ranking_perm (prefs : StorageSettings) :
  Permutation (spec_single_ranking prefs) [Character; Chat].
Proof.
  unfold spec_single_ranking. destruct (preferCharacterOverChat prefs).
  - reflexivity.
  - apply perm_swap.
Qed.

Lemma spec_group_ranking_perm (prefs : StorageSettings) :
  Permutation (spec_group_ranking prefs) [Group; GroupSession; Character].
Proof.
  unfold spec_group_ranking.
  destruct (preferIndividualCharacterInGroup prefs),
    (preferGroupOverChat prefs).
  - apply (Permutation_cons_append [Group; GroupSession] Character).
  - etrans; [apply perm_skip, perm_swap|].
    apply (Permutation_cons_append [Group; GroupSession] Character).
  - reflexivity.
  - apply perm_swap.
Qed.

Lemma single_resolve_ranked (prefs : StorageSettings) (context : Context)
    (locks : Locks) :
  valid_locks locks ->
  agrees_with_ranking (spec_single_ranking prefs) locks
    (TemplateLockResolver._resolveSingleLocks prefs context locks).
Proof.
  destruct locks as [c h g]. intros (Hc & Hh & _). simpl in Hc, Hh.
  unfold agrees_with_ranking, spec_single_ranking,
    TemplateLockResolver._resolveSingleLocks, names_scope. simpl.
  rewrite (truthy_valid _ Hc), (truthy_valid _ Hh).
  destruct (preferCharacterOverChat prefs), c, h; simpl; intuition.
Qed.

Lemma group_resolve_ranked (prefs : StorageSettings) (context : Context)
    (locks : Locks) :
  valid_locks locks ->
  agrees_with_ranking (spec_group_ranking prefs) locks
    (TemplateLockResolver._resolveGroupLocks prefs context locks).
Proof.
  destruct locks as [c h g]. intros (Hc & Hh & Hg). simpl in Hc, Hh, Hg.
  unfold agrees_with_ranking, spec_group_ranking,
    TemplateLockResolver._resolveGroupLocks, names_scope. simpl.
  rewrite (truthy_valid _ Hc), (truthy_valid _ Hh), (truthy_valid _ Hg).
  destruct (preferIndividualCharacterInGroup prefs),
    (preferGroupOverChat prefs), c, h, g; simpl; intuition.
Qed.

(** C2.  In a single-chat context, for every setting of the single-family
    preference and every lock set whose locks are template ids or null,
    [resolve] returns the template id of the highest-ranked scope kind of
    {Character, Chat} that has a non-null lock, with a source label naming
    that scope; with no lock at all it returns [templateId = null] (source
    ['none']). *)
Theorem C2_single_resolve_highest_ranked (prefs : StorageSettings)
    (context : Context) (locks : Locks) :
  isGroupChat context = false ->
  valid_locks locks ->
  agrees_with_ranking (spec_single_ranking prefs) locks
    (TemplateLockResolver.resolve prefs context locks).
Proof.
  intros Hsingle Hvalid. unfold TemplateLockResolver.resolve.
  rewrite Hsingle. now apply single_resolve_ranked.
Qed.

(** Scenario A: Character locked to T1, Chat locked to T2, preference
    Character > Chat. *)
Lemma C2_scenario_A :
  isGroupChat Scenario.singleContext = false
  /\ valid_locks Scenario.locksA
  /\ agrees_with_ranking [Character; Chat] Scenario.locksA
       (TemplateLockResolver.resolve Scenario.defaultPrefs
          Scenario.singleContext Scenario.locksA).
Proof.
  assert (Hv : valid_locks Scenario.locksA)
    by (repeat split; discriminate).
  split; [reflexivity|]. split; [exact Hv|].
  exact (C2_single_resolve_highest_ranked Scenario.defaultPrefs
           Scenario.singleContext Scenario.locksA eq_refl Hv).
Defined.

(** Scenarios A and B evaluated. *)
Example scenario_A_result :
  TemplateLockResolver.resolve Scenario.defaultPrefs Scenario.singleContext
    Scenario.locksA
  = {| templateId := Some "T1"; source := "character" |}.
Proof. reflexivity. Qed.

Example scenario_B_result :
  TemplateLockResolver.resolve Scenario.defaultPrefs Scenario.singleContext
    (TemplateLockManager.set_character None Scenario.locksA)
  = {| templateId := Some "T2"; source := "chat (fallback)" |}.
Proof. reflexivity. Qed.

(** The empty string is not a template id and counts as no lock. *)
Example empty_string_is_no_lock :
  TemplateLockResolver.resolve Scenario.defaultPrefs Scenario.singleContext
    {| character := Some ""; chat := Some "T2"; group := None |}
  = {| templateId := Some "T2"; source := "chat (fallback)" |}.
Proof. reflexivity. Qed.

(** C3.  In a group-chat context, for every setting of the group-family
    preferences and every lock set whose locks are template ids or null,
    [resolve] returns the lock of the highest-ranked scope kind of {Group,
    GroupSession, Character} that is present, with a source label naming
    that scope, or [templateId = null] when none is present.  In
    particular, with Group > GroupSession > Character and locks Group T3,
    GroupSession T4, Character T5 the result is T3 from the group, and once
    the group lock is cleared it is T4 from the group chat session. *)
Theorem C3_group_resolve_highest_ranked (prefs : StorageSettings)
    (context : Context) (locks : Locks) :
  isGroupChat context = true ->
  valid_locks locks ->
  agrees_with_ranking (spec_group_ranking prefs) locks
    (TemplateLockResolver.resolve prefs context locks)
  /\ (spec_group_ranking prefs = [Group; GroupSession; Character] ->
      locks = Scenario.locksC ->
      TemplateLockResolver.resolve prefs context locks
      = {| templateId := Some "T3"; source := SETTING_SOURCES.GROUP |}
      /\ TemplateLockResolver.resolve prefs context
           (TemplateLockManager.set_group None locks)
         = {| templateId := Some "T4";
              source := fallback SETTING_SOURCES.GROUP_CHAT |}).
Proof.
  intros Hgroup Hvalid. unfold TemplateLockResolver.resolve.
  rewrite Hgroup. split; [now apply group_resolve_ranked|].
  intros Hrank ->. unfold spec_group_ranking in Hrank.
  unfold TemplateLockResolver._resolveGroupLocks.
  destruct (preferIndividualCharacterInGroup prefs),
    (preferGroupOverChat prefs); try discriminate.
  split; reflexivity.
Qed.

(** Scenario C. *)
Lemma C3_scenario_C :
  isGroupChat Scenario.groupContext = true
  /\ valid_locks Scenario.locksC
  /\ TemplateLockResolver.resolve Scenario.defaultPrefs Scenario.groupContext
       Scenario.locksC
     = {| templateId := Some "T3"; source := "group" |}
  /\ TemplateLockResolver.resolve Scenario.defaultPrefs Scenario.groupContext
       (TemplateLockManager.set_group None Scenario.locksC)
     = {| templateId := Some "T4"; source := "group chat (fallback)" |}.
Proof.
  assert (Hv : valid_locks Scenario.locksC)
    by (repeat split; discriminate).
  split; [reflexivity|]. split; [exact Hv|].
  exact (proj2 (C3_group_resolve_highest_ranked Scenario.defaultPrefs
                  Scenario.groupContext Scenario.locksC eq_refl Hv)
           eq_refl eq_refl).
Defined.

(** The worked example of the resolver: only the group session is
    locked. *)
Example worked_example_group_session :
  TemplateLockResolver.resolve Scenario.defaultPrefs Scenario.groupContext
    {| character := None; chat := Some "T2"; group := None |}
  = {| templateId := Some "T2"; source := "group chat (fallback)" |}.
Proof. reflexivity. Qed.

(** C10.  Under the default priority preferences the resolver and its
    earlier revision with fixed priorities return the same template id,
    for every context snapshot and every lock set. *)
Theorem C10_default_prefs_match_legacy (prefs : StorageSettings)
    (context : Context) (locks : Locks) :
  preferCharacterOverChat prefs = true ->
  preferGroupOverChat prefs = true ->
  preferIndividualCharacterInGroup prefs = false ->
  templateId (TemplateLockResolver.resolve prefs context locks)
  = templateId (LegacyTemplateLockResolver.resolve prefs context locks).
Proof.
  intros Hc Hg Hi.
  unfold TemplateLockResolver.resolve, LegacyTemplateLockResolver.resolve,
    TemplateLockResolver._resolveGroupLocks,
    TemplateLockResolver._resolveSingleLocks,
    LegacyTemplateLockResolver._resolveGroupLocks,
    LegacyTemplateLockResolver._resolveSingleLocks.
  rewrite Hc, Hg, Hi. simpl.
  destruct (isGroupChat context);
    destruct (truthy (group locks)), (truthy (chat locks)),
      (truthy (character locks)); reflexivity.
Qed.

Lemma C10_default_prefs_match_legacy_witness :
  preferCharacterOverChat Scenario.defaultPrefs = true
  /\ preferGroupOverChat Scenario.defaultPrefs = true
  /\ preferIndividualCharacterInGroup Scenario.defaultPrefs = false
  /\ templateId (TemplateLockResolver.resolve Scenario.defaultPrefs
                   Scenario.groupContext Scenario.locksC)
     = templateId (LegacyTemplateLockResolver.resolve Scenario.defaultPrefs
                     Scenario.groupContext Scenario.locksC).
Proof.
  refine (conj eq_refl (conj eq_refl (conj eq_refl _))).
  exact (C10_default_prefs_match_legacy Scenario.defaultPrefs
           Scenario.groupContext Scenario.locksC eq_refl eq_refl eq_refl).
Defined.

(** ** The context cache *)

Lemma buildContext_no_fault (w : World) :
  build_fault w = None -> exists c, ChatContext._buildContext w = Ok c.
Proof.
  intros Hfault. unfold ChatContext._buildContext. rewrite Hfault.
  destruct (selected_group w); [destruct (truthy _)|]; eauto.
Qed.

Lemma getCurrent_hit (now : Z) (w : World) (st : ChatContext.t) (c : Context) :
  ChatContext.cache st = Some c ->
  now - ChatContext.cacheTime st < CACHE_TTL ->
  ChatContext.getCurrent now w st = (Ok c, st).
Proof.
  intros Hc Hage. unfold ChatContext.getCurrent, ChatContext.has_current.
  rewrite Hc. apply Z.ltb_lt in Hage. now rewrite Hage.
Qed.

Lemma getCurrent_Ok_cached (now : Z) (w : World) (st st1 : ChatContext.t)
    (c : Context) :
  ChatContext.getCurrent now w st = (Ok c, st1) ->
  ChatContext.cache st1 = Some c.
Proof.
  unfold ChatContext.getCurrent, ChatContext.has_current.
  destruct (ChatContext.cache st) as [c0|] eqn:Hc;
    destruct (now - ChatContext.cacheTime st <? CACHE_TTL); simpl;
    destruct (ChatContext._buildContext w); intros H; inversion H; subst;
    simpl; auto.
Qed.

(** C7.  When snapshot construction throws inside [getCurrent]: with a
    cached snapshot the call returns that snapshot and does not throw;
    with no cached snapshot the exception reaches the caller.  The cached
    snapshot is kept either way. *)
Theorem C7_build_failure_falls_back_to_cache (now : Z) (w : World)
    (st : ChatContext.t) (e : Error) :
  ChatContext._buildContext w = Throw e ->
  match ChatContext.cache st with
  | Some c => fst (ChatContext.getCurrent now w st) = Ok c
  | None => fst (ChatContext.getCurrent now w st) = Throw e
  end
  /\ ChatContext.cache (snd (ChatContext.getCurrent now w st))
     = ChatContext.cache st.
Proof.
  intros Hb. unfold ChatContext.getCurrent, ChatContext.has_current.
  rewrite Hb.
  destruct (ChatContext.cache st) as [c|] eqn:Hc;
    destruct (now - ChatContext.cacheTime st <? CACHE_TTL); simpl;
    rewrite ?Hc; auto.
Qed.

(** A stale snapshot of Alice's chat is returned at time 9000 while the
    build fails. *)
Lemma C7_stale_snapshot_witness :
  ChatContext._buildContext Scenario.worldFault
  = Throw (Err "groups is not iterable")
  /\ fst (ChatContext.getCurrent 9000 Scenario.worldFault Scenario.cache5000)
     = Ok (ChatContext._buildSingleContext Scenario.world0).
Proof.
  split; [reflexivity|].
  exact (proj1 (C7_build_failure_falls_back_to_cache 9000 Scenario.worldFault
                  Scenario.cache5000 (Err "groups is not iterable") eq_refl)).
Defined.

(** With an empty cache the failure propagates. *)
Example build_failure_propagates :
  fst (ChatContext.getCurrent 9000 Scenario.worldFault ChatContext.new)
  = Throw (Err "groups is not iterable").
Proof. reflexivity. Qed.

(** C8, as amended.  A call to [getCurrent] made less than [CACHE_TTL]
    after the cached snapshot was built (the cache time stamp, which a
    cache hit does not refresh) returns the snapshot the previous call
    returned and leaves the cache untouched: nothing is rebuilt.  The
    time stamp is the time of the previous call whenever that call built
    the snapshot, so two calls less than [CACHE_TTL] apart agree when the
    first of them was a cache miss. *)
Theorem C8_cache_hit_within_ttl_of_build (now1 now2 : Z) (w1 w2 : World)
    (st st1 : ChatContext.t) (c1 : Context) :
  ChatContext.getCurrent now1 w1 st = (Ok c1, st1) ->
  now2 - ChatContext.cacheTime st1 < CACHE_TTL ->
  ChatContext.getCurrent now2 w2 st1 = (Ok c1, st1)
  /\ (build_fault w1 = None ->
      ChatContext.builds st1 = S (ChatContext.builds st) ->
      ChatContext.cacheTime st1 = now1).
Proof.
  intros H1 Hage. split.
  - apply getCurrent_hit; [|exact Hage].
    now apply (getCurrent_Ok_cached now1 w1 st).
  - intros Hfault Hbuilt. revert H1.
    unfold ChatContext.getCurrent, ChatContext.has_current.
    destruct (buildContext_no_fault w1 Hfault) as [c ->].
    destruct (ChatContext.cache st);
      destruct (now1 - ChatContext.cacheTime st <? CACHE_TTL); simpl;
      intros H; inversion H; subst; simpl in *; try reflexivity; lia.
Qed.

(** A first call at 5000 builds the snapshot; a call at 5900 is served
    from the cache although the host has changed in between. *)
Lemma C8_cache_hit_witness :
  ChatContext.getCurrent 5000 Scenario.world0 ChatContext.new
  = (Ok (ChatContext._buildSingleContext Scenario.world0), Scenario.cache5000)
  /\ 5900 - ChatContext.cacheTime Scenario.cache5000 < CACHE_TTL
  /\ ChatContext.getCurrent 5900 Scenario.worldBob Scenario.cache5000
     = (Ok (ChatContext._buildSingleContext Scenario.world0),
        Scenario.cache5000).
Proof.
  split; [reflexivity|]. split; [reflexivity|].
  exact (proj1 (C8_cache_hit_within_ttl_of_build 5000 5900 Scenario.world0
                  Scenario.worldBob ChatContext.new Scenario.cache5000
                  (ChatContext._buildSingleContext Scenario.world0)
                  eq_refl eq_refl)).
Defined.

(** C8 as stated fails: after a build at 5000, the calls at 5900 and 6500
    are 600 ms apart with no [invalidate] and no build failure between
    them, yet the second one rebuilds (the snapshot is 1500 ms old) and
    returns the snapshot of the host as it is then. *)
Lemma C8_counterexample : ~ cache_bound_between_calls.
Proof.
  intros Hbound.
  specialize (Hbound Scenario.cache5000 Scenario.cache5000 5900 6500
                Scenario.world0 Scenario.worldBob
                (ChatContext._buildSingleContext Scenario.world0)).
  assert (Hrange : 0 <= 6500 - 5900 < CACHE_TTL) by (unfold CACHE_TTL; lia).
  specialize (Hbound Hrange eq_refl eq_refl eq_refl).
  vm_compute in Hbound. discriminate Hbound.
Qed.

Example rebuild_after_cache_hit :
  ChatContext.getCurrent 5900 Scenario.world0 Scenario.cache5000
  = (Ok (ChatContext._buildSingleContext Scenario.world0), Scenario.cache5000)
  /\ fst (ChatContext.getCurrent 6500 Scenario.worldBob Scenario.cache5000)
     = Ok (ChatContext._buildSingleContext Scenario.worldBob)
  /\ ChatContext.builds
       (snd (ChatContext.getCurrent 6500 Scenario.worldBob Scenario.cache5000))
     = S (ChatContext.builds Scenario.cache5000).
Proof. repeat split. Qed.

(** ** Persistence of lock writes *)

Section Flush.

Import TemplateStorageAdapter.

Variable w : World.

(** The character region flushes through [saveSettingsDebounced]. *)
Lemma setCharacterTemplateLock_flushes (k : option JsId) (tid : string) :
  fst (setCharacterTemplateLock k tid w) = true ->
  effects (snd (setCharacterTemplateLock k tid w))
  = (effects w ++ [SaveSettingsDebounced])%list.
Proof.
  unfold setCharacterTemplateLock, getExtensionSettings.
  destruct k; [|discriminate]. destruct (ext_ccpm w); reflexivity.
Qed.

Lemma deleteCharacterTemplateLock_flushes (k : option JsId) :
  fst (deleteCharacterTemplateLock k w) = true ->
  effects (snd (deleteCharacterTemplateLock k w))
  = (effects w ++ [SaveSettingsDebounced])%list.
Proof.
  unfold deleteCharacterTemplateLock, getExtensionSettings.
  destruct k; [|discriminate].
  destruct (ext_ccpm w); simpl;
    try match goal with |- context [truthy ?v] => destruct (truthy v) end;
    simpl; (reflexivity || discriminate).
Qed.

(** The group region flushes through [editGroup]. *)
Lemma setGroupTemplateLock_flushes (gid : string) (tid : string) :
  fst (setGroupTemplateLock (Some gid) tid w) = true ->
  effects (snd (setGroupTemplateLock (Some gid) tid w))
  = (effects w ++ [EditGroup gid])%list.
Proof.
  unfold setGroupTemplateLock, editGroup.
  destruct (truthy (Some gid)); [|discriminate].
  destruct (ChatContext.find_group gid (groups w)); [|discriminate].
  simpl. destruct (editGroup_throws w); [discriminate|reflexivity].
Qed.

Lemma deleteGroupTemplateLock_flushes (gid : string) :
  fst (deleteGroupTemplateLock (Some gid) w) = true ->
  effects (snd (deleteGroupTemplateLock (Some gid) w))
  = (effects w ++ [EditGroup gid])%list.
Proof.
  unfold deleteGroupTemplateLock, editGroup.
  destruct (truthy (Some gid)); [|discriminate].
  match goal with |- context [truthy ?v] => destruct (truthy v) end;
    [|discriminate].
  simpl. destruct (editGroup_throws w); [discriminate|reflexivity].
Qed.

(** The chat region flushes through [saveMetadataDebounced], unless that
    call throws: the exception is swallowed and the write still reports
    success. *)
Lemma setChatTemplateLock_flushes (tid : string) :
  saveMetadataDebounced_throws w = None ->
  fst (setChatTemplateLock tid w) = true ->
  effects (snd (setChatTemplateLock tid w))
  = (effects w ++ [SaveMetadataDebounced])%list.
Proof.
  intros Hsave. unfold setChatTemplateLock, _triggerMetadataSave.
  destruct (chat_metadata w); [|discriminate]. simpl.
  rewrite Hsave. reflexivity.
Qed.

(** The group chat session region never calls into the host. *)
Lemma setGroupChatTemplateLock_effects (gid : option string) (tid : string) :
  effects (snd (setGroupChatTemplateLock gid tid w)) = effects w.
Proof.
  unfold setGroupChatTemplateLock.
  destruct (truthy gid); [|reflexivity].
  destruct (chat_metadata w); reflexivity.
Qed.

Lemma deleteGroupChatTemplateLock_effects (gid : option string) :
  effects (snd (deleteGroupChatTemplateLock gid w)) = effects w.
Proof.
  unfold deleteGroupChatTemplateLock.
  destruct (truthy gid); [|reflexivity].
  destruct (chat_metadata w); [|reflexivity].
  match goal with |- context [truthy ?v] => destruct (truthy v) end;
    reflexivity.
Qed.

End Flush.

(** C4.  A successful lock write must flush its region.  In the group
    chat session region it does not: locking T1 to the session of group g1
    reports success and stores the lock in [chat_metadata], and clearing
    it again reports success, while no call into the host is made: the log
    of effects stays empty, so [saveMetadataDebounced] never runs. *)
Theorem C4_group_chat_lock_write_not_flushed :
  let set := TemplateStorageAdapter.setGroupChatTemplateLock (Some "g1") "T1"
               StorageScenario.worldGroup in
  let del := TemplateStorageAdapter.deleteGroupChatTemplateLock (Some "g1")
               (snd set) in
  effects StorageScenario.worldGroup = []
  /\ fst set = true
  /\ TemplateStorageAdapter.getGroupChatTemplateLock (Some "g1") (snd set)
     = Some "T1"
  /\ effects (snd set) = []
  /\ fst del = true
  /\ TemplateStorageAdapter.getGroupChatTemplateLock (Some "g1") (snd del)
     = None
  /\ effects (snd del) = [].
Proof. repeat split. Qed.

(** The sibling path of a single chat does flush. *)
Example chat_lock_write_flushed :
  let set := TemplateStorageAdapter.setChatTemplateLock "T1" Scenario.world0 in
  fst set = true /\ effects (snd set) = [SaveMetadataDebounced].
Proof. repeat split. Qed.

(** When [saveMetadataDebounced] throws, the chat region reports success
    without a flush as well. *)
Example chat_lock_write_save_throws :
  let set := TemplateStorageAdapter.setChatTemplateLock "T1"
               StorageScenario.worldNoMetadataSave in
  fst set = true /\ effects (snd set) = [].
Proof. repeat split. Qed.

(** ** Blank character names *)

Lemma buildContext_single (w : World) :
  truthy (selected_group w) = false ->
  build_fault w = None ->
  ChatContext._buildContext w = Ok (ChatContext._buildSingleContext w).
Proof.
  intros Hsel Hfault. unfold ChatContext._buildContext.
  rewrite Hfault, Hsel. now destruct (selected_group w).
Qed.

(** With a cache that is empty or holds the snapshot of the present host,
    [getCurrent] yields the snapshot of the present host. *)
Lemma getCurrent_single (now : Z) (w : World) (cc : ChatContext.t) :
  truthy (selected_group w) = false ->
  build_fault w = None ->
  (forall c, ChatContext.cache cc = Some c ->
             c = ChatContext._buildSingleContext w) ->
  exists cc', ChatContext.getCurrent now w cc
              = (Ok (ChatContext._buildSingleContext w), cc').
Proof.
  intros Hsel Hfault Hcache.
  unfold ChatContext.getCurrent, ChatContext.has_current.
  rewrite (buildContext_single w Hsel Hfault).
  destruct (ChatContext.cache cc) as [c|] eqn:Hc.
  - rewrite (Hcache c eq_refl).
    destruct (now - ChatContext.cacheTime cc <? CACHE_TTL); simpl; eauto.
  - rewrite andb_false_r. eauto.
Qed.

Lemma falsy_name_cases (v : option string) :
  truthy v = false -> v = None \/ v = Some "".
Proof.
  destruct v as [s|]; [|now left]. simpl.
  destruct (String.eqb_spec s ""); [subst; now right|discriminate].
Qed.

(** C9.  In a single chat whose character name, taken through the
    fallback chain, trimmed and normalized, is missing or empty, the
    character scope is absent: [loadCurrentLocks] reads no character lock
    (the character slot of [currentLocks] is null), and
    [setLock('character', id)] and [clearLock('character')] return false
    and leave the host state, with every storage region and the log of
    host calls, exactly as it was. *)
Theorem C9_blank_character_name_is_absent (now : Z) (tid : string)
    (lm : TemplateLockManager.t) (w : World) :
  truthy (selected_group w) = false ->
  build_fault w = None ->
  truthy (ChatContext._getCharacterNameForSettings w) = false ->
  (forall c, ChatContext.cache (TemplateLockManager.chatContext lm) = Some c ->
             c = ChatContext._buildSingleContext w) ->
  (exists locks lm',
      TemplateLockManager.loadCurrentLocks now lm w = (Ok locks, lm', w)
      /\ character locks = None
      /\ character (TemplateLockManager.currentLocks lm') = None)
  /\ (exists lm',
         TemplateLockManager.setLock now "character" tid lm w
         = (Ok false, lm', w)
         /\ TemplateLockManager.currentLocks lm'
            = TemplateLockManager.currentLocks lm)
  /\ (exists lm',
         TemplateLockManager.clearLock now "character" lm w
         = (Ok false, lm', w)
         /\ TemplateLockManager.currentLocks lm'
            = TemplateLockManager.currentLocks lm).
Proof.
  intros Hsel Hfault Hname Hcache.
  destruct (getCurrent_single now w _ Hsel Hfault Hcache) as [cc Hcur].
  unfold TemplateLockManager.loadCurrentLocks, TemplateLockManager.setLock,
    TemplateLockManager.clearLock.
  rewrite Hcur. simpl.
  unfold TemplateLockManager._loadSingleLocks. simpl.
  destruct (falsy_name_cases _ Hname) as [-> | ->]; simpl.
  all: repeat split.
  all: try (destruct (truthy (ChatContext._getCurrentChatId w));
            do 2 eexists; repeat split; reflexivity).
  all: eexists; split; reflexivity.
Qed.

(** A character name of three spaces. *)
Lemma C9_blank_name_witness :
  truthy (selected_group StorageScenario.worldBlank) = false
  /\ build_fault StorageScenario.worldBlank = None
  /\ ChatContext._getCharacterNameForSettings StorageScenario.worldBlank
     = Some ""
  /\ (exists lm',
         TemplateLockManager.setLock 5000 "character" "T1"
           TemplateLockManager.new StorageScenario.worldBlank
         = (Ok false, lm', StorageScenario.worldBlank)
         /\ TemplateLockManager.currentLocks lm'
            = TemplateLockManager.currentLocks TemplateLockManager.new).
Proof.
  refine (conj eq_refl (conj eq_refl (conj eq_refl _))).
  refine (proj1 (proj2 (C9_blank_character_name_is_absent 5000 "T1"
                          TemplateLockManager.new StorageScenario.worldBlank
                          eq_refl eq_refl eq_refl _))).
  intros c Hc. discriminate Hc.
Defined.

(** [trim] removes the Unicode white space of ECMAScript: here a
    no-break space and a space before the name, and a tab, an ideographic
    space and a byte order mark after it. *)
Example trim_unicode_whitespace :
  trim (string_of_list_ascii
          (List.map ascii_of_N
             [194; 160; 32; 65; 108; 105; 99; 101; 9;
              227; 128; 128; 239; 187; 191]%N))
  = "Alice".
Proof. reflexivity. Qed.

(** White space inside a name stays. *)
Example trim_keeps_inner_whitespace : trim "  Mary Ann " = "Mary Ann".
Proof. reflexivity. Qed.

(** A named character keeps its scope: the lock is written and flushed. *)
Example named_character_lock_is_written :
  let '(r, lm, w) :=
    TemplateLockManager.setLock 5000 "character" "T1"
      TemplateLockManager.new Scenario.world0 in
  r = Ok true
  /\ character (TemplateLockManager.currentLocks lm) = Some "T1"
  /\ fst (TemplateStorageAdapter.getCharacterTemplateLock (Some (IdNum 0)) w)
     = Some "T1"
  /\ effects w = [SaveSettingsDebounced].
Proof. vm_compute. repeat split. Qed.

(** ** Applying a template *)

(** C1.  A template without prompts must be refused.  It is not: applying
    the empty template returns true and replaces the one live prompt of
    the host by an empty collection. *)
Theorem C1_empty_template_is_applied :
  let r := PromptTemplateManager.applyTemplate "tmpl_empty"
             ApplyScenario.manager0 Scenario.world0 in
  PromptTemplateManager.getTemplate ApplyScenario.manager0 "tmpl_empty"
  = Some ApplyScenario.emptyTemplate
  /\ List.length (Object_values (prompts ApplyScenario.emptyTemplate)) = 0%nat
  /\ List.length (default [] (oai_prompts Scenario.world0)) = 1%nat
  /\ fst r = true
  /\ oai_prompts (snd r) = Some []
  /\ effects (snd r) = [SaveServiceSettings; Render].
Proof. vm_compute. repeat split. Qed.

Lemma replace_order_again (target : string) (ord : list OrderItem)
    (l l' : list OrderEntry) :
  PromptTemplateManager.replace_order target ord l = Some l' ->
  PromptTemplateManager.replace_order target ord l' = Some l'.
Proof.
  revert l'. induction l as [|entry l IH]; intros l' H; simpl in H.
  - discriminate.
  - destruct (String.eqb (js_String (character_id entry)) target) eqn:E.
    + inversion H; subst. simpl. now rewrite E.
    + destruct (PromptTemplateManager.replace_order target ord l) as [l0|];
        simpl in H; [|discriminate].
      inversion H; subst. simpl. rewrite E, (IH l0 eq_refl). reflexivity.
Qed.

Lemma replace_order_pushed (id : JsId) (ord : list OrderItem)
    (l : list OrderEntry) :
  PromptTemplateManager.replace_order (js_String id) ord l = None ->
  PromptTemplateManager.replace_order (js_String id) ord
    (l ++ [{| character_id := id; order := ord |}])
  = Some (l ++ [{| character_id := id; order := ord |}])%list.
Proof.
  induction l as [|entry l IH]; intros H; simpl in *.
  - now rewrite String.eqb_refl.
  - destruct (String.eqb (js_String (character_id entry)) (js_String id));
      [discriminate|].
    destruct (PromptTemplateManager.replace_order (js_String id) ord l);
      [discriminate|].
    now rewrite (IH eq_refl).
Qed.

(** What [applyTemplate] leaves in the host when the template exists and
    the prompt manager is available, whether or not saving and rendering
    complete. *)
Lemma applyTemplate_state (tid : string) (m : PromptTemplateManager.t)
    (w : World) (tmpl : PromptTemplate) (pm : PromptManager) :
  PromptTemplateManager.getTemplate m tid = Some tmpl ->
  promptManager w = Some pm ->
  let w1 := snd (PromptTemplateManager.applyTemplate tid m w) in
  let target := default (IdNum 100000) (promptOrderCharacterId tmpl) in
  let l0 := default [] (oai_prompt_order w) in
  oai_prompts w1 = Some (Object_values (prompts tmpl))
  /\ if (0 <? List.length (promptOrder tmpl))%nat then
       oai_prompt_order w1
       = Some (match PromptTemplateManager.replace_order (js_String target)
                       (promptOrder tmpl) l0 with
               | Some l => l
               | None =>
                 (l0 ++ [{| character_id := target;
                            order := promptOrder tmpl |}])%list
               end)
       /\ promptManager w1
          = Some (match activeCharacter pm with
                  | Some _ =>
                    {| activeCharacter := Some target;
                       saveServiceSettings_throws :=
                         saveServiceSettings_throws pm;
                       render_throws := render_throws pm |}
                  | None => pm
                  end)
     else
       oai_prompt_order w1 = oai_prompt_order w
       /\ promptManager w1 = Some pm.
Proof.
  intros Hget Hpm. unfold PromptTemplateManager.applyTemplate.
  rewrite Hget, Hpm.
  unfold PromptTemplateManager.restore_order,
    PromptTemplateManager.saveServiceSettings, PromptTemplateManager.render.
  destruct (0 <? List.length (promptOrder tmpl))%nat;
    destruct (saveServiceSettings_throws pm), (render_throws pm);
    simpl;
    try destruct (PromptTemplateManager.replace_order _ _ _);
    try destruct (activeCharacter pm);
    simpl; rewrite ?Hpm; auto.
Qed.

Lemma applyTemplate_unavailable (tid : string) (m : PromptTemplateManager.t)
    (w : World) :
  promptManager w = None ->
  PromptTemplateManager.applyTemplate tid m w = (false, w).
Proof.
  intros Hpm. unfold PromptTemplateManager.applyTemplate. rewrite Hpm.
  now destruct (PromptTemplateManager.getTemplate m tid).
Qed.

(** C5.  Applying an existing template a second time leaves the live
    prompt state exactly as the first application left it:
    [oai_settings.prompts], [oai_settings.prompt_order] and the id of the
    prompt manager's active character do not change. *)
Theorem C5_applyTemplate_idempotent (tid : string)
    (m : PromptTemplateManager.t) (w : World) (tmpl : PromptTemplate) :
  PromptTemplateManager.getTemplate m tid = Some tmpl ->
  let w1 := snd (PromptTemplateManager.applyTemplate tid m w) in
  let w2 := snd (PromptTemplateManager.applyTemplate tid m w1) in
  live_prompt_state w2 = live_prompt_state w1.
Proof.
  intros Hget w1 w2. subst w2.
  destruct (promptManager w) as [pm|] eqn:Hpm.
  2:{ subst w1. rewrite (applyTemplate_unavailable tid m w Hpm). simpl.
      now rewrite (applyTemplate_unavailable tid m w Hpm). }
  destruct (applyTemplate_state tid m w tmpl pm Hget Hpm) as [Hp Hrest].
  fold w1 in Hp, Hrest.
  destruct (0 <? List.length (promptOrder tmpl))%nat eqn:Hlen.
  - destruct Hrest as [Ho Hm].
    destruct (applyTemplate_state tid m w1 tmpl _ Hget Hm) as [Hp2 Hrest2].
    rewrite Hlen in Hrest2. destruct Hrest2 as [Ho2 Hm2].
    rewrite Ho in Ho2. simpl in Ho2.
    assert (Hsame : oai_prompt_order
                      (snd (PromptTemplateManager.applyTemplate tid m w1))
                    = oai_prompt_order w1).
    { rewrite Ho2, Ho.
      destruct (PromptTemplateManager.replace_order _ _
                  (default [] (oai_prompt_order w))) as [l|] eqn:Hr.
      - now rewrite (replace_order_again _ _ _ _ Hr).
      - now rewrite (replace_order_pushed _ _ _ Hr). }
    unfold live_prompt_state. rewrite Hp2, Hp, Hsame, Hm2, Hm. simpl.
    destruct (activeCharacter pm) eqn:Ha; simpl; rewrite ?Ha; reflexivity.
  - destruct Hrest as [Ho Hm].
    destruct (applyTemplate_state tid m w1 tmpl _ Hget Hm) as [Hp2 Hrest2].
    rewrite Hlen in Hrest2. destruct Hrest2 as [Ho2 Hm2].
    unfold live_prompt_state. now rewrite Hp2, Hp, Ho2, Hm2, Hm.
Qed.

(** The first application of the full template changes the live state,
    the second does not. *)
Lemma C5_apply_twice_witness :
  PromptTemplateManager.getTemplate ApplyScenario.manager0 "tmpl_full"
  = Some ApplyScenario.fullTemplate
  /\ live_prompt_state
       (snd (PromptTemplateManager.applyTemplate "tmpl_full"
               ApplyScenario.manager0
               (snd (PromptTemplateManager.applyTemplate "tmpl_full"
                       ApplyScenario.manager0 Scenario.world0))))
     = live_prompt_state
         (snd (PromptTemplateManager.applyTemplate "tmpl_full"
                 ApplyScenario.manager0 Scenario.world0)).
Proof.
  split; [reflexivity|].
  exact (C5_applyTemplate_idempotent "tmpl_full" ApplyScenario.manager0
           Scenario.world0 ApplyScenario.fullTemplate eq_refl).
Defined.

Example first_application_changes_state :
  live_prompt_state
    (snd (PromptTemplateManager.applyTemplate "tmpl_full"
            ApplyScenario.manager0 Scenario.world0))
  = (Some [ApplyScenario.mainPrompt; ApplyScenario.jailbreakPrompt],
     Some [ {| character_id := IdNum 100000;
               order := [ {| oi_identifier := "main"; enabled := true |} ] |};
            {| character_id := IdNum 100001;
               order := promptOrder ApplyScenario.fullTemplate |} ],
     Some (IdNum 100001)).
Proof. vm_compute. reflexivity. Qed.

(** ** Change handlers *)

Lemma prompt_frame_refl (w : World) : prompt_frame w w.
Proof. now repeat split. Qed.

Lemma prompt_frame_trans (w1 w2 w3 : World) :
  prompt_frame w1 w2 -> prompt_frame w2 w3 -> prompt_frame w1 w3.
Proof.
  intros (A1 & A2 & A3) (B1 & B2 & B3).
  repeat split; congruence.
Qed.

Lemma getExtensionSettings_frame (w : World) :
  prompt_frame w (snd (TemplateStorageAdapter.getExtensionSettings w)).
Proof.
  unfold TemplateStorageAdapter.getExtensionSettings.
  destruct (ext_ccpm w); now repeat split.
Qed.

Lemma getCharacterTemplateLock_frame (k : option JsId) (w : World) :
  prompt_frame w (snd (TemplateStorageAdapter.getCharacterTemplateLock k w)).
Proof.
  unfold TemplateStorageAdapter.getCharacterTemplateLock.
  destruct k; [|apply prompt_frame_refl].
  pose proof (getExtensionSettings_frame w) as H.
  now destruct (TemplateStorageAdapter.getExtensionSettings w).
Qed.

Lemma loadCurrentLocks_frame (now : Z) (lm : TemplateLockManager.t)
    (w : World) :
  prompt_frame w (snd (TemplateLockManager.loadCurrentLocks now lm w)).
Proof.
  unfold TemplateLockManager.loadCurrentLocks.
  destruct (ChatContext.getCurrent now w (TemplateLockManager.chatContext lm))
    as [[context|e] cc]; [|apply prompt_frame_refl].
  unfold TemplateLockManager._loadGroupLocks,
    TemplateLockManager._loadSingleLocks.
  destruct (isGroupChat context);
    destruct (characterName context) as [name|] eqn:Hn; simpl;
    try destruct (negb (String.eqb name "")); simpl;
    try (pose proof (getCharacterTemplateLock_frame
                       (TemplateLockManager.characterKey w name) w) as H;
         destruct (TemplateStorageAdapter.getCharacterTemplateLock
                     (TemplateLockManager.characterKey w name) w));
    simpl in *;
    try destruct (truthy (chatId context)); simpl;
    auto using prompt_frame_refl.
Qed.

Lemma getLockToApply_frame (now : Z) (lm : TemplateLockManager.t)
    (w : World) :
  prompt_frame w (snd (TemplateLockManager.getLockToApply now lm w)).
Proof.
  unfold TemplateLockManager.getLockToApply.
  destruct (ChatContext.getCurrent now w (TemplateLockManager.chatContext lm))
    as [[context|e] cc]; [|apply prompt_frame_refl].
  pose proof (getExtensionSettings_frame w) as H.
  now destruct (TemplateStorageAdapter.getExtensionSettings w).
Qed.

Lemma getEffectiveLock_frame (t1 t2 : Z) (m : PromptTemplateManager.t)
    (w : World) :
  prompt_frame w (snd (PromptTemplateManager.getEffectiveLock t1 t2 m w)).
Proof.
  unfold PromptTemplateManager.getEffectiveLock.
  pose proof (loadCurrentLocks_frame t1
                (PromptTemplateManager.lockManager m) w) as H1.
  destruct (TemplateLockManager.loadCurrentLocks t1
              (PromptTemplateManager.lockManager m) w) as [[r lm] w1].
  simpl in H1. destruct r as [locks|e]; [|exact H1].
  pose proof (getLockToApply_frame t2 lm w1) as H2.
  destruct (TemplateLockManager.getLockToApply t2 lm w1) as [[r2 lm2] w2].
  simpl in *. now apply (prompt_frame_trans w w1 w2).
Qed.

Lemma invalidate_and_load_frame (t1 : Z) (m : PromptTemplateManager.t)
    (w : World) :
  prompt_frame w (snd (PromptTemplateManager.invalidate_and_load t1 m w)).
Proof.
  unfold PromptTemplateManager.invalidate_and_load.
  match goal with
  | |- context [TemplateLockManager.loadCurrentLocks ?a ?b ?c] =>
    pose proof (loadCurrentLocks_frame a b c) as H;
    destruct (TemplateLockManager.loadCurrentLocks a b c) as [[r lm] w1]
  end.
  exact H.
Qed.

Lemma autoApplyMode_frame (w w' : World) :
  prompt_frame w w' ->
  PromptTemplateManager.current_autoApplyMode w'
  = PromptTemplateManager.current_autoApplyMode w.
Proof.
  intros (_ & _ & H). unfold PromptTemplateManager.current_autoApplyMode.
  now rewrite H.
Qed.

(** A handler that stops before applying leaves the prompts alone. *)
Ltac handler_stops :=
  simpl;
  match goal with
  | H : prompt_frame _ _ |- _ =>
    destruct H as (? & ? & ?); repeat split; congruence
  end.

(** C6.  On a chat-change or preset-change event, when the auto-apply
    mode is 'never' or the effective lock the handler resolves has no
    template id, the handler does not call [applyTemplate], and
    [oai_settings.prompts] and [oai_settings.prompt_order] are what they
    were, whatever the mode and whatever the user would answer. *)
Theorem C6_no_auto_apply_without_lock_or_in_never_mode
    (ev : PromptTemplateManager.ChangeEvent) (t1 t2 t3 t4 : Z)
    (affirmative : bool) (m : PromptTemplateManager.t) (w : World) :
  PromptTemplateManager.current_autoApplyMode w = AUTO_APPLY_MODES.NEVER
  \/ effective_lock_is_none ev t1 t2 t3 m w ->
  let out :=
    PromptTemplateManager.handleEvent ev t1 t2 t3 t4 affirmative m w in
  PromptTemplateManager.applied out = []
  /\ oai_prompts (PromptTemplateManager.out_world out) = oai_prompts w
  /\ oai_prompt_order (PromptTemplateManager.out_world out)
     = oai_prompt_order w.
Proof.
  intros Hpre. destruct ev; simpl.
  - unfold PromptTemplateManager.handleChatChange.
    pose proof (invalidate_and_load_frame t1 m w) as Hf1.
    destruct (PromptTemplateManager.invalidate_and_load t1 m w)
      as [[r m1] w1] eqn:Hload.
    simpl in Hf1. destruct r as [locks|e]; [|handler_stops].
    rewrite (autoApplyMode_frame w w1 Hf1).
    destruct (String.eqb (PromptTemplateManager.current_autoApplyMode w)
                AUTO_APPLY_MODES.NEVER) eqn:Hmode; [handler_stops|].
    destruct Hpre as [Hnever | Hnone].
    { rewrite Hnever in Hmode. discriminate Hmode. }
    pose proof (getEffectiveLock_frame t2 t3 m1 w1) as Hf2.
    destruct (PromptTemplateManager.getEffectiveLock t2 t3 m1 w1)
      as [[r m2] w2] eqn:Heff.
    simpl in Hf2. pose proof (prompt_frame_trans w w1 w2 Hf1 Hf2) as Hf.
    clear Hf1 Hf2.
    destruct r as [effectiveLock|e]; [|handler_stops].
    specialize (Hnone locks m1 w1 effectiveLock m2 w2 Hload Heff).
    destruct (templateId effectiveLock) as [tid|]; [|handler_stops].
    rewrite Hnone. handler_stops.
  - unfold PromptTemplateManager.handlePresetChange.
    destruct (String.eqb (PromptTemplateManager.current_autoApplyMode w)
                AUTO_APPLY_MODES.NEVER) eqn:Hmode.
    { simpl. auto. }
    destruct Hpre as [Hnever | Hnone].
    { rewrite Hnever in Hmode. discriminate Hmode. }
    pose proof (getEffectiveLock_frame t1 t2 m w) as Hf.
    destruct (PromptTemplateManager.getEffectiveLock t1 t2 m w)
      as [[r m2] w2] eqn:Heff.
    simpl in Hf.
    destruct r as [effectiveLock|e]; [|handler_stops].
    specialize (Hnone effectiveLock m2 w2 Heff).
    destruct (templateId effectiveLock) as [tid|]; [|handler_stops].
    rewrite Hnone. handler_stops.
Qed.

(** In mode 'never' a chat change applies nothing, although the chat is
    locked to a template and the user would confirm. *)
Lemma C6_never_mode_witness :
  (PromptTemplateManager.current_autoApplyMode
     (ApplyScenario.worldLockedMode "never") = AUTO_APPLY_MODES.NEVER
   \/ effective_lock_is_none PromptTemplateManager.CHAT_CHANGED
        5000 5001 5002 ApplyScenario.manager0
        (ApplyScenario.worldLockedMode "never"))
  /\ PromptTemplateManager.applied
       (PromptTemplateManager.handleEvent PromptTemplateManager.CHAT_CHANGED
          5000 5001 5002 5003 true ApplyScenario.manager0
          (ApplyScenario.worldLockedMode "never")) = []
  /\ oai_prompts
       (PromptTemplateManager.out_world
          (PromptTemplateManager.handleEvent
             PromptTemplateManager.CHAT_CHANGED
             5000 5001 5002 5003 true ApplyScenario.manager0
             (ApplyScenario.worldLockedMode "never")))
     = oai_prompts (ApplyScenario.worldLockedMode "never")
  /\ oai_prompt_order
       (PromptTemplateManager.out_world
          (PromptTemplateManager.handleEvent
             PromptTemplateManager.CHAT_CHANGED
             5000 5001 5002 5003 true ApplyScenario.manager0
             (ApplyScenario.worldLockedMode "never")))
     = oai_prompt_order (ApplyScenario.worldLockedMode "never").
Proof.
  split; [left; reflexivity|].
  exact (C6_no_auto_apply_without_lock_or_in_never_mode
           PromptTemplateManager.CHAT_CHANGED 5000 5001 5002 5003 true
           ApplyScenario.manager0 (ApplyScenario.worldLockedMode "never")
           (or_introl eq_refl)).
Defined.

(** The same chat in mode 'always': the locked template is applied. *)
Example always_mode_applies_locked_template :
  let out :=
    PromptTemplateManager.handleEvent PromptTemplateManager.CHAT_CHANGED
      5000 5001 5002 5003 false ApplyScenario.manager0
      (ApplyScenario.worldLockedMode "always") in
  PromptTemplateManager.applied out = ["tmpl_full"]
  /\ oai_prompts (PromptTemplateManager.out_world out)
     = Some [ApplyScenario.mainPrompt; ApplyScenario.jailbreakPrompt].
Proof. vm_compute. split; reflexivity. Qed.

(** In mode 'ask' the template is applied when the user confirms. *)
Example ask_mode_applies_on_confirmation :
  PromptTemplateManager.applied
    (PromptTemplateManager.handleEvent PromptTemplateManager.PRESET_CHANGED
       5000 5001 5002 5003 true ApplyScenario.manager0
       (ApplyScenario.worldLockedMode "ask")) = ["tmpl_full"]
  /\ PromptTemplateManager.applied
       (PromptTemplateManager.handleEvent PromptTemplateManager.PRESET_CHANGED
          5000 5001 5002 5003 false ApplyScenario.manager0
          (ApplyScenario.worldLockedMode "ask")) = [].
Proof. vm_compute. split; reflexivity. Qed.

(** Scenario D: no lock in the current family, mode 'always'. *)
Example scenario_D_no_locks :
  effective_lock_is_none PromptTemplateManager.PRESET_CHANGED
    5000 5001 5002 ApplyScenario.manager0
    (ApplyScenario.worldUnlockedMode "always")
  /\ PromptTemplateManager.applied
       (PromptTemplateManager.handleEvent PromptTemplateManager.PRESET_CHANGED
          5000 5001 5002 5003 true ApplyScenario.manager0
          (ApplyScenario.worldUnlockedMode "always")) = [].
Proof.
  split; [|vm_compute; reflexivity].
  intros r m' w' H. vm_compute in H. inversion H. reflexivity.
Qed.

(** Scenario E: mode 'always' and a lock on the template without prompts;
    the handler applies it and the live prompts are gone. *)
Example scenario_E_empty_template_auto_applied :
  let w :=
    set_chat_metadata
      (Some {| character_name := None;
               md_ccpm := Some {| templateLock := Some "tmpl_empty" |} |})
      (ApplyScenario.worldUnlockedMode "always") in
  let out :=
    PromptTemplateManager.handleEvent PromptTemplateManager.CHAT_CHANGED
      5000 5001 5002 5003 false ApplyScenario.manager0 w in
  PromptTemplateManager.applied out = ["tmpl_empty"]
  /\ oai_prompts (PromptTemplateManager.out_world out) = Some [].
Proof. vm_compute. split; reflexivity. Qed.

(** ** Locks read from storage

    Every lock [loadCurrentLocks] puts into [currentLocks] is a template
    id or null, never the empty string, so the resolver is always given a
    valid lock set. *)
Lemma getCharacterTemplateLock_valid (k : option JsId) (w : World) :
  valid_lock (fst (TemplateStorageAdapter.getCharacterTemplateLock k w)).
Proof.
  unfold TemplateStorageAdapter.getCharacterTemplateLock.
  destruct k; [|discriminate].
  destruct (TemplateStorageAdapter.getExtensionSettings w). simpl.
  apply or_null_valid.
Qed.

Lemma loadCurrentLocks_valid (now : Z) (lm : TemplateLockManager.t)
    (w : World) (locks : Locks) :
  fst (fst (TemplateLockManager.loadCurrentLocks now lm w)) = Ok locks ->
  valid_locks locks.
Proof.
  unfold TemplateLockManager.loadCurrentLocks.
  destruct (ChatContext.getCurrent now w (TemplateLockManager.chatContext lm))
    as [[context|e] cc]; [|discriminate].
  unfold TemplateLockManager._loadGroupLocks,
    TemplateLockManager._loadSingleLocks,
    TemplateStorageAdapter.getGroupTemplateLock,
    TemplateStorageAdapter.getGroupChatTemplateLock,
    TemplateStorageAdapter.getChatTemplateLock.
  destruct (isGroupChat context);
    destruct (characterName context) as [name|]; simpl;
    try destruct (negb (String.eqb name "")); simpl;
    try (pose proof (getCharacterTemplateLock_valid
                       (TemplateLockManager.characterKey w name) w) as Hk;
         destruct (TemplateStorageAdapter.getCharacterTemplateLock
                     (TemplateLockManager.characterKey w name) w));
    simpl in *;
    try destruct (truthy (chatId context));
    try (destruct (groupId context) as [gid|]; simpl;
         try destruct (negb (String.eqb gid "")));
    simpl; intros H; inversion H; subst; unfold valid_locks; simpl;
    repeat split; try discriminate; try assumption;
    apply or_null_valid.
Qed.

(** * Further properties of the locking core *)

(** ** Character lock storage *)



Lemma or_null_template_id (tid : string) :
  tid <> "" -> or_null (Some tid) = Some tid.
Proof.
  intros Hne. unfold or_null. simpl.
  destruct (String.eqb_spec tid ""); [contradiction|reflexivity].
Qed.






(** ** Group, chat and group chat lock storage *)

Lemma find_group_update (gid gid' : string) (f : HostGroup -> HostGroup)
    (gs : list HostGroup) :
  (forall g, g_id (f g) = g_id g) ->
  ChatContext.find_group gid'
    (TemplateStorageAdapter.update_group gid f gs)
  = if String.eqb gid gid' then option_map f (ChatContext.find_group gid' gs)
    else ChatContext.find_group gid' gs.
Proof.
  intros Hid. unfold ChatContext.find_group.
  induction gs as [|g gs IH]; simpl.
  - now destruct (String.eqb gid gid').
  - destruct (String.eqb_spec (g_id g) gid) as [Hg|Hg]; simpl.
    + rewrite Hid. subst gid.
      destruct (String.eqb_spec (g_id g) gid'); reflexivity.
    + destruct (String.eqb_spec (g_id g) gid') as [Hg'|Hg']; simpl.
      * destruct (String.eqb_spec gid gid'); [congruence|reflexivity].
      * exact IH.
Qed.

(** X3.  Locking a template to an existing group stores the lock in the group
    record whether or not [editGroup] completes: the call reports true
    exactly when [editGroup] does not throw, and in both cases the lock
    reads back.  For a group that does not exist the call reports false
    and changes nothing. *)
Theorem group_lock_set_then_get (gid tid : string) (w : World) :
  gid <> "" ->
  tid <> "" ->
  let r := TemplateStorageAdapter.setGroupTemplateLock (Some gid) tid w in
  match ChatContext.find_group gid (groups w) with
  | Some _ =>
    TemplateStorageAdapter.getGroupTemplateLock (Some gid) (snd r) = Some tid
    /\ (fst r = true <-> editGroup_throws w = None)
  | None => r = (false, w)
  end.
Proof.
  intros Hg Ht.
  unfold TemplateStorageAdapter.setGroupTemplateLock,
    TemplateStorageAdapter.getGroupTemplateLock,
    TemplateStorageAdapter.editGroup.
  assert (Htg : truthy (Some gid) = true).
  { simpl. destruct (String.eqb_spec gid ""); [contradiction|reflexivity]. }
  rewrite Htg.
  destruct (ChatContext.find_group gid (groups w)) as [g|] eqn:Hfind;
    [|reflexivity].
  simpl.
  assert (Hread :
    or_null (ChatContext.find_group gid
               (TemplateStorageAdapter.update_group gid
                  (TemplateStorageAdapter.with_lock (Some tid)) (groups w))
             ≫= ccpm_template_lock) = Some tid).
  { rewrite find_group_update by reflexivity.
    rewrite String.eqb_refl, Hfind. simpl. now apply or_null_template_id. }
  destruct (editGroup_throws w) as [e|]; simpl; (split; [exact Hread|]).
  - split; discriminate.
  - split; reflexivity.
Qed.

Lemma group_lock_set_then_get_witness :
  "g1" <> "" /\ "T3" <> ""
  /\ TemplateStorageAdapter.getGroupTemplateLock (Some "g1")
       (snd (TemplateStorageAdapter.setGroupTemplateLock (Some "g1") "T3"
               StorageScenario.worldGroup))
     = Some "T3".
Proof.
  assert (Hg : "g1" <> "") by discriminate.
  assert (Ht : "T3" <> "") by discriminate.
  split; [exact Hg|]. split; [exact Ht|].
  exact (proj1 (group_lock_set_then_get "g1" "T3" StorageScenario.worldGroup
                  Hg Ht)).
Defined.

(** X4.  The lock of a single chat and the lock of a group chat session are
    one and the same field of [chat_metadata]: what either setter writes,
    both getters read, and what either delete removes is gone for both. *)
Theorem chat_and_group_chat_lock_share_field (gid tid : string) (w : World) :
  gid <> "" ->
  tid <> "" ->
  chat_metadata w <> None ->
  let wc := snd (TemplateStorageAdapter.setChatTemplateLock tid w) in
  let wg := snd (TemplateStorageAdapter.setGroupChatTemplateLock
                   (Some gid) tid w) in
  TemplateStorageAdapter.getChatTemplateLock wc = Some tid
  /\ TemplateStorageAdapter.getGroupChatTemplateLock (Some gid) wc = Some tid
  /\ TemplateStorageAdapter.getChatTemplateLock wg = Some tid
  /\ TemplateStorageAdapter.getGroupChatTemplateLock (Some gid) wg = Some tid
  /\ TemplateStorageAdapter.getGroupChatTemplateLock (Some gid)
       (snd (TemplateStorageAdapter.deleteChatTemplateLock wg)) = None
  /\ TemplateStorageAdapter.getChatTemplateLock
       (snd (TemplateStorageAdapter.deleteGroupChatTemplateLock
               (Some gid) wc)) = None.
Proof.
  intros Hg Ht Hmd.
  assert (Htg : truthy (Some gid) = true).
  { simpl. destruct (String.eqb_spec gid ""); [contradiction|reflexivity]. }
  assert (Htt : truthy (Some tid) = true).
  { simpl. destruct (String.eqb_spec tid ""); [contradiction|reflexivity]. }
  unfold TemplateStorageAdapter.setChatTemplateLock,
    TemplateStorageAdapter.setGroupChatTemplateLock,
    TemplateStorageAdapter.deleteChatTemplateLock,
    TemplateStorageAdapter.deleteGroupChatTemplateLock,
    TemplateStorageAdapter.getChatTemplateLock,
    TemplateStorageAdapter.getGroupChatTemplateLock,
    TemplateStorageAdapter._triggerMetadataSave.
  rewrite Htg.
  destruct (chat_metadata w) as [md|]; [|contradiction].
  simpl in Htt.
  destruct (saveMetadataDebounced_throws w) eqn:Hs; simpl;
    rewrite ?Hs, ?Htg, ?Htt; simpl; rewrite ?Hs, ?Htt; simpl;
    rewrite ?or_null_template_id by assumption;
    repeat split; reflexivity.
Qed.

Lemma chat_and_group_chat_lock_share_field_witness :
  "g1" <> "" /\ "T4" <> "" /\ chat_metadata Scenario.world0 <> None
  /\ TemplateStorageAdapter.getChatTemplateLock
       (snd (TemplateStorageAdapter.setGroupChatTemplateLock (Some "g1") "T4"
               Scenario.world0))
     = Some "T4".
Proof.
  assert (Hg : "g1" <> "") by discriminate.
  assert (Ht : "T4" <> "") by discriminate.
  assert (Hmd : chat_metadata Scenario.world0 <> None) by discriminate.
  split; [exact Hg|]. split; [exact Ht|]. split; [exact Hmd|].
  exact (proj1 (proj2 (proj2 (chat_and_group_chat_lock_share_field
                                "g1" "T4" Scenario.world0 Hg Ht Hmd)))).
Defined.

(** X5.  A write to one storage region leaves what the other regions read as
    it was: a character lock write does not touch the chat and group
    locks, a chat lock write does not touch the character and group
    locks, and a group lock write touches neither the character lock, the
    chat lock nor the lock of any other group. *)
Theorem lock_regions_are_independent (k k' : option JsId)
    (gid gid' : option string) (tid : string) (w : World) :
  let wc := snd (TemplateStorageAdapter.setCharacterTemplateLock k tid w) in
  let wh := snd (TemplateStorageAdapter.setChatTemplateLock tid w) in
  let wg := snd (TemplateStorageAdapter.setGroupTemplateLock gid tid w) in
  (TemplateStorageAdapter.getChatTemplateLock wc
   = TemplateStorageAdapter.getChatTemplateLock w
   /\ TemplateStorageAdapter.getGroupTemplateLock gid' wc
      = TemplateStorageAdapter.getGroupTemplateLock gid' w)
  /\ (fst (TemplateStorageAdapter.getCharacterTemplateLock k' wh)
      = fst (TemplateStorageAdapter.getCharacterTemplateLock k' w)
      /\ TemplateStorageAdapter.getGroupTemplateLock gid' wh
         = TemplateStorageAdapter.getGroupTemplateLock gid' w)
  /\ (fst (TemplateStorageAdapter.getCharacterTemplateLock k' wg)
      = fst (TemplateStorageAdapter.getCharacterTemplateLock k' w)
      /\ TemplateStorageAdapter.getChatTemplateLock wg
         = TemplateStorageAdapter.getChatTemplateLock w
      /\ (gid' <> gid ->
          TemplateStorageAdapter.getGroupTemplateLock gid' wg
          = TemplateStorageAdapter.getGroupTemplateLock gid' w)).
Proof.
  simpl. repeat split.
  - unfold TemplateStorageAdapter.setCharacterTemplateLock,
      TemplateStorageAdapter.getExtensionSettings.
    destruct k; [|reflexivity]. now destruct (ext_ccpm w).
  - unfold TemplateStorageAdapter.setCharacterTemplateLock,
      TemplateStorageAdapter.getExtensionSettings.
    destruct k; [|reflexivity]. now destruct (ext_ccpm w).
  - unfold TemplateStorageAdapter.setChatTemplateLock,
      TemplateStorageAdapter._triggerMetadataSave,
      TemplateStorageAdapter.getCharacterTemplateLock,
      TemplateStorageAdapter.getExtensionSettings.
    destruct k'; [|reflexivity].
    destruct (chat_metadata w); [|reflexivity]. simpl.
    destruct (saveMetadataDebounced_throws w); simpl;
      now destruct (ext_ccpm w).
  - unfold TemplateStorageAdapter.setChatTemplateLock,
      TemplateStorageAdapter._triggerMetadataSave.
    destruct (chat_metadata w); [|reflexivity]. simpl.
    now destruct (saveMetadataDebounced_throws w).
  - unfold TemplateStorageAdapter.setGroupTemplateLock,
      TemplateStorageAdapter.editGroup,
      TemplateStorageAdapter.getCharacterTemplateLock,
      TemplateStorageAdapter.getExtensionSettings.
    destruct k'; [|reflexivity].
    destruct gid as [g|]; [|reflexivity].
    destruct (truthy (Some g)); [|reflexivity].
    destruct (ChatContext.find_group g (groups w)); [|reflexivity]. simpl.
    destruct (editGroup_throws w); simpl; now destruct (ext_ccpm w).
  - unfold TemplateStorageAdapter.setGroupTemplateLock,
      TemplateStorageAdapter.editGroup.
    destruct gid as [g|]; [|reflexivity].
    destruct (truthy (Some g)); [|reflexivity].
    destruct (ChatContext.find_group g (groups w)); [|reflexivity]. simpl.
    now destruct (editGroup_throws w).
  - intros Hne.
    unfold TemplateStorageAdapter.setGroupTemplateLock,
      TemplateStorageAdapter.editGroup,
      TemplateStorageAdapter.getGroupTemplateLock.
    destruct gid as [g|]; [|reflexivity].
    destruct (truthy (Some g)); [|reflexivity].
    destruct (ChatContext.find_group g (groups w)) eqn:Hf; [|reflexivity].
    destruct gid' as [g'|]; [|reflexivity].
    destruct (truthy (Some g')); [|reflexivity].
    assert (Hread :
      ChatContext.find_group g'
        (TemplateStorageAdapter.update_group g
           (TemplateStorageAdapter.with_lock (Some tid)) (groups w))
      = ChatContext.find_group g' (groups w)).
    { rewrite find_group_update by reflexivity.
      destruct (String.eqb_spec g g'); [congruence|reflexivity]. }
    simpl. destruct (editGroup_throws w); simpl; now rewrite Hread.
Qed.

(** ** Context snapshots *)

(** X6.  After [invalidate] the next [getCurrent] never serves what was cached:
    it returns what [_buildContext] gives for the host as it is now, the
    fresh snapshot or the exception, whatever the clock reads; a fresh
    snapshot is cached with the time of the call. *)
Theorem getCurrent_after_invalidate (now : Z) (w : World)
    (st : ChatContext.t) :
  let r := ChatContext.getCurrent now w (ChatContext.invalidate st) in
  fst r = ChatContext._buildContext w
  /\ match ChatContext._buildContext w with
     | Ok c =>
       ChatContext.cache (snd r) = Some c
       /\ ChatContext.cacheTime (snd r) = now
     | Throw _ => ChatContext.cache (snd r) = None
     end.
Proof.
  unfold ChatContext.getCurrent, ChatContext.invalidate,
    ChatContext.has_current. simpl. rewrite andb_false_r.
  destruct (ChatContext._buildContext w); simpl; auto.
Qed.

(** X7.  Every snapshot [_buildContext] produces is classified one way only.
    A group snapshot has type 'group', the selected group as its
    [groupId] and [primaryId], and the group's name as character name; a
    single snapshot has type 'single', no group id or name, and the
    character name and chat id as its primary and secondary ids.  The
    chat id of a snapshot is never the empty string. *)
Theorem buildContext_classification (w : World) (c : Context) :
  ChatContext._buildContext w = Ok c ->
  chatId c <> Some ""
  /\ if isGroupChat c then
       type c = CHAT_TYPES.GROUP
       /\ truthy (selected_group w) = true
       /\ groupId c = selected_group w
       /\ primaryId c = groupId c
       /\ characterName c = groupName c
       /\ groupName c <> Some ""
     else
       type c = CHAT_TYPES.SINGLE
       /\ truthy (selected_group w) = false
       /\ groupId c = None
       /\ groupName c = None
       /\ primaryId c = characterName c
       /\ secondaryId c = chatId c.
Proof.
  unfold ChatContext._buildContext.
  destruct (build_fault w); [discriminate|].
  destruct (selected_group w) as [gid|] eqn:Hsel.
  - destruct (truthy (Some gid)) eqn:Ht; intros H; inversion H; subst;
      simpl; rewrite ?Ht; repeat split; try apply or_null_valid.
  - intros H; inversion H; subst. simpl.
    repeat split; apply or_null_valid.
Qed.

Lemma buildContext_classification_witness :
  ChatContext._buildContext StorageScenario.worldGroup
  = Ok (ChatContext._buildGroupContext StorageScenario.worldGroup "g1")
  /\ groupId (ChatContext._buildGroupContext StorageScenario.worldGroup "g1")
     = selected_group StorageScenario.worldGroup.
Proof.
  split; [reflexivity|].
  exact (proj1 (proj2 (proj2 (proj2
           (buildContext_classification StorageScenario.worldGroup
              (ChatContext._buildGroupContext StorageScenario.worldGroup "g1")
              eq_refl))))).
Defined.

(** ** The resolver *)

(** X8.  [resolve] never makes up a template id: the id it returns is null or
    a non-empty id taken from one of the lock slots, and never from the
    group slot in a single chat.  It returns null exactly when every slot
    of the family is null or empty. *)
Theorem resolve_returns_a_held_lock (prefs : StorageSettings)
    (context : Context) (locks : Locks) :
  let r := TemplateLockResolver.resolve prefs context locks in
  (templateId r = None
   \/ (truthy (templateId r) = true
       /\ (templateId r = character locks
           \/ templateId r = chat locks
           \/ (isGroupChat context = true /\ templateId r = group locks))))
  /\ (templateId r = None <->
      truthy (character locks) = false
      /\ truthy (chat locks) = false
      /\ (isGroupChat context = true -> truthy (group locks) = false)).
Proof.
  unfold TemplateLockResolver.resolve,
    TemplateLockResolver._resolveGroupLocks,
    TemplateLockResolver._resolveSingleLocks.
  destruct (isGroupChat context);
    destruct (preferIndividualCharacterInGroup prefs),
      (preferGroupOverChat prefs), (preferCharacterOverChat prefs);
    destruct (truthy (character locks)) eqn:Hc;
    destruct (truthy (chat locks)) eqn:Hh;
    destruct (truthy (group locks)) eqn:Hg;
    simpl; rewrite ?Hc, ?Hh, ?Hg;
    (split;
     [ first [ left; reflexivity | right; split; [reflexivity|auto] ]
     | split;
       [ intros H;
         first [ rewrite H in *; simpl in *; discriminate
               | repeat split; auto ]
       | intros (H1 & H2 & H3);
         first [ reflexivity | discriminate H1 | discriminate H2
               | discriminate (H3 eq_refl) ] ] ]).
Qed.

(** ** Applying a template: refusals, persistence, prompt order *)

(** An id that names no stored template, or a host without prompt
    manager, makes [applyTemplate] return false and leave the host as it
    is: nothing is written, saved or rendered. *)
Theorem applyTemplate_refuses_without_template_or_manager (tid : string)
    (m : PromptTemplateManager.t) (w : World) :
  PromptTemplateManager.getTemplate m tid = None \/ promptManager w = None ->
  PromptTemplateManager.applyTemplate tid m w = (false, w).
Proof.
  intros [Hget | Hpm]; unfold PromptTemplateManager.applyTemplate.
  - now rewrite Hget.
  - rewrite Hpm. now destruct (PromptTemplateManager.getTemplate m tid).
Qed.

Lemma applyTemplate_refuses_witness :
  (PromptTemplateManager.getTemplate ApplyScenario.manager0 "tmpl_gone" = None
   \/ promptManager Scenario.world0 = None)
  /\ PromptTemplateManager.applyTemplate "tmpl_gone" ApplyScenario.manager0
       Scenario.world0 = (false, Scenario.world0).
Proof.
  split; [left; reflexivity|].
  exact (applyTemplate_refuses_without_template_or_manager "tmpl_gone"
           ApplyScenario.manager0 Scenario.world0 (or_introl eq_refl)).
Defined.

Lemma restore_order_effects (tmpl : PromptTemplate) (pm : PromptManager)
    (w : World) :
  effects (PromptTemplateManager.restore_order tmpl pm w) = effects w.
Proof.
  unfold PromptTemplateManager.restore_order.
  destruct (PromptTemplateManager.replace_order _ _ _);
    destruct (activeCharacter pm); reflexivity.
Qed.

(** X9.  [applyTemplate] saves before it renders and renders only after the
    save completed: the calls it adds to the log are none, the save
    alone, or the save followed by the render, and it returns true
    exactly in the last case. *)
Theorem applyTemplate_saves_then_renders (tid : string)
    (m : PromptTemplateManager.t) (w : World) :
  let r := PromptTemplateManager.applyTemplate tid m w in
  exists l,
    effects (snd r) = (effects w ++ l)%list
    /\ (l = [] \/ l = [SaveServiceSettings]
        \/ l = [SaveServiceSettings; Render])
    /\ (fst r = true <-> l = [SaveServiceSettings; Render]).
Proof.
  unfold PromptTemplateManager.applyTemplate,
    PromptTemplateManager.saveServiceSettings, PromptTemplateManager.render.
  destruct (PromptTemplateManager.getTemplate m tid) as [tmpl|].
  2:{ exists []. rewrite app_nil_r. simpl. intuition discriminate. }
  destruct (promptManager w) as [pm|].
  2:{ exists []. rewrite app_nil_r. simpl. intuition discriminate. }
  destruct (saveServiceSettings_throws pm).
  { exists []. rewrite app_nil_r. simpl. split; [|intuition discriminate].
    destruct (0 <? List.length (promptOrder tmpl))%nat;
      [now rewrite restore_order_effects|reflexivity]. }
  destruct (render_throws pm).
  { exists [SaveServiceSettings]. simpl. split; [|intuition discriminate].
    destruct (0 <? List.length (promptOrder tmpl))%nat;
      [now rewrite restore_order_effects|reflexivity]. }
  exists [SaveServiceSettings; Render]. simpl. split; [|intuition].
  rewrite <- app_assoc. simpl.
  destruct (0 <? List.length (promptOrder tmpl))%nat;
    [now rewrite restore_order_effects|reflexivity].
Qed.

Lemma replace_order_found (target : string) (ord : list OrderItem)
    (l l' : list OrderEntry) :
  PromptTemplateManager.replace_order target ord l = Some l' ->
  let is_target :=
    fun e => String.eqb (js_String (character_id e)) target in
  List.filter (fun e => negb (is_target e)) l'
  = List.filter (fun e => negb (is_target e)) l
  /\ List.length (List.filter is_target l')
     = List.length (List.filter is_target l)
  /\ (1 <= List.length (List.filter is_target l))%nat
  /\ List.length l' = List.length l
  /\ exists e, List.find is_target l' = Some e /\ order e = ord.
Proof.
  revert l'. induction l as [|entry l IH]; intros l' H; simpl in H.
  - discriminate.
  - destruct (String.eqb (js_String (character_id entry)) target) eqn:E.
    + inversion H; subst. simpl. rewrite E. simpl.
      repeat split; try lia. eexists; split; reflexivity.
    + destruct (PromptTemplateManager.replace_order target ord l) as [l0|];
        simpl in H; [|discriminate].
      inversion H; subst. simpl. rewrite E. simpl.
      destruct (IH l0 eq_refl) as (A & B & C & D & e & Fe & Oe).
      repeat split; try lia; try congruence.
      exists e. now split.
Qed.

Lemma replace_order_not_found (target : string) (ord : list OrderItem)
    (l : list OrderEntry) :
  PromptTemplateManager.replace_order target ord l = None ->
  List.filter (fun e => String.eqb (js_String (character_id e)) target) l
  = []
  /\ List.find (fun e => String.eqb (js_String (character_id e)) target) l
     = None.
Proof.
  induction l as [|entry l IH]; intros H; simpl in *; [now split|].
  destruct (String.eqb (js_String (character_id entry)) target);
    [discriminate|].
  destruct (PromptTemplateManager.replace_order target ord l);
    [discriminate|]. now apply IH.
Qed.

(** X10.  Applying a template that carries a prompt order replaces or inserts
    the order entry of its character id (100000 when the template names
    none), compared by string form: the entries of other ids stay as
    they are and in place, no second entry for the id is added (one entry
    is appended when there was none), and the first entry of the id then
    holds the template's order. *)
Theorem applyTemplate_replaces_or_inserts_order (tid : string)
    (m : PromptTemplateManager.t) (w : World) (tmpl : PromptTemplate)
    (pm : PromptManager) :
  PromptTemplateManager.getTemplate m tid = Some tmpl ->
  promptManager w = Some pm ->
  promptOrder tmpl <> [] ->
  let target :=
    js_String (default (IdNum 100000) (promptOrderCharacterId tmpl)) in
  let is_target :=
    fun e => String.eqb (js_String (character_id e)) target in
  let l0 := default [] (oai_prompt_order w) in
  exists l1,
    oai_prompt_order (snd (PromptTemplateManager.applyTemplate tid m w))
    = Some l1
    /\ List.filter (fun e => negb (is_target e)) l1
       = List.filter (fun e => negb (is_target e)) l0
    /\ List.length (List.filter is_target l1)
       = Nat.max 1 (List.length (List.filter is_target l0))
    /\ exists e, List.find is_target l1 = Some e
                 /\ order e = promptOrder tmpl.
Proof.
  intros Hget Hpm Hne target is_target l0.
  destruct (applyTemplate_state tid m w tmpl pm Hget Hpm) as [_ Hrest].
  assert (Hlen : (0 <? List.length (promptOrder tmpl))%nat = true).
  { destruct (promptOrder tmpl); [contradiction|reflexivity]. }
  rewrite Hlen in Hrest. destruct Hrest as [Ho _].
  fold target l0 in Ho. rewrite Ho.
  destruct (PromptTemplateManager.replace_order target (promptOrder tmpl) l0)
    as [l|] eqn:Hr.
  - exists l. split; [reflexivity|].
    destruct (replace_order_found _ _ _ _ Hr) as (A & B & C & _ & E).
    fold is_target in A, B, C, E.
    repeat split; [exact A| |exact E]. rewrite B. lia.
  - eexists. split; [reflexivity|].
    destruct (replace_order_not_found _ _ _ Hr) as [A B].
    fold is_target in A, B.
    rewrite !List.filter_app. simpl.
    assert (Ht : is_target
                   {| character_id :=
                        default (IdNum 100000) (promptOrderCharacterId tmpl);
                      order := promptOrder tmpl |} = true)
      by apply String.eqb_refl.
    rewrite Ht. simpl. rewrite A, app_nil_r. simpl.
    repeat split.
    exists {| character_id :=
                default (IdNum 100000) (promptOrderCharacterId tmpl);
              order := promptOrder tmpl |}.
    split; [|reflexivity].
    clear - B Ht. induction l0 as [|e l IH]; simpl in *.
    + now rewrite Ht.
    + destruct (is_target e); [discriminate|]. now apply IH.
Qed.

Lemma applyTemplate_replaces_or_inserts_order_witness :
  PromptTemplateManager.getTemplate ApplyScenario.manager0 "tmpl_full"
  = Some ApplyScenario.fullTemplate
  /\ promptOrder ApplyScenario.fullTemplate <> []
  /\ exists l1,
      oai_prompt_order
        (snd (PromptTemplateManager.applyTemplate "tmpl_full"
                ApplyScenario.manager0 Scenario.world0)) = Some l1
      /\ List.length
           (List.filter
              (fun e => String.eqb (js_String (character_id e)) "100001") l1)
         = 1%nat.
Proof.
  assert (Hne : promptOrder ApplyScenario.fullTemplate <> [])
    by discriminate.
  split; [reflexivity|]. split; [exact Hne|].
  destruct (applyTemplate_replaces_or_inserts_order "tmpl_full"
              ApplyScenario.manager0 Scenario.world0
              ApplyScenario.fullTemplate _ eq_refl eq_refl Hne)
    as (l1 & H1 & _ & H3 & _).
  exists l1. split; [exact H1|exact H3].
Defined.

(** X11.  [applyTemplate] is not atomic: when the template exists and the
    prompt manager is there but saving or rendering throws, the call
    returns false although the live prompts have already been replaced
    by the template's. *)
Theorem applyTemplate_failure_keeps_replaced_prompts (tid : string)
    (m : PromptTemplateManager.t) (w : World) (tmpl : PromptTemplate)
    (pm : PromptManager) :
  PromptTemplateManager.getTemplate m tid = Some tmpl ->
  promptManager w = Some pm ->
  saveServiceSettings_throws pm <> None \/ render_throws pm <> None ->
  let r := PromptTemplateManager.applyTemplate tid m w in
  fst r = false
  /\ oai_prompts (snd r) = Some (Object_values (prompts tmpl)).
Proof.
  intros Hget Hpm Hthrow.
  split; [|exact (proj1 (applyTemplate_state tid m w tmpl pm Hget Hpm))].
  unfold PromptTemplateManager.applyTemplate,
    PromptTemplateManager.saveServiceSettings, PromptTemplateManager.render.
  rewrite Hget, Hpm.
  destruct (saveServiceSettings_throws pm); [reflexivity|].
  destruct (render_throws pm); [reflexivity|].
  destruct Hthrow as [H|H]; now elim H.
Qed.

Lemma applyTemplate_failure_witness :
  PromptTemplateManager.getTemplate ApplyScenario.manager0 "tmpl_full"
  = Some ApplyScenario.fullTemplate
  /\ promptManager FailureScenario.worldSaveFails
     = Some FailureScenario.saveFails
  /\ fst (PromptTemplateManager.applyTemplate "tmpl_full"
            ApplyScenario.manager0 FailureScenario.worldSaveFails) = false
  /\ oai_prompts (snd (PromptTemplateManager.applyTemplate "tmpl_full"
                         ApplyScenario.manager0
                         FailureScenario.worldSaveFails))
     = Some [ApplyScenario.mainPrompt; ApplyScenario.jailbreakPrompt].
Proof.
  split; [reflexivity|]. split; [reflexivity|].
  apply (applyTemplate_failure_keeps_replaced_prompts "tmpl_full"
           ApplyScenario.manager0 FailureScenario.worldSaveFails
           ApplyScenario.fullTemplate FailureScenario.saveFails);
    [reflexivity|reflexivity|left; discriminate].
Defined.

(** ** The lock manager's mirror of the locks *)

(** X12.  [setLock] and [clearLock] change [currentLocks] only when the storage
    write reports success, and then only the slot of the target: it holds
    the new template id after [setLock] and null after [clearLock].  A
    failed write, an unknown target or an exception leave the mirror as
    it was. *)
Theorem setLock_clearLock_mirror (now : Z) (target tid : string)
    (lm : TemplateLockManager.t) (w : World) :
  let old := TemplateLockManager.currentLocks lm in
  let after (v : option string) (r : Result bool * TemplateLockManager.t
                                     * World) : Prop :=
    let new := TemplateLockManager.currentLocks (snd (fst r)) in
    match fst (fst r) with
    | Ok true =>
      target_slot target new = Some v
      /\ (target = "character" \/ character new = character old)
      /\ (target = "chat" \/ chat new = chat old)
      /\ (target = "group" \/ group new = group old)
    | _ => new = old
    end in
  after (Some tid) (TemplateLockManager.setLock now target tid lm w)
  /\ after None (TemplateLockManager.clearLock now target lm w).
Proof.
  unfold TemplateLockManager.setLock, TemplateLockManager.clearLock,
    TemplateLockManager.finish, target_slot.
  destruct (ChatContext.getCurrent now w (TemplateLockManager.chatContext lm))
    as [[context|e] cc]; [|split; reflexivity].
  destruct (String.eqb_spec target "character") as [->|Hc].
  { split;
      (destruct (characterName context) as [name|]; [|reflexivity];
       destruct (truthy (Some name)); [|reflexivity];
       match goal with
       | |- context [let '(_, _) := ?x in _] => destruct x as [[|] w']
       end; simpl; auto). }
  destruct (String.eqb_spec target "chat") as [->|Hh].
  { split;
      match goal with
      | |- context [let '(_, _) := ?x in _] => destruct x as [[|] w']
      end; simpl; auto. }
  destruct (String.eqb_spec target "group") as [->|Hg]; [|split; reflexivity].
  split;
    (destruct (isGroupChat context && truthy (groupId context));
     [|reflexivity];
     match goal with
     | |- context [let '(_, _) := ?x in _] => destruct x as [[|] w']
     end; simpl; auto).
Qed.

(** ** Locks written and read through the lock manager *)

Lemma buildSingleContext_inputs (w w' : World) :
  snapshot_inputs w' = snapshot_inputs w ->
  ChatContext._buildSingleContext w' = ChatContext._buildSingleContext w.
Proof.
  unfold snapshot_inputs. intros H. inversion H as [[H1 H2 H3 H4 H5 H6 H7 H8 H9]].
  unfold ChatContext._buildSingleContext,
    ChatContext._getCharacterNameForSettings,
    ChatContext._getCharacterNameFromChatMetadata,
    ChatContext._getCurrentChatId.
  now rewrite H3, H4, H5, H6, H7, H8.
Qed.

Lemma single_chat_in_step_inputs (cc : ChatContext.t) (w w' : World) :
  snapshot_inputs w' = snapshot_inputs w ->
  single_chat_in_step cc w -> single_chat_in_step cc w'.
Proof.
  intros H (Hs & Hf & Hc). pose proof (buildSingleContext_inputs w w' H) as Hb.
  unfold snapshot_inputs in H. inversion H as [[H1 H2 H3 H4 H5 H6 H7 H8 H9]].
  repeat split; try congruence.
  intros c Hcc. rewrite Hb. now apply Hc.
Qed.

(** In step, [getCurrent] returns the snapshot of the host and stays in
    step. *)
Lemma getCurrent_in_step (now : Z) (w : World) (cc : ChatContext.t) :
  single_chat_in_step cc w ->
  exists cc',
    ChatContext.getCurrent now w cc
    = (Ok (ChatContext._buildSingleContext w), cc')
    /\ single_chat_in_step cc' w.
Proof.
  intros (Hs & Hf & Hc).
  destruct (getCurrent_single now w cc Hs Hf Hc) as [cc' Hcur].
  exists cc'. split; [exact Hcur|]. repeat split; try assumption.
  intros c Hcc. pose proof (getCurrent_Ok_cached _ _ _ _ _ Hcur) as Hk.
  congruence.
Qed.



Lemma getCharacterTemplateLock_inputs (k : option JsId) (w : World) :
  snapshot_inputs
    (snd (TemplateStorageAdapter.getCharacterTemplateLock k w))
  = snapshot_inputs w
  /\ characters (snd (TemplateStorageAdapter.getCharacterTemplateLock k w))
     = characters w.
Proof.
  unfold TemplateStorageAdapter.getCharacterTemplateLock,
    TemplateStorageAdapter.getExtensionSettings.
  destruct k; [|now split]. destruct (ext_ccpm w); now split.
Qed.










Lemma setChatTemplateLock_inputs (tid : string) (w : World) :
  snapshot_inputs (snd (TemplateStorageAdapter.setChatTemplateLock tid w))
  = snapshot_inputs w.
Proof.
  unfold TemplateStorageAdapter.setChatTemplateLock,
    TemplateStorageAdapter._triggerMetadataSave.
  destruct (chat_metadata w) as [md|] eqn:Hmd; [|reflexivity]. simpl.
  destruct (saveMetadataDebounced_throws w); unfold snapshot_inputs; simpl;
    now rewrite Hmd.
Qed.

Lemma getCharacterTemplateLock_chat (k : option JsId) (w : World) :
  TemplateStorageAdapter.getChatTemplateLock
    (snd (TemplateStorageAdapter.getCharacterTemplateLock k w))
  = TemplateStorageAdapter.getChatTemplateLock w.
Proof.
  unfold TemplateStorageAdapter.getCharacterTemplateLock,
    TemplateStorageAdapter.getExtensionSettings.
  destruct k; [|reflexivity]. now destruct (ext_ccpm w).
Qed.

(** What the chat slot holds after [loadCurrentLocks] in a single chat. *)
Lemma loadCurrentLocks_single_chat (now : Z) (lm : TemplateLockManager.t)
    (w : World) :
  single_chat_in_step (TemplateLockManager.chatContext lm) w ->
  exists locks lm' w',
    TemplateLockManager.loadCurrentLocks now lm w = (Ok locks, lm', w')
    /\ chat locks
       = if truthy (context_chatId w)
         then TemplateStorageAdapter.getChatTemplateLock w else None.
Proof.
  intros Hstep.
  destruct (getCurrent_in_step now w _ Hstep) as (cc & Hcur & _).
  unfold TemplateLockManager.loadCurrentLocks. rewrite Hcur. simpl.
  unfold TemplateLockManager._loadSingleLocks. simpl.
  unfold ChatContext._getCurrentChatId. rewrite truthy_or_null.
  destruct (ChatContext._getCharacterNameForSettings w) as [name|].
  - destruct (truthy (Some name)).
    + pose proof (getCharacterTemplateLock_chat
                    (TemplateLockManager.characterKey w name) w) as Hg.
      destruct (TemplateStorageAdapter.getCharacterTemplateLock
                  (TemplateLockManager.characterKey w name) w) as [l w'].
      simpl in Hg.
      destruct (truthy (context_chatId w)); eexists _, _, _;
        (split; [reflexivity|]); simpl; auto.
    + destruct (truthy (context_chatId w)); eexists _, _, _;
        (split; [reflexivity|]); reflexivity.
  - destruct (truthy (context_chatId w)); eexists _, _, _;
      (split; [reflexivity|]); reflexivity.
Qed.

(** X14.  In a single chat [setLock('chat', id)] succeeds whenever chat
    metadata exists and stores the lock there, with or without a chat id;
    [loadCurrentLocks] reads the chat lock only when the snapshot has a
    chat id.  Without one, the lock just written is in storage and in the
    mirror, and the next [loadCurrentLocks] reports null for the chat. *)
Theorem setLock_chat_read_back_needs_chat_id (t1 t2 : Z) (tid : string)
    (md : ChatMetadata) (lm : TemplateLockManager.t) (w : World) :
  single_chat_in_step (TemplateLockManager.chatContext lm) w ->
  chat_metadata w = Some md ->
  tid <> "" ->
  exists lm1 w1 locks lm2 w2,
    TemplateLockManager.setLock t1 "chat" tid lm w = (Ok true, lm1, w1)
    /\ chat (TemplateLockManager.currentLocks lm1) = Some tid
    /\ TemplateStorageAdapter.getChatTemplateLock w1 = Some tid
    /\ TemplateLockManager.loadCurrentLocks t2 lm1 w1 = (Ok locks, lm2, w2)
    /\ chat locks = if truthy (context_chatId w) then Some tid else None.
Proof.
  intros Hstep Hmd Htid.
  destruct (getCurrent_in_step t1 w _ Hstep) as (cc & Hcur & Hstep1).
  pose proof (setChatTemplateLock_inputs tid w) as Hin.
  assert (Hset : exists w1,
             TemplateStorageAdapter.setChatTemplateLock tid w = (true, w1)
             /\ TemplateStorageAdapter.getChatTemplateLock w1 = Some tid).
  { unfold TemplateStorageAdapter.setChatTemplateLock,
      TemplateStorageAdapter._triggerMetadataSave,
      TemplateStorageAdapter.getChatTemplateLock.
    rewrite Hmd. eexists. split; [reflexivity|].
    destruct (saveMetadataDebounced_throws w) eqn:Hs; simpl;
      rewrite ?Hs; simpl; now apply or_null_template_id. }
  destruct Hset as (w1 & Hset & Hread). rewrite Hset in Hin. simpl in Hin.
  set (lm1 := {| TemplateLockManager.chatContext := cc;
                 TemplateLockManager.currentLocks :=
                   TemplateLockManager.set_chat (Some tid)
                     (TemplateLockManager.currentLocks lm) |}).
  assert (Hstep1' : single_chat_in_step
                      (TemplateLockManager.chatContext lm1) w1)
    by (apply (single_chat_in_step_inputs cc w w1 Hin Hstep1)).
  destruct (loadCurrentLocks_single_chat t2 lm1 w1 Hstep1')
    as (locks & lm2 & w2 & Hload & Hchat).
  assert (Hid : context_chatId w1 = context_chatId w).
  { unfold snapshot_inputs in Hin. now inversion Hin. }
  rewrite Hid, Hread in Hchat.
  exists lm1, w1, locks, lm2, w2. repeat split; try assumption.
  unfold TemplateLockManager.setLock. rewrite Hcur. simpl.
  now rewrite Hset.
Qed.

Lemma setLock_chat_read_back_witness :
  single_chat_in_step
    (TemplateLockManager.chatContext TemplateLockManager.new)
    (set_chat_context_id_none Scenario.world0)
  /\ exists lm1 w1 locks lm2 w2,
      TemplateLockManager.setLock 5000 "chat" "T2" TemplateLockManager.new
        (set_chat_context_id_none Scenario.world0) = (Ok true, lm1, w1)
      /\ TemplateStorageAdapter.getChatTemplateLock w1 = Some "T2"
      /\ TemplateLockManager.loadCurrentLocks 5001 lm1 w1
         = (Ok locks, lm2, w2)
      /\ chat locks = None.
Proof.
  assert (Hstep : single_chat_in_step
                    (TemplateLockManager.chatContext TemplateLockManager.new)
                    (set_chat_context_id_none Scenario.world0)).
  { repeat split. intros c Hc. discriminate Hc. }
  assert (Ht : "T2" <> "") by discriminate.
  split; [exact Hstep|].
  destruct (setLock_chat_read_back_needs_chat_id 5000 5001 "T2"
              {| character_name := None; md_ccpm := None |}
              TemplateLockManager.new
              (set_chat_context_id_none Scenario.world0) Hstep eq_refl Ht)
    as (lm1 & w1 & locks & lm2 & w2 & H1 & _ & H3 & H4 & H5).
  exists lm1, w1, locks, lm2, w2. repeat split; assumption.
Defined.

(** ** What the change handlers apply *)

Lemma getEffectiveLock_templates (t1 t2 : Z) (m : PromptTemplateManager.t)
    (w : World) :
  PromptTemplateManager.templates
    (snd (fst (PromptTemplateManager.getEffectiveLock t1 t2 m w)))
  = PromptTemplateManager.templates m.
Proof.
  unfold PromptTemplateManager.getEffectiveLock.
  destruct (TemplateLockManager.loadCurrentLocks t1
              (PromptTemplateManager.lockManager m) w) as [[[locks|e] lm] w1];
    [|reflexivity].
  now destruct (TemplateLockManager.getLockToApply t2 lm w1) as [[r lm2] w2].
Qed.

Lemma invalidate_and_load_templates (t1 : Z) (m : PromptTemplateManager.t)
    (w : World) :
  PromptTemplateManager.templates
    (snd (fst (PromptTemplateManager.invalidate_and_load t1 m w)))
  = PromptTemplateManager.templates m.
Proof.
  unfold PromptTemplateManager.invalidate_and_load.
  match goal with
  | |- context [TemplateLockManager.loadCurrentLocks ?a ?b ?c] =>
    now destruct (TemplateLockManager.loadCurrentLocks a b c) as [[r lm] w1]
  end.
Qed.

Ltac handler_applies_nothing :=
  left; simpl; split; [reflexivity|eauto using prompt_frame_refl].

(** X15.  A change handler applies at most one template, and only the one the
    effective lock names: either it calls [applyTemplate] not at all and
    leaves the live prompts and the prompt order as they were, or it
    calls it once, with the non-empty id the lock resolution returned,
    which names a stored template, in mode 'always' or in mode 'ask'
    after the user confirmed.  A lock on a template that has been
    deleted is therefore never applied. *)
Theorem handler_applies_only_the_effective_lock
    (ev : PromptTemplateManager.ChangeEvent) (t1 t2 t3 t4 : Z)
    (affirmative : bool) (m : PromptTemplateManager.t) (w : World) :
  let out :=
    PromptTemplateManager.handleEvent ev t1 t2 t3 t4 affirmative m w in
  let mode := PromptTemplateManager.current_autoApplyMode w in
  (PromptTemplateManager.applied out = []
   /\ prompt_frame w (PromptTemplateManager.out_world out))
  \/ exists tid tmpl,
       PromptTemplateManager.applied out = [tid]
       /\ tid <> ""
       /\ PromptTemplateManager.getTemplate m tid = Some tmpl
       /\ effective_lock_resolves_to ev t1 t2 t3 m w tid
       /\ (mode = AUTO_APPLY_MODES.ALWAYS
           \/ (mode = AUTO_APPLY_MODES.ASK /\ affirmative = true)).
Proof.
  destruct ev; cbv zeta; unfold PromptTemplateManager.handleEvent.
  - unfold PromptTemplateManager.handleChatChange.
    pose proof (invalidate_and_load_frame t1 m w) as Hf1.
    pose proof (invalidate_and_load_templates t1 m w) as Ht1.
    destruct (PromptTemplateManager.invalidate_and_load t1 m w)
      as [[r m1] w1] eqn:Hload.
    simpl in Hf1, Ht1. destruct r as [locks|e]; [|handler_applies_nothing].
    rewrite (autoApplyMode_frame w w1 Hf1).
    destruct (String.eqb (PromptTemplateManager.current_autoApplyMode w)
                AUTO_APPLY_MODES.NEVER) eqn:Hnever;
      [handler_applies_nothing|].
    pose proof (getEffectiveLock_frame t2 t3 m1 w1) as Hf2.
    pose proof (getEffectiveLock_templates t2 t3 m1 w1) as Ht2.
    destruct (PromptTemplateManager.getEffectiveLock t2 t3 m1 w1)
      as [[r m2] w2] eqn:Heff.
    simpl in Hf2, Ht2.
    pose proof (prompt_frame_trans w w1 w2 Hf1 Hf2) as Hf.
    destruct r as [effectiveLock|e]; [|handler_applies_nothing].
    destruct (templateId effectiveLock) as [tid|] eqn:Htid;
      [|handler_applies_nothing].
    destruct (truthy (Some tid)) eqn:Htruthy; [|handler_applies_nothing].
    simpl.
    destruct (PromptTemplateManager.getTemplate m2 tid) as [tmpl|] eqn:Hget;
      [|handler_applies_nothing].
    assert (Hgetm : PromptTemplateManager.getTemplate m tid = Some tmpl).
    { unfold PromptTemplateManager.getTemplate in *. congruence. }
    assert (Hne : tid <> "").
    { intros ->. discriminate Htruthy. }
    assert (Hres : effective_lock_resolves_to
                     PromptTemplateManager.CHAT_CHANGED t1 t2 t3 m w tid).
    { simpl. exists locks, m1, w1, effectiveLock, m2, w2. auto. }
    destruct (String.eqb_spec (PromptTemplateManager.current_autoApplyMode w)
                AUTO_APPLY_MODES.ASK) as [Hask|Hask].
    + destruct (ChatContext.getCurrent t4 w2 _) as [[context|e] cc];
        [|handler_applies_nothing].
      destruct affirmative; [|handler_applies_nothing].
      right. exists tid, tmpl. simpl. repeat split; auto.
    + destruct (String.eqb_spec
                  (PromptTemplateManager.current_autoApplyMode w)
                  AUTO_APPLY_MODES.ALWAYS) as [Halways|Halways];
        [|handler_applies_nothing].
      right. exists tid, tmpl. simpl. repeat split; auto.
  - unfold PromptTemplateManager.handlePresetChange.
    destruct (String.eqb (PromptTemplateManager.current_autoApplyMode w)
                AUTO_APPLY_MODES.NEVER) eqn:Hnever;
      [handler_applies_nothing|].
    pose proof (getEffectiveLock_frame t1 t2 m w) as Hf.
    pose proof (getEffectiveLock_templates t1 t2 m w) as Ht2.
    destruct (PromptTemplateManager.getEffectiveLock t1 t2 m w)
      as [[r m2] w2] eqn:Heff.
    simpl in Hf, Ht2.
    destruct r as [effectiveLock|e]; [|handler_applies_nothing].
    destruct (templateId effectiveLock) as [tid|] eqn:Htid;
      [|handler_applies_nothing].
    destruct (truthy (Some tid)) eqn:Htruthy; [|handler_applies_nothing].
    simpl.
    assert (Hne : tid <> "").
    { intros ->. discriminate Htruthy. }
    assert (Hres : effective_lock_resolves_to
                     PromptTemplateManager.PRESET_CHANGED t1 t2 t3 m w tid).
    { simpl. exists effectiveLock, m2, w2. auto. }
    destruct (String.eqb_spec (PromptTemplateManager.current_autoApplyMode w)
                AUTO_APPLY_MODES.ASK) as [Hask|Hask].
    + destruct (ChatContext.getCurrent t3 w2 _) as [[context|e] cc];
        [|handler_applies_nothing].
      match goal with
      | |- context [PromptTemplateManager.getTemplate ?mm tid] =>
        destruct (PromptTemplateManager.getTemplate mm tid) as [tmpl|]
          eqn:Hget; [|handler_applies_nothing]
      end.
      assert (Hgetm : PromptTemplateManager.getTemplate m tid = Some tmpl).
      { unfold PromptTemplateManager.getTemplate in *. simpl in Hget.
        congruence. }
      destruct affirmative; [|handler_applies_nothing].
      right. exists tid, tmpl. simpl. repeat split; auto.
    + destruct (String.eqb_spec
                  (PromptTemplateManager.current_autoApplyMode w)
                  AUTO_APPLY_MODES.ALWAYS) as [Halways|Halways];
        [|handler_applies_nothing].
      destruct (PromptTemplateManager.getTemplate m2 tid) as [tmpl|] eqn:Hget;
        [|handler_applies_nothing].
      assert (Hgetm : PromptTemplateManager.getTemplate m tid = Some tmpl).
      { unfold PromptTemplateManager.getTemplate in *. congruence. }
      right. exists tid, tmpl. simpl. repeat split; auto.
Qed.

(** ** Reading locks does not write *)

Lemma at_most_settings_created_trans (w1 w2 w3 : World) :
  at_most_settings_created w1 w2 -> at_most_settings_created w2 w3 ->
  at_most_settings_created w1 w3.
Proof.
  intros [-> | [H1 ->]] [-> | [H2 ->]]; unfold at_most_settings_created;
    auto; discriminate H2.
Qed.

Lemma getExtensionSettings_world (w : World) :
  at_most_settings_created w
    (snd (TemplateStorageAdapter.getExtensionSettings w)).
Proof.
  unfold TemplateStorageAdapter.getExtensionSettings, at_most_settings_created.
  destruct (ext_ccpm w) eqn:H; simpl; auto.
Qed.

Lemma getCharacterTemplateLock_world (k : option JsId) (w : World) :
  at_most_settings_created w
    (snd (TemplateStorageAdapter.getCharacterTemplateLock k w)).
Proof.
  unfold TemplateStorageAdapter.getCharacterTemplateLock.
  destruct k; [|now left].
  pose proof (getExtensionSettings_world w) as H.
  now destruct (TemplateStorageAdapter.getExtensionSettings w).
Qed.

Lemma loadCurrentLocks_world (now : Z) (lm : TemplateLockManager.t)
    (w : World) :
  at_most_settings_created w
    (snd (TemplateLockManager.loadCurrentLocks now lm w)).
Proof.
  unfold TemplateLockManager.loadCurrentLocks.
  destruct (ChatContext.getCurrent now w (TemplateLockManager.chatContext lm))
    as [[context|e] cc]; [|now left].
  unfold TemplateLockManager._loadGroupLocks,
    TemplateLockManager._loadSingleLocks.
  destruct (isGroupChat context);
    destruct (characterName context) as [name|] eqn:Hn; simpl;
    try destruct (negb (String.eqb name "")); simpl;
    try (pose proof (getCharacterTemplateLock_world
                       (TemplateLockManager.characterKey w name) w) as H;
         destruct (TemplateStorageAdapter.getCharacterTemplateLock
                     (TemplateLockManager.characterKey w name) w));
    simpl in *;
    try destruct (truthy (chatId context)); simpl;
    solve [assumption | now left].
Qed.

Lemma getLockToApply_world (now : Z) (lm : TemplateLockManager.t)
    (w : World) :
  at_most_settings_created w
    (snd (TemplateLockManager.getLockToApply now lm w)).
Proof.
  unfold TemplateLockManager.getLockToApply.
  destruct (ChatContext.getCurrent now w (TemplateLockManager.chatContext lm))
    as [[context|e] cc]; [|now left].
  pose proof (getExtensionSettings_world w) as H.
  now destruct (TemplateStorageAdapter.getExtensionSettings w).
Qed.

Lemma getEffectiveLock_world (t1 t2 : Z) (m : PromptTemplateManager.t)
    (w : World) :
  at_most_settings_created w
    (snd (PromptTemplateManager.getEffectiveLock t1 t2 m w)).
Proof.
  unfold PromptTemplateManager.getEffectiveLock.
  pose proof (loadCurrentLocks_world t1
                (PromptTemplateManager.lockManager m) w) as H1.
  destruct (TemplateLockManager.loadCurrentLocks t1
              (PromptTemplateManager.lockManager m) w) as [[r lm] w1].
  simpl in H1. destruct r as [locks|e]; [|exact H1].
  pose proof (getLockToApply_world t2 lm w1) as H2.
  destruct (TemplateLockManager.getLockToApply t2 lm w1) as [[r2 lm2] w2].
  simpl in *. now apply (at_most_settings_created_trans w w1 w2).
Qed.

Lemma invalidate_and_load_world (t1 : Z) (m : PromptTemplateManager.t)
    (w : World) :
  at_most_settings_created w
    (snd (PromptTemplateManager.invalidate_and_load t1 m w)).
Proof.
  unfold PromptTemplateManager.invalidate_and_load.
  match goal with
  | |- context [TemplateLockManager.loadCurrentLocks ?a ?b ?c] =>
    pose proof (loadCurrentLocks_world a b c) as H;
    destruct (TemplateLockManager.loadCurrentLocks a b c) as [[r lm] w1]
  end.
  exact H.
Qed.

(** X16.  Loading and resolving the locks is read-only: [getCurrentLocks] and
    [getEffectiveLock] leave the host as it is, save that the settings
    object of the extension is created, empty, when the host has none.
    No lock is written, nothing is flushed, and the live prompts are not
    touched. *)
Theorem reading_locks_only_creates_settings (t1 t2 : Z)
    (m : PromptTemplateManager.t) (w : World) :
  at_most_settings_created w
    (snd (PromptTemplateManager.getEffectiveLock t1 t2 m w))
  /\ at_most_settings_created w
       (snd (LockingMethods.getCurrentLocks t1 m w)).
Proof.
  split; [apply getEffectiveLock_world|].
  unfold LockingMethods.getCurrentLocks.
  pose proof (loadCurrentLocks_world t1
                (PromptTemplateManager.lockManager m) w) as H.
  now destruct (TemplateLockManager.loadCurrentLocks t1
                  (PromptTemplateManager.lockManager m) w)
    as [[[locks|e] lm] w1].
Qed.

Lemma at_most_settings_created_host (w w' : World) :
  at_most_settings_created w w' ->
  promptManager w' = promptManager w
  /\ PromptTemplateManager.current_autoApplyMode w'
     = PromptTemplateManager.current_autoApplyMode w
  /\ resolver_flags w' = resolver_flags w.
Proof.
  intros [-> | [H ->]]; [now repeat split|].
  repeat split. unfold resolver_flags. now rewrite H.
Qed.

(** X17.  In mode 'always', when the lock resolution of the event returns the
    id of a stored template and the prompt manager is there, the handler
    calls [applyTemplate] once with that id and the live prompts become
    the template's prompts. *)
Theorem always_mode_applies_the_effective_lock
    (ev : PromptTemplateManager.ChangeEvent) (t1 t2 t3 t4 : Z)
    (affirmative : bool) (m : PromptTemplateManager.t) (w : World)
    (tid : string) (tmpl : PromptTemplate) (pm : PromptManager) :
  PromptTemplateManager.current_autoApplyMode w = AUTO_APPLY_MODES.ALWAYS ->
  effective_lock_resolves_to ev t1 t2 t3 m w tid ->
  tid <> "" ->
  PromptTemplateManager.getTemplate m tid = Some tmpl ->
  promptManager w = Some pm ->
  let out :=
    PromptTemplateManager.handleEvent ev t1 t2 t3 t4 affirmative m w in
  PromptTemplateManager.applied out = [tid]
  /\ oai_prompts (PromptTemplateManager.out_world out)
     = Some (Object_values (prompts tmpl)).
Proof.
  intros Hmode Hres Hne Hget Hpm.
  assert (Htruthy : truthy (Some tid) = true).
  { simpl. destruct (String.eqb_spec tid ""); [contradiction|reflexivity]. }
  destruct ev; cbv zeta; unfold PromptTemplateManager.handleEvent.
  - destruct Hres as (locks & m1 & w1 & r & m2 & w2 & Hload & Heff & Htid).
    unfold PromptTemplateManager.handleChatChange.
    pose proof (invalidate_and_load_world t1 m w) as Hw1.
    pose proof (invalidate_and_load_templates t1 m w) as Ht1.
    pose proof (getEffectiveLock_world t2 t3 m1 w1) as Hw2.
    pose proof (getEffectiveLock_templates t2 t3 m1 w1) as Ht2.
    rewrite Hload in *. rewrite Heff in *. simpl in Hw1, Ht1, Hw2, Ht2.
    destruct (at_most_settings_created_host w w1 Hw1) as (Hp1 & Hm1 & _).
    destruct (at_most_settings_created_host w1 w2 Hw2) as (Hp2 & _ & _).
    rewrite Hm1, Hmode, Htid. simpl. simpl in Htruthy. rewrite Htruthy.
    simpl.
    assert (Hget2 : PromptTemplateManager.getTemplate m2 tid = Some tmpl).
    { unfold PromptTemplateManager.getTemplate in *. congruence. }
    rewrite Hget2. simpl. split; [reflexivity|].
    apply (applyTemplate_state tid m2 w2 tmpl pm Hget2). congruence.
  - destruct Hres as (r & m2 & w2 & Heff & Htid).
    unfold PromptTemplateManager.handlePresetChange.
    pose proof (getEffectiveLock_world t1 t2 m w) as Hw2.
    pose proof (getEffectiveLock_templates t1 t2 m w) as Ht2.
    rewrite Heff in *. simpl in Hw2, Ht2.
    destruct (at_most_settings_created_host w w2 Hw2) as (Hp2 & _ & _).
    rewrite Hmode, Htid. simpl. simpl in Htruthy. rewrite Htruthy. simpl.
    assert (Hget2 : PromptTemplateManager.getTemplate m2 tid = Some tmpl).
    { unfold PromptTemplateManager.getTemplate in *. congruence. }
    rewrite Hget2. simpl. split; [reflexivity|].
    apply (applyTemplate_state tid m2 w2 tmpl pm Hget2). congruence.
Qed.

Lemma always_mode_applies_the_effective_lock_witness :
  PromptTemplateManager.current_autoApplyMode
    (ApplyScenario.worldLockedMode "always") = AUTO_APPLY_MODES.ALWAYS
  /\ PromptTemplateManager.getTemplate ApplyScenario.manager0 "tmpl_full"
     = Some ApplyScenario.fullTemplate
  /\ PromptTemplateManager.applied
       (PromptTemplateManager.handleEvent
          PromptTemplateManager.PRESET_CHANGED 5000 5001 5002 5003 false
          ApplyScenario.manager0 (ApplyScenario.worldLockedMode "always"))
     = ["tmpl_full"].
Proof.
  split; [reflexivity|]. split; [reflexivity|].
  assert (Hne : "tmpl_full" <> "") by discriminate.
  refine (proj1 (always_mode_applies_the_effective_lock
                   PromptTemplateManager.PRESET_CHANGED 5000 5001 5002 5003
                   false ApplyScenario.manager0
                   (ApplyScenario.worldLockedMode "always") "tmpl_full"
                   ApplyScenario.fullTemplate _ eq_refl _ Hne eq_refl
                   eq_refl)).
  simpl. do 3 eexists. split; [vm_compute; reflexivity|reflexivity].
Defined.

(** ** The preference flags the resolver reads *)

Section ResolverFlags.

Import TemplateStorageAdapter.

Variable w : World.

Lemma setCharacterTemplateLock_flags (k : option JsId) (tid : string) :
  resolver_flags (snd (setCharacterTemplateLock k tid w)) = resolver_flags w.
Proof.
  unfold setCharacterTemplateLock, getExtensionSettings, resolver_flags.
  destruct k; [|reflexivity]. now destruct (ext_ccpm w).
Qed.

Lemma deleteCharacterTemplateLock_flags (k : option JsId) :
  resolver_flags (snd (deleteCharacterTemplateLock k w)) = resolver_flags w.
Proof.
  unfold deleteCharacterTemplateLock, getExtensionSettings, resolver_flags.
  destruct k; [|reflexivity].
  destruct (ext_ccpm w) eqn:H; simpl;
    try match goal with |- context [truthy ?v] => destruct (truthy v) end;
    simpl; now rewrite ?H.
Qed.

Lemma setGroupTemplateLock_flags (gid : option string) (tid : string) :
  resolver_flags (snd (setGroupTemplateLock gid tid w)) = resolver_flags w.
Proof.
  unfold setGroupTemplateLock, editGroup.
  destruct gid as [g|]; [|reflexivity].
  destruct (truthy (Some g)); [|reflexivity].
  destruct (ChatContext.find_group g (groups w)); [|reflexivity]. simpl.
  now destruct (editGroup_throws w).
Qed.

Lemma deleteGroupTemplateLock_flags (gid : option string) :
  resolver_flags (snd (deleteGroupTemplateLock gid w)) = resolver_flags w.
Proof.
  unfold deleteGroupTemplateLock, editGroup.
  destruct gid as [g|]; [|reflexivity].
  destruct (truthy (Some g)); [|reflexivity].
  match goal with |- context [truthy ?v] => destruct (truthy v) end;
    [|reflexivity].
  simpl. now destruct (editGroup_throws w).
Qed.

Lemma setChatTemplateLock_flags (tid : string) :
  resolver_flags (snd (setChatTemplateLock tid w)) = resolver_flags w.
Proof.
  unfold setChatTemplateLock, _triggerMetadataSave.
  destruct (chat_metadata w); [|reflexivity]. simpl.
  now destruct (saveMetadataDebounced_throws w).
Qed.

Lemma deleteChatTemplateLock_flags :
  resolver_flags (snd (deleteChatTemplateLock w)) = resolver_flags w.
Proof.
  unfold deleteChatTemplateLock, _triggerMetadataSave.
  destruct (chat_metadata w); [|reflexivity].
  match goal with |- context [truthy ?v] => destruct (truthy v) end;
    [|reflexivity].
  simpl. now destruct (saveMetadataDebounced_throws w).
Qed.

Lemma setGroupChatTemplateLock_flags (gid : option string) (tid : string) :
  resolver_flags (snd (setGroupChatTemplateLock gid tid w))
  = resolver_flags w.
Proof.
  unfold setGroupChatTemplateLock.
  destruct (truthy gid); [|reflexivity]. now destruct (chat_metadata w).
Qed.

Lemma deleteGroupChatTemplateLock_flags (gid : option string) :
  resolver_flags (snd (deleteGroupChatTemplateLock gid w)) = resolver_flags w.
Proof.
  unfold deleteGroupChatTemplateLock.
  destruct (truthy gid); [|reflexivity].
  destruct (chat_metadata w); [|reflexivity].
  now match goal with |- context [truthy ?v] => destruct (truthy v) end.
Qed.

End ResolverFlags.

(** X18.  No operation of the lock manager changes the preference flags the
    resolver reads: after [setLock], [clearLock], [loadCurrentLocks] and
    [getLockToApply] they are what they were, and on a host without
    settings object they are all off. *)
Theorem lock_manager_keeps_resolver_flags (now : Z) (target tid : string)
    (lm : TemplateLockManager.t) (w : World) :
  resolver_flags (snd (TemplateLockManager.setLock now target tid lm w))
  = resolver_flags w
  /\ resolver_flags (snd (TemplateLockManager.clearLock now target lm w))
     = resolver_flags w
  /\ resolver_flags (snd (TemplateLockManager.loadCurrentLocks now lm w))
     = resolver_flags w
  /\ resolver_flags (snd (TemplateLockManager.getLockToApply now lm w))
     = resolver_flags w
  /\ (ext_ccpm w = None -> resolver_flags w = (false, false, false)).
Proof.
  repeat split.
  - unfold TemplateLockManager.setLock, TemplateLockManager.finish.
    destruct (ChatContext.getCurrent now w
                (TemplateLockManager.chatContext lm)) as [[context|e] cc];
      [|reflexivity].
    repeat match goal with
           | |- context [if ?b then _ else _] => destruct b
           | |- context [match characterName context with _ => _ end] =>
             destruct (characterName context)
           end; try reflexivity;
      match goal with
      | |- context [let '(_, _) := ?x in _] =>
        match x with
        | TemplateStorageAdapter.setCharacterTemplateLock ?k ?t ?w0 =>
          pose proof (setCharacterTemplateLock_flags w0 k t) as H
        | TemplateStorageAdapter.setChatTemplateLock ?t ?w0 =>
          pose proof (setChatTemplateLock_flags w0 t) as H
        | TemplateStorageAdapter.setGroupChatTemplateLock ?g ?t ?w0 =>
          pose proof (setGroupChatTemplateLock_flags w0 g t) as H
        | TemplateStorageAdapter.setGroupTemplateLock ?g ?t ?w0 =>
          pose proof (setGroupTemplateLock_flags w0 g t) as H
        end;
        destruct x; exact H
      end.
  - unfold TemplateLockManager.clearLock, TemplateLockManager.finish.
    destruct (ChatContext.getCurrent now w
                (TemplateLockManager.chatContext lm)) as [[context|e] cc];
      [|reflexivity].
    repeat match goal with
           | |- context [if ?b then _ else _] => destruct b
           | |- context [match characterName context with _ => _ end] =>
             destruct (characterName context)
           end; try reflexivity;
      match goal with
      | |- context [let '(_, _) := ?x in _] =>
        match x with
        | TemplateStorageAdapter.deleteCharacterTemplateLock ?k ?w0 =>
          pose proof (deleteCharacterTemplateLock_flags w0 k) as H
        | TemplateStorageAdapter.deleteChatTemplateLock ?w0 =>
          pose proof (deleteChatTemplateLock_flags w0) as H
        | TemplateStorageAdapter.deleteGroupChatTemplateLock ?g ?w0 =>
          pose proof (deleteGroupChatTemplateLock_flags w0 g) as H
        | TemplateStorageAdapter.deleteGroupTemplateLock ?g ?w0 =>
          pose proof (deleteGroupTemplateLock_flags w0 g) as H
        end;
        destruct x; exact H
      end.
  - exact (proj2 (proj2 (at_most_settings_created_host _ _
                           (loadCurrentLocks_world now lm w)))).
  - exact (proj2 (proj2 (at_most_settings_created_host _ _
                           (getLockToApply_world now lm w)))).
  - intros H. unfold resolver_flags. now rewrite H.
Qed.

(** X19.  While the three flags are off, as they are until something outside
    the locking core turns them on, the lock of the chat wins: whenever
    the chat slot (the chat of a single chat, the chat session of a
    group) holds a lock, [getLockToApply] returns it, also when the
    character or the group is locked. *)
Theorem chat_lock_wins_while_flags_are_off (now : Z)
    (lm lm' : TemplateLockManager.t) (w w' : World) (r : LockResult) :
  resolver_flags w = (false, false, false) ->
  truthy (chat (TemplateLockManager.currentLocks lm)) = true ->
  TemplateLockManager.getLockToApply now lm w = (Ok r, lm', w') ->
  templateId r = chat (TemplateLockManager.currentLocks lm).
Proof.
  intros Hflags Hchat. unfold TemplateLockManager.getLockToApply.
  destruct (ChatContext.getCurrent now w (TemplateLockManager.chatContext lm))
    as [[context|e] cc]; [|discriminate].
  unfold TemplateStorageAdapter.getExtensionSettings, resolver_flags in *.
  destruct (ext_ccpm w) as [es|]; intros H; inversion H; subst; clear H;
    unfold TemplateLockResolver.resolve,
      TemplateLockResolver._resolveGroupLocks,
      TemplateLockResolver._resolveSingleLocks; simpl.
  - injection Hflags as H1 H2 H3.
    destruct (isGroupChat context); rewrite ?H1, ?H2, ?H3; simpl;
      now rewrite Hchat.
  - destruct (isGroupChat context); simpl; now rewrite Hchat.
Qed.

Lemma chat_lock_wins_witness :
  resolver_flags Scenario.world0 = (false, false, false)
  /\ truthy (chat Scenario.locksA) = true
  /\ PriorityScenario.resultA
     = (Ok {| templateId := Some "T2"; source := "chat" |},
        snd (fst PriorityScenario.resultA), snd PriorityScenario.resultA)
  /\ templateId {| templateId := Some "T2"; source := "chat" |}
     = chat Scenario.locksA.
Proof.
  split; [reflexivity|]. split; [reflexivity|]. split; [reflexivity|].
  exact (chat_lock_wins_while_flags_are_off 5000 PriorityScenario.managerA
           (snd (fst PriorityScenario.resultA)) Scenario.world0
           (snd PriorityScenario.resultA)
           {| templateId := Some "T2"; source := "chat" |}
           eq_refl eq_refl eq_refl).
Defined.

(** ** Locking a template *)

Lemma setLock_valid (now : Z) (target tid : string)
    (lm : TemplateLockManager.t) (w : World) :
  tid <> "" ->
  valid_locks (TemplateLockManager.currentLocks lm) ->
  valid_locks
    (TemplateLockManager.currentLocks
       (snd (fst (TemplateLockManager.setLock now target tid lm w)))).
Proof.
  intros Hne (Hc & Hh & Hg).
  assert (Hv : valid_lock (Some tid)) by (unfold valid_lock; congruence).
  unfold TemplateLockManager.setLock, TemplateLockManager.finish.
  destruct (ChatContext.getCurrent now w (TemplateLockManager.chatContext lm))
    as [[context|e] cc]; [|now repeat split].
  repeat match goal with
         | |- context [if ?b then _ else _] => destruct b
         | |- context [match characterName context with _ => _ end] =>
           destruct (characterName context)
         | |- context [let '(_, _) := ?x in _] => destruct x as [[|] ?]
         end; simpl; now repeat split.
Qed.

(** X20.  [lockTemplate] locks stored templates only: for an id that names no
    stored template it returns false and changes neither the manager nor
    the host, so a reported success always concerns a stored template.
    As no stored template has the empty id, the mirror of the locks stays
    a valid lock set. *)
Theorem lockTemplate_locks_stored_templates_only (now : Z)
    (tid target : string) (m : PromptTemplateManager.t) (w : World) :
  let r := LockingMethods.lockTemplate now tid target m w in
  (PromptTemplateManager.getTemplate m tid = None -> r = (Ok false, m, w))
  /\ (fst (fst r) = Ok true ->
      exists tmpl, PromptTemplateManager.getTemplate m tid = Some tmpl)
  /\ (PromptTemplateManager.getTemplate m "" = None ->
      valid_locks (TemplateLockManager.currentLocks
                     (PromptTemplateManager.lockManager m)) ->
      valid_locks (TemplateLockManager.currentLocks
                     (PromptTemplateManager.lockManager (snd (fst r))))).
Proof.
  cbv zeta. unfold LockingMethods.lockTemplate.
  destruct (PromptTemplateManager.getTemplate m tid) as [tmpl|] eqn:Hget.
  - split; [discriminate|]. split; [eauto|].
    intros Hempty Hvalid.
    assert (Hne : tid <> "") by (intros ->; congruence).
    pose proof (setLock_valid now target tid
                  (PromptTemplateManager.lockManager m) w Hne Hvalid) as H.
    now destruct (TemplateLockManager.setLock now target tid
                    (PromptTemplateManager.lockManager m) w) as [[r lm] w1].
  - split; [reflexivity|]. split; [discriminate|]. auto.
Qed.

(** ** Applying the locked template on request *)

(** X21.  [askToApplyLockedTemplate] changes nothing when the user declines: it
    returns false and the host is as it was (the settings object may
    have been created).  When the context snapshot cannot be built,
    [applyLockedTemplate] and [askToApplyLockedTemplate] catch the
    exception: both return false and leave the host exactly as it was,
    whatever the user would answer. *)
Theorem locked_template_methods_without_effect (now : Z)
    (m : PromptTemplateManager.t) (w : World) :
  (fst (fst (LockingMethods.askToApplyLockedTemplate now false m w)) = false
   /\ at_most_settings_created w
        (snd (LockingMethods.askToApplyLockedTemplate now false m w)))
  /\ forall e result,
       fst (fst (TemplateLockManager.getLockToApply now
                   (PromptTemplateManager.lockManager m) w)) = Throw e ->
       fst (fst (LockingMethods.applyLockedTemplate now m w)) = false
       /\ snd (LockingMethods.applyLockedTemplate now m w) = w
       /\ fst (fst (LockingMethods.askToApplyLockedTemplate now result m w))
          = false
       /\ snd (LockingMethods.askToApplyLockedTemplate now result m w) = w.
Proof.
  unfold LockingMethods.askToApplyLockedTemplate,
    LockingMethods.applyLockedTemplate.
  pose proof (getLockToApply_world now
                (PromptTemplateManager.lockManager m) w) as Hw.
  assert (Hthrow : forall e,
            fst (fst (TemplateLockManager.getLockToApply now
                        (PromptTemplateManager.lockManager m) w)) = Throw e ->
            snd (TemplateLockManager.getLockToApply now
                   (PromptTemplateManager.lockManager m) w) = w).
  { unfold TemplateLockManager.getLockToApply.
    destruct (ChatContext.getCurrent now w _) as [[context|e0] cc];
      [|reflexivity].
    destruct (TemplateStorageAdapter.getExtensionSettings w). discriminate. }
  destruct (TemplateLockManager.getLockToApply now
              (PromptTemplateManager.lockManager m) w) as [[r lm] w1].
  simpl in Hw, Hthrow. split.
  - destruct r as [lockResult|e]; [|now split].
    destruct (templateId lockResult) as [tid|]; [|now split].
    destruct (negb (truthy (Some tid))); [now split|].
    match goal with
    | |- context [PromptTemplateManager.getTemplate ?mm tid] =>
      destruct (PromptTemplateManager.getTemplate mm tid)
    end; now split.
  - intros e result Hr. simpl in Hr. subst r.
    rewrite (Hthrow e eq_refl). now repeat split.
Qed.

(** ** Initialization of the settings *)

(** X22.  [initializeSettings] can be run again without effect: a second run
    on its own result changes nothing.  After it the three priority
    preferences are defined, holding their stored value when there was
    one, and an old [autoApplyLocked] is gone once it has been
    migrated. *)
Theorem initializeSettings_idempotent (stored : option Settings.t) :
  let s := Settings.initializeSettings stored in
  Settings.initializeSettings (Some s) = s
  /\ is_Some (Settings.s_preferCharacterOverChat s)
  /\ is_Some (Settings.s_preferGroupOverChat s)
  /\ is_Some (Settings.s_preferIndividualCharacterInGroup s)
  /\ (forall old b,
        stored = Some old ->
        (Settings.s_preferCharacterOverChat old = Some b ->
         Settings.s_preferCharacterOverChat s = Some b)
        /\ (Settings.s_preferGroupOverChat old = Some b ->
            Settings.s_preferGroupOverChat s = Some b)
        /\ (Settings.s_preferIndividualCharacterInGroup old = Some b ->
            Settings.s_preferIndividualCharacterInGroup s = Some b))
  /\ (Settings.legacy_truthy (Settings.s_autoApplyLocked s) = true ->
      truthy (Settings.s_autoApplyMode s) = true).
Proof.
  unfold Settings.initializeSettings, Settings.legacy_truthy, truthy.
  destruct stored as [[mode locked c g i]|]; simpl.
  2:{ repeat split; eauto; intros; discriminate. }
  destruct locked as [[v|[|]]|]; destruct mode as [md|]; simpl;
    try destruct (String.eqb v "") eqn:Hv;
    try destruct (String.eqb md "") eqn:Hmd;
    simpl; rewrite ?Hv, ?Hmd; simpl;
    destruct c, g, i; simpl; repeat split; eauto;
    intros; try discriminate;
    repeat match goal with
           | H : Some _ = Some _ |- _ => inversion H; clear H; subst
           end;
    simpl in *; congruence.
Qed.

(** X23.  The auto-apply mode the change handlers read once the settings are
    initialized: a stored non-empty [autoApplyMode] as it is; otherwise
    the migration of a truthy old [autoApplyLocked], which is 'always'
    for 'auto', 'ask' for 'ask' and 'never' for everything else, the
    boolean [true] included; otherwise 'ask', also for an old [false]. *)
Theorem autoApplyMode_after_initializeSettings (stored : option Settings.t)
    (w : World) :
  let s := Settings.initializeSettings stored in
  let mode :=
    PromptTemplateManager.current_autoApplyMode
      (set_ext_ccPromptManager (Some (Settings.manager_settings s)) w) in
  match stored with
  | None => mode = AUTO_APPLY_MODES.ASK
  | Some old =>
    if truthy (Settings.s_autoApplyMode old) then
      Settings.s_autoApplyMode old = Some mode
    else
      match Settings.s_autoApplyLocked old with
      | Some (Settings.LegacyStr v) =>
        mode = if String.eqb v "auto" then AUTO_APPLY_MODES.ALWAYS
               else if String.eqb v "ask" then AUTO_APPLY_MODES.ASK
               else if String.eqb v "" then AUTO_APPLY_MODES.ASK
               else AUTO_APPLY_MODES.NEVER
      | Some (Settings.LegacyBool true) => mode = AUTO_APPLY_MODES.NEVER
      | Some (Settings.LegacyBool false) => mode = AUTO_APPLY_MODES.ASK
      | None => mode = AUTO_APPLY_MODES.ASK
      end
  end.
Proof.
  unfold Settings.initializeSettings,
    PromptTemplateManager.current_autoApplyMode, Settings.manager_settings.
  destruct stored as [[mode locked c g i]|]; simpl; [|reflexivity].
  destruct mode as [md|]; simpl.
  - destruct (String.eqb_spec md "") as [->|Hmd]; simpl.
    + destruct locked as [[v|[|]]|]; simpl; try reflexivity.
      destruct (String.eqb_spec v ""); simpl; [subst; reflexivity|].
      destruct (String.eqb_spec v "auto"); [reflexivity|].
      destruct (String.eqb_spec v "ask"); reflexivity.
    + destruct locked as [[v|[|]]|]; simpl;
        rewrite ?andb_false_r; simpl;
        destruct (String.eqb_spec md ""); try contradiction; reflexivity.
  - destruct locked as [[v|[|]]|]; simpl; try reflexivity.
    destruct (String.eqb_spec v ""); simpl; [subst; reflexivity|].
    destruct (String.eqb_spec v "auto"); [reflexivity|].
    destruct (String.eqb_spec v "ask"); reflexivity.
Qed.

(** ** Labels of the lock menu *)

Lemma truthy_nonempty (s : string) : truthy (Some s) = true -> s <> "".
Proof.
  simpl. destruct (String.eqb_spec s ""); [discriminate|auto].
Qed.

(** X24.  [getContextName] gives a non-empty label for each of the targets
    'character', 'chat' and 'group', whatever the snapshot holds, and the
    empty string for every other target; so each target the lock menu
    offers has a label. *)
Theorem getContextName_labels_the_lock_targets (context : Context)
    (target : string) :
  (LockMenu.getContextName context target = "" <->
   target <> "character" /\ target <> "chat" /\ target <> "group")
  /\ (In target (LockMenu.availableTargets context) ->
      LockMenu.getContextName context target <> "").
Proof.
  assert (Hlabel :
    LockMenu.getContextName context target = "" <->
    target <> "character" /\ target <> "chat" /\ target <> "group").
  { unfold LockMenu.getContextName.
    destruct (String.eqb_spec target "character") as [->|Hc].
    { split; [|intros (H & _); now elim H].
      destruct (characterName context) as [s|]; [|discriminate].
      destruct (truthy (Some s)) eqn:Ht; [|discriminate].
      intros ->. discriminate Ht. }
    destruct (String.eqb_spec target "chat") as [->|Hh].
    { split; [|intros (_ & H & _); now elim H].
      destruct (isGroupChat context).
      - destruct (groupName context) as [s|]; [|discriminate].
        destruct (truthy (Some s)); [|discriminate].
        destruct s; discriminate.
      - destruct (chatName context) as [s|]; [|discriminate].
        destruct (truthy (Some s)) eqn:Ht; [|discriminate].
        intros ->. discriminate Ht. }
    destruct (String.eqb_spec target "group") as [->|Hg].
    { split; [|intros (_ & _ & H); now elim H].
      destruct (groupName context) as [s|]; [|discriminate].
      destruct (truthy (Some s)) eqn:Ht; [|discriminate].
      intros ->. discriminate Ht. }
    split; auto. }
  split; [exact Hlabel|].
  intros Hin Hempty. apply Hlabel in Hempty as (Hc & Hh & Hg).
  unfold LockMenu.availableTargets in Hin.
  repeat (apply in_app_or in Hin; destruct Hin as [Hin|Hin]);
    repeat match type of Hin with
           | In _ (if ?b then _ else _) => destruct b
           end;
    simpl in Hin; intuition congruence.
Qed.

(** * The template store *)

Section TemplateStoreProperties.

Import PromptTemplateManager TemplateStore.

Lemma generateId_inj (a b : string) : generateId a = generateId b -> a = b.
Proof. unfold generateId. simpl. intros H. now injection H. Qed.

Lemma generateId_nonempty (r : string) : generateId r <> "".
Proof. unfold generateId. simpl. discriminate. Qed.

Lemma new_PromptTemplate_id_nonempty (data : TemplateData) (r : string) :
  tmpl_id (new_PromptTemplate data r) <> "".
Proof.
  unfold new_PromptTemplate. simpl.
  destruct (d_id data) as [id|]; simpl; [|apply generateId_nonempty].
  destruct (String.eqb_spec id ""); simpl; [apply generateId_nonempty|auto].
Qed.

Lemma import_loop_counts (arr : list TemplateData) :
  forall i rnd ts imported skipped,
    snd (fst (import_loop arr i rnd ts imported skipped))
    = (imported + List.length (List.filter acceptable arr))%nat
    /\ snd (import_loop arr i rnd ts imported skipped)
       = (skipped
          + List.length (List.filter (fun d => negb (acceptable d)) arr))%nat.
Proof.
  induction arr as [|a arr IH]; intros i rnd ts imported skipped; simpl.
  - split; lia.
  - destruct (acceptable a); simpl;
      match goal with
      | |- context [import_loop arr ?i' ?r ?ts' ?a' ?b'] =>
        destruct (IH i' r ts' a' b') as [-> ->]
      end; split; lia.
Qed.

Lemma import_loop_nothing (arr : list TemplateData) :
  forall i rnd ts imported skipped,
    List.length (List.filter acceptable arr) = 0%nat ->
    fst (fst (import_loop arr i rnd ts imported skipped)) = ts.
Proof.
  induction arr as [|a arr IH]; intros i rnd ts imported skipped; simpl.
  - reflexivity.
  - destruct (acceptable a); simpl; [discriminate|]. apply IH.
Qed.

Lemma import_loop_origin (arr : list TemplateData) :
  forall i rnd ts imported skipped k t,
    fst (fst (import_loop arr i rnd ts imported skipped)) !! k = Some t ->
    ts !! k = Some t
    \/ exists j data,
         arr !! j = Some data /\ acceptable data = true
         /\ k = generateId (rnd (i + j)%nat)
         /\ t = new_PromptTemplate (without_id data) (rnd (i + j)%nat).
Proof.
  induction arr as [|a arr IH]; intros i rnd ts imported skipped k t; simpl.
  - auto.
  - destruct (acceptable a) eqn:Ha; intros H; apply IH in H.
    + destruct H as [H|(j & data & Hj & Hd & -> & ->)].
      * apply lookup_insert_Some in H as [[<- <-]|[_ H]]; [|now left].
        right. exists 0%nat, a. rewrite Nat.add_0_r. now repeat split.
      * right. exists (S j), data. rewrite Nat.add_succ_r. now repeat split.
    + destruct H as [H|(j & data & Hj & Hd & -> & ->)]; [now left|].
      right. exists (S j), data. rewrite Nat.add_succ_r. now repeat split.
Qed.

Lemma import_loop_keeps (arr : list TemplateData) :
  forall i rnd ts imported skipped k,
    (forall j, (j < List.length arr)%nat ->
               generateId (rnd (i + j)%nat) <> k) ->
    fst (fst (import_loop arr i rnd ts imported skipped)) !! k = ts !! k.
Proof.
  induction arr as [|a arr IH]; intros i rnd ts imported skipped k H; simpl.
  - reflexivity.
  - assert (Hrest : forall j, (j < List.length arr)%nat ->
                              generateId (rnd (S i + j)%nat) <> k).
    { intros j Hj. specialize (H (S j)). rewrite Nat.add_succ_r in H.
      apply H. simpl. lia. }
    destruct (acceptable a).
    + rewrite IH by exact Hrest. apply lookup_insert_ne. simpl.
      specialize (H 0%nat). rewrite Nat.add_0_r in H. apply H. simpl. lia.
    + now rewrite IH.
Qed.

Lemma import_loop_stores (arr : list TemplateData) :
  forall i rnd ts imported skipped j data,
    arr !! j = Some data ->
    acceptable data = true ->
    (forall j', (j' < List.length arr)%nat ->
                rnd (i + j')%nat = rnd (i + j)%nat -> j' = j) ->
    fst (fst (import_loop arr i rnd ts imported skipped))
      !! generateId (rnd (i + j)%nat)
    = Some (new_PromptTemplate (without_id data) (rnd (i + j)%nat)).
Proof.
  induction arr as [|a arr IH];
    intros i rnd ts imported skipped j data Hj Hd Hinj; [discriminate|].
  destruct j as [|j]; simpl in Hj.
  - injection Hj as ->. simpl. rewrite Hd, Nat.add_0_r.
    rewrite import_loop_keeps.
    + apply lookup_insert_Some. now left.
    + intros j' Hj' Heq. apply generateId_inj in Heq.
      specialize (Hinj (S j')). rewrite Nat.add_succ_r, Nat.add_0_r in Hinj.
      simpl in Hinj. assert (S j' = 0%nat) by (apply Hinj; [lia|exact Heq]).
      discriminate.
  - simpl. rewrite Nat.add_succ_r.
    assert (Hinj' : forall j', (j' < List.length arr)%nat ->
                               rnd (S i + j')%nat = rnd (S i + j)%nat ->
                               j' = j).
    { intros j' Hj' Heq. specialize (Hinj (S j')).
      rewrite !Nat.add_succ_r in Hinj. simpl in Hinj.
      assert (S j' = S j) by (apply Hinj; [lia|exact Heq]). lia. }
    destruct (acceptable a); now apply (IH (S i)).
Qed.

Lemma saveSettings_effects (m : t) (w : World) :
  effects (saveSettings m w) = (effects w ++ [SaveSettingsDebounced])%list
  /\ ext_ccpm (saveSettings m w) = ext_ccpm w
  /\ chat_metadata (saveSettings m w) = chat_metadata w
  /\ groups (saveSettings m w) = groups w
  /\ PromptTemplateManager.current_autoApplyMode (saveSettings m w)
     = PromptTemplateManager.current_autoApplyMode w.
Proof.
  unfold saveSettings, PromptTemplateManager.current_autoApplyMode.
  destruct (ext_ccPromptManager w) eqn:H; simpl; rewrite ?H; now repeat split.
Qed.


(** X26.  A created template is found under its id, which is never empty;
    deleting it reports [true], removes it and leaves every other id as
    it was before the creation; both steps ask the host to save.
    Deleting it once more reports [false] and changes nothing. *)
Theorem createTemplate_deleteTemplate_round_trip
    (data : TemplateData) (r : string) (m : t) (w : World) :
  let '(tmpl, m1, w1) := createTemplate data r m w in
  let '(b, m2, w2) := deleteTemplate (tmpl_id tmpl) m1 w1 in
  tmpl_id tmpl <> ""
  /\ getTemplate m1 (tmpl_id tmpl) = Some tmpl
  /\ b = true
  /\ getTemplate m2 (tmpl_id tmpl) = None
  /\ (forall k, k <> tmpl_id tmpl -> getTemplate m2 k = getTemplate m k)
  /\ effects w2
     = (effects w ++ [SaveSettingsDebounced; SaveSettingsDebounced])%list
  /\ deleteTemplate (tmpl_id tmpl) m2 w2 = (false, m2, w2).
Proof.
  unfold createTemplate. cbv beta iota zeta.
  set (tmpl := new_PromptTemplate data r).
  unfold deleteTemplate, getTemplate, with_templates.
  cbn [templates lockManager].
  assert (Hin : <[tmpl_id tmpl := tmpl]> (templates m) !! tmpl_id tmpl
                = Some tmpl) by (apply lookup_insert_Some; now left).
  rewrite Hin. cbv beta iota zeta. cbn [templates lockManager].
  assert (Hout : delete (tmpl_id tmpl)
                   (<[tmpl_id tmpl := tmpl]> (templates m)) !! tmpl_id tmpl
                 = None) by (apply lookup_delete_None; now left).
  rewrite Hout.
  split; [apply new_PromptTemplate_id_nonempty|].
  split; [reflexivity|]. split; [reflexivity|]. split; [reflexivity|].
  split.
  { intros k Hk. rewrite lookup_delete_ne by congruence.
    apply lookup_insert_ne. congruence. }
  split; [|reflexivity].
  match goal with
  | |- effects (saveSettings ?a (saveSettings ?b w)) = _ =>
    destruct (saveSettings_effects a (saveSettings b w)) as (-> & _);
    destruct (saveSettings_effects b w) as (-> & _)
  end.
  now rewrite <- app_assoc.
Qed.

(** X27.  [importTemplates] accounts for every item: the imported ones are
    those that pass the three checks, the others are skipped; the host
    is asked to save once when something was imported and not at all
    otherwise, and then the store is unchanged. *)
Theorem importTemplates_accounts_for_every_item
    (arr : list TemplateData) (rnd : nat -> string) (m : t) (w : World) :
  let '((imported, skipped), m', w') := importTemplates arr rnd m w in
  imported = List.length (List.filter acceptable arr)
  /\ skipped = List.length (List.filter (fun d => negb (acceptable d)) arr)
  /\ (imported + skipped = List.length arr)%nat
  /\ lockManager m' = lockManager m
  /\ (imported = 0%nat -> templates m' = templates m /\ w' = w)
  /\ ((0 < imported)%nat ->
      effects w' = (effects w ++ [SaveSettingsDebounced])%list).
Proof.
  unfold importTemplates.
  pose proof (import_loop_counts arr 0 rnd (templates m) 0 0) as [Hi Hs].
  pose proof (import_loop_nothing arr 0 rnd (templates m) 0 0) as Hkeep.
  destruct (import_loop arr 0 rnd (templates m) 0 0)
    as [[ts imported] skipped].
  simpl in Hi, Hs, Hkeep. subst imported skipped.
  assert (Hlen : (List.length (List.filter acceptable arr)
                  + List.length
                      (List.filter (fun d => negb (acceptable d)) arr)
                  = List.length arr)%nat).
  { clear. induction arr as [|a arr IH]; simpl; [reflexivity|].
    destruct (acceptable a); simpl; lia. }
  assert (Hnone : List.length (List.filter acceptable arr) = 0%nat ->
                  ts = templates m).
  { exact Hkeep. }
  destruct (Nat.ltb_spec 0 (List.length (List.filter acceptable arr)));
    cbv beta iota; unfold with_templates; cbn [templates lockManager].
  - split; [reflexivity|]. split; [reflexivity|]. split; [exact Hlen|].
    split; [reflexivity|]. split; [intros H0; lia|].
    intros _. now destruct (saveSettings_effects
                              {| templates := ts;
                                 lockManager := lockManager m |} w).
  - split; [reflexivity|]. split; [reflexivity|]. split; [exact Hlen|].
    split; [reflexivity|]. split; [|intros H0; lia].
    intros H0. split; [now apply Hnone|reflexivity].
Qed.

Lemma importTemplates_templates (arr : list TemplateData)
    (rnd : nat -> string) (m : t) (w : World) :
  templates (snd (fst (importTemplates arr rnd m w)))
  = fst (fst (import_loop arr 0 rnd (templates m) 0 0)).
Proof.
  unfold importTemplates.
  destruct (import_loop arr 0 rnd (templates m) 0 0)
    as [[ts imported] skipped].
  now destruct (0 <? imported)%nat.
Qed.

(** X28.  [importTemplates] never takes over the id an item carries: every
    template in the store afterwards was there before or was made from an
    item that passes the checks, under the id generated for that item,
    with the item's name, prompt order and normalized prompts.  When the
    generated ids of the items differ, each item that passes the checks
    is in the store under its generated id. *)
Theorem importTemplates_stores_items_under_generated_ids
    (arr : list TemplateData) (rnd : nat -> string) (m : t) (w : World) :
  let m' := snd (fst (importTemplates arr rnd m w)) in
  (forall k tmpl,
     getTemplate m' k = Some tmpl ->
     getTemplate m k = Some tmpl
     \/ exists j data,
          arr !! j = Some data /\ acceptable data = true
          /\ k = generateId (rnd j) /\ tmpl_id tmpl = k
          /\ d_name data = Some (tmpl_name tmpl) /\ tmpl_name tmpl <> ""
          /\ d_promptOrder data = Some (promptOrder tmpl)
          /\ promptOrder tmpl <> []
          /\ prompts tmpl
             = validateAndNormalizePrompts (default [] (d_prompts data)))
  /\ ((forall i j, (i < List.length arr)%nat -> (j < List.length arr)%nat ->
                   rnd i = rnd j -> i = j) ->
      forall j data,
        arr !! j = Some data -> acceptable data = true ->
        getTemplate m' (generateId (rnd j))
        = Some (new_PromptTemplate (without_id data) (rnd j))).
Proof.
  cbv zeta. unfold getTemplate. rewrite importTemplates_templates. split.
  - intros k tmpl H. apply import_loop_origin in H.
    destruct H as [H|(j & data & Hj & Hd & -> & ->)]; [now left|].
    right. exists j, data. simpl. pose proof Hd as Hacc.
    unfold acceptable in Hd.
    apply andb_prop in Hd as [Hd Ho]. apply andb_prop in Hd as [Hn Hp].
    destruct (d_name data) as [name|]; [|discriminate].
    destruct (d_promptOrder data) as [order|]; [|discriminate].
    simpl in *.
    refine (conj Hj (conj Hacc (conj eq_refl (conj eq_refl (conj eq_refl
             (conj _ (conj eq_refl (conj _ eq_refl)))))))).
    + intros ->. discriminate.
    + intros ->. discriminate.
  - intros Hinj j data Hj Hd.
    apply (import_loop_stores arr 0 rnd (templates m) 0 0 j data Hj Hd).
    intros j' Hj'. simpl. apply Hinj; [exact Hj'|].
    apply lookup_lt_Some in Hj. exact Hj.
Qed.

Lemma importTemplates_stores_items_witness :
  getTemplate
    (snd (fst (importTemplates StoreScenario.items StoreScenario.rnd
                 StoreScenario.emptyManager Scenario.world0)))
    "tmpl_b7m1z8c4d"
  = Some (new_PromptTemplate (without_id StoreScenario.goodItem) "b7m1z8c4d").
Proof.
  refine (proj2 (importTemplates_stores_items_under_generated_ids
                   StoreScenario.items StoreScenario.rnd
                   StoreScenario.emptyManager Scenario.world0)
            _ 1%nat StoreScenario.goodItem eq_refl eq_refl).
  intros [|[|[|i]]] [|[|[|j]]] Hi Hj; simpl in Hi, Hj; try lia;
    vm_compute; intros H; try reflexivity; discriminate H.
Defined.

(** X29.  The store operations keep every template under its own, non-empty
    id: what holds of the store before [createTemplate], [deleteTemplate]
    or [importTemplates] holds after it. *)
Theorem store_ok_preserved (m : t) (w : World) :
  store_ok m ->
  (forall data r, store_ok (snd (fst (createTemplate data r m w))))
  /\ (forall id, store_ok (snd (fst (deleteTemplate id m w))))
  /\ (forall arr rnd, store_ok (snd (fst (importTemplates arr rnd m w)))).
Proof.
  intros Hok. split; [|split].
  - intros data r k tmpl. unfold createTemplate. cbv beta iota zeta.
    unfold with_templates. cbn [fst snd templates].
    intros H. apply lookup_insert_Some in H as [[<- <-]|[_ H]].
    + split; [reflexivity|apply new_PromptTemplate_id_nonempty].
    + now apply Hok.
  - intros id k tmpl. unfold deleteTemplate.
    destruct (templates m !! id); cbv beta iota zeta;
      unfold with_templates; cbn [fst snd templates]; intros H.
    + apply lookup_delete_Some in H as [_ H]. now apply Hok.
    + now apply Hok.
  - intros arr rnd k tmpl H. rewrite importTemplates_templates in H.
    apply import_loop_origin in H.
    destruct H as [H|(j & data & _ & _ & -> & ->)]; [now apply Hok|].
    split; [reflexivity|apply generateId_nonempty].
Qed.

Lemma store_ok_preserved_witness :
  store_ok StoreScenario.emptyManager
  /\ store_ok
       (snd (fst (importTemplates StoreScenario.items StoreScenario.rnd
                    StoreScenario.emptyManager Scenario.world0))).
Proof.
  assert (H : store_ok StoreScenario.emptyManager).
  { intros k tmpl H. simpl in H. rewrite lookup_empty in H. discriminate H. }
  split; [exact H|].
  exact (proj2 (proj2 (store_ok_preserved StoreScenario.emptyManager
                         Scenario.world0 H))
           StoreScenario.items StoreScenario.rnd).
Defined.

Lemma handler_skips_unknown_template (ev : ChangeEvent) (t1 t2 t3 t4 : Z)
    (affirmative : bool) (m : t) (w : World) (tid : string) :
  getTemplate m tid = None ->
  effective_lock_resolves_to ev t1 t2 t3 m w tid ->
  applied (handleEvent ev t1 t2 t3 t4 affirmative m w) = [].
Proof.
  intros Hget Hres. destruct ev; unfold handleEvent.
  - destruct Hres as (locks & m1 & w1 & r & m2 & w2 & Hload & Heff & Htid).
    unfold handleChatChange.
    pose proof (invalidate_and_load_templates t1 m w) as Ht1.
    pose proof (getEffectiveLock_templates t2 t3 m1 w1) as Ht2.
    rewrite Hload in *. rewrite Heff in *. simpl in Ht1, Ht2.
    destruct (String.eqb _ AUTO_APPLY_MODES.NEVER); [reflexivity|].
    rewrite Htid.
    destruct (negb (truthy (Some tid))); [reflexivity|].
    assert (Hget2 : getTemplate m2 tid = None).
    { unfold getTemplate in *. congruence. }
    now rewrite Hget2.
  - destruct Hres as (r & m2 & w2 & Heff & Htid).
    unfold handlePresetChange.
    pose proof (getEffectiveLock_templates t1 t2 m w) as Ht2.
    rewrite Heff in *. simpl in Ht2.
    destruct (String.eqb _ AUTO_APPLY_MODES.NEVER); [reflexivity|].
    rewrite Htid.
    destruct (negb (truthy (Some tid))); [reflexivity|].
    assert (Hget2 : getTemplate m2 tid = None).
    { unfold getTemplate in *. congruence. }
    destruct (String.eqb _ AUTO_APPLY_MODES.ASK).
    + destruct (ChatContext.getCurrent t3 w2 _) as [[context|e] cc];
        [|reflexivity].
      unfold getTemplate in *. cbn [templates with_lockManager].
      unfold with_lockManager. cbn [templates]. now rewrite Hget2.
    + destruct (String.eqb _ AUTO_APPLY_MODES.ALWAYS); [|reflexivity].
      now rewrite Hget2.
Qed.

(** X30.  Deleting a template leaves the locks that name it where they are:
    the lock manager and the three places that store locks are untouched
    and the auto-apply mode stays as it was.  A change handler that
    afterwards resolves the effective lock to the deleted id applies
    nothing. *)
Theorem deleteTemplate_leaves_its_locks_unapplied
    (ev : ChangeEvent) (t1 t2 t3 t4 : Z) (affirmative : bool)
    (id : string) (m : t) (w : World) :
  let '(b, m', w') := deleteTemplate id m w in
  (b = true <-> is_Some (getTemplate m id))
  /\ getTemplate m' id = None
  /\ lockManager m' = lockManager m
  /\ ext_ccpm w' = ext_ccpm w
  /\ chat_metadata w' = chat_metadata w
  /\ groups w' = groups w
  /\ current_autoApplyMode w' = current_autoApplyMode w
  /\ (effective_lock_resolves_to ev t1 t2 t3 m' w' id ->
      applied (handleEvent ev t1 t2 t3 t4 affirmative m' w') = []).
Proof.
  unfold deleteTemplate.
  destruct (templates m !! id) as [tmpl|] eqn:Hid.
  - assert (Hgone : getTemplate (with_templates (delete id (templates m)) m)
                      id = None).
    { unfold getTemplate, with_templates. cbn [templates].
      apply lookup_delete_None. now left. }
    destruct (saveSettings_effects
                (with_templates (delete id (templates m)) m) w)
      as (_ & H1 & H2 & H3 & H4).
    split.
    { unfold getTemplate. rewrite Hid. split; [eauto|reflexivity]. }
    split; [exact Hgone|]. split; [reflexivity|].
    split; [exact H1|]. split; [exact H2|]. split; [exact H3|].
    split; [exact H4|].
    now apply handler_skips_unknown_template.
  - split.
    { unfold getTemplate. rewrite Hid. split; [discriminate|].
      intros [x Hx]. discriminate Hx. }
    split; [exact Hid|]. repeat (split; [reflexivity|]).
    now apply handler_skips_unknown_template.
Qed.

End TemplateStoreProperties.
